(** * mail-generator: the Flask backend of [app.py], embedded in Rocq

    The development follows the layout of [app.py]:
    - [Py]: the few Python primitives the module relies on (exceptions as a
      result type, [str] methods, [os.path.join], decimal printing);
    - [App]: the module itself, one definition per Python function, with the
      libraries it calls (pandas, docxtpl, docx2pdf, werkzeug, json) taken as
      section variables;
    - the properties of each function, in the order of the source.

    Python [str] values are modelled as Rocq [string]s holding the UTF-8
    encoding of the text.  Every character the module tests for is ASCII, and
    an ASCII byte occurs in a UTF-8 string only as that very character, so the
    byte-wise definitions below agree with the code-point-wise Python ones. *)

From Stdlib Require Import String Ascii List ZArith Lia Bool Decimal DecimalString.
From stdpp Require Import base strings gmap list.

Local Open Scope string_scope.

(* ===================================================================== *)
(** ** Python primitives *)
(* ===================================================================== *)

Module Py.

(** A Python computation either returns or raises; [Raise msg] carries
    [str(e)], the only part of an exception [app.py] ever looks at. *)
Inductive result (A : Type) : Type :=
| Ok (a : A)
| Raise (msg : string).
Arguments Ok {A} a.
Arguments Raise {A} msg.

Definition bind {A B} (r : result A) (k : A -> result B) : result B :=
  match r with
  | Ok a => k a
  | Raise msg => Raise msg
  end.

Notation "'let*' x ':=' c1 'in' c2" := (bind c1 (fun x => c2))
  (at level 10, x name, c1 at level 100, c2 at level 200).

Definition is_ok {A} (r : result A) : bool :=
  match r with Ok _ => true | Raise _ => false end.

(** [c in s] for a one-character needle. *)
Fixpoint contains_char (c : ascii) (s : string) : bool :=
  match s with
  | EmptyString => false
  | String a s' => Ascii.eqb a c || contains_char c s'
  end.

(** [s.rsplit(sep, 1)] for a one-character separator: [None] when [sep] does
    not occur (Python then returns the one-element list [[s]]), otherwise the
    text before and the text after the last occurrence. *)
Fixpoint rsplit1 (sep : ascii) (s : string) : option (string * string) :=
  match s with
  | EmptyString => None
  | String a s' =>
      match rsplit1 sep s' with
      | Some (before, after) => Some (String a before, after)
      | None => if Ascii.eqb a sep then Some (EmptyString, s') else None
      end
  end.

(** [str.lower] on the ASCII letters.  The only characters outside ASCII
    whose lower case contains an ASCII letter are U+212A (to k) and U+0130
    (to i followed by a combining dot); neither letter occurs in an allowed
    extension, so membership in [ALLOWED_EXTENSIONS] is not affected. *)
Definition lower_char (c : ascii) : ascii :=
  let n := nat_of_ascii c in
  if (65 <=? n)%nat && (n <=? 90)%nat then ascii_of_nat (n + 32) else c.

Fixpoint lower (s : string) : string :=
  match s with
  | EmptyString => EmptyString
  | String a s' => String (lower_char a) (lower s')
  end.

(** [str(n)] for an [int]. *)
Definition str_int (n : Z) : string := NilZero.string_of_int (Z.to_int n).

(** The label a row has in the index of a [DataFrame], as far as [app.py]
    looks at it.  [read_csv] numbers the rows 0, 1, 2, ... when every data
    line has as many fields as the header, and takes the first field of each
    line as the label when the data lines have one field more.  A label that
    is neither an integer nor a string (a float, a boolean, the tuple of a
    multi-index) is given by what the code can observe of it: its [str], and
    the [str] of [idx + 1] or the message of the [TypeError]. *)
Inductive Label : Type :=
| IntLabel (n : Z)
| StrLabel (s : string)
| OtherLabel (text : string) (next : result string).

(** [str(idx)], as the f-strings of lines 200 and 203 format it. *)
Definition label_str (idx : Label) : string :=
  match idx with
  | IntLabel n => str_int n
  | StrLabel s => s
  | OtherLabel text _ => text
  end.

(** The message of [TypeError] for [str + int]. *)
Definition concat_error : string :=
  "can only concatenate str (not " +:+ String (ascii_of_nat 34) "int" +:+
  String (ascii_of_nat 34) ") to str".

(** [str(idx + 1)], as the f-string of line 221 formats it: adding 1 to a
    string raises. *)
Definition label_next (idx : Label) : result string :=
  match idx with
  | IntLabel n => Ok (str_int (n + 1))
  | StrLabel _ => Raise concat_error
  | OtherLabel _ next => next
  end.

(** [s.startswith(c)] and [s.endswith(c)] for a one-character argument. *)
Definition startswith (c : ascii) (s : string) : bool :=
  match s with
  | String a _ => Ascii.eqb a c
  | EmptyString => false
  end.

Fixpoint endswith (c : ascii) (s : string) : bool :=
  match s with
  | EmptyString => false
  | String a EmptyString => Ascii.eqb a c
  | String _ s' => endswith c s'
  end.

(** [os.path.join(a, b)] of [posixpath]: an absolute [b] discards [a]; a
    separator is inserted unless [a] is empty or already ends with one. *)
Definition path_join (a b : string) : string :=
  if startswith "/" b then b
  else if String.eqb a "" || endswith "/" a then a +:+ b
  else a +:+ "/" +:+ b.
Arguments path_join : simpl never.

(** *** Storage

    The part of the file system the handlers touch: regular files with their
    content, and directories. *)
Record fs : Type := mkFs {
  fs_files : gmap string (list Byte.byte);
  fs_dirs : gset string
}.

(** A handler step runs on the file system and either returns or raises; the
    file system it leaves behind is kept in both cases, as an [except] clause
    sees the files written before the exception. *)
Definition io (A : Type) : Type := fs -> result A * fs.

Definition ret {A} (a : A) : io A := fun s => (Ok a, s).
Definition throw {A} (msg : string) : io A := fun s => (Raise msg, s).
Definition lift {A} (r : result A) : io A := fun s => (r, s).

Definition iobind {A B} (c : io A) (k : A -> io B) : io B :=
  fun s =>
    match c s with
    | (Ok a, s') => k a s'
    | (Raise msg, s') => (Raise msg, s')
    end.

Notation "'do*' x ':=' c1 'in' c2" := (iobind c1 (fun x => c2))
  (at level 10, x name, c1 at level 100, c2 at level 200).

(** [try: body except Exception as e: handler(e)] *)
Definition try_except {A} (body : io A) (handler : string -> io A) : io A :=
  fun s =>
    match body s with
    | (Ok a, s') => (Ok a, s')
    | (Raise msg, s') => handler msg s'
    end.

(** The remainder of [p] after the prefix [pre], when [p] starts with it. *)
Fixpoint strip_prefix (pre p : string) : option string :=
  match pre, p with
  | EmptyString, _ => Some p
  | String a pre', String b p' =>
      if Ascii.eqb a b then strip_prefix pre' p' else None
  | String _ _, EmptyString => None
  end.

(** [p] lies below the directory [d]. *)
Definition is_under (d p : string) : bool :=
  match strip_prefix (d +:+ "/") p with
  | Some _ => true
  | None => false
  end.

Definition path_exists (p : string) (s : fs) : bool :=
  bool_decide (is_Some (fs_files s !! p)) || bool_decide (p ∈ fs_dirs s).

(** [os.remove(p)] *)
Definition os_remove (p : string) : io unit :=
  fun s =>
    match fs_files s !! p with
    | Some _ => (Ok tt, mkFs (delete p (fs_files s)) (fs_dirs s))
    | None => (Raise ("No such file or directory: " +:+ p), s)
    end.

(** [shutil.rmtree(d)]: the directory and everything below it. *)
Definition rmtree (d : string) : io unit :=
  fun s =>
    if bool_decide (d ∈ fs_dirs s) then
      (Ok tt,
       mkFs (filter (fun kv => is_under d kv.1 = false) (fs_files s))
            (filter (fun p => p ≠ d ∧ is_under d p = false) (fs_dirs s)))
    else (Raise ("No such file or directory: " +:+ d), s).

(** [os.makedirs(d, exist_ok=True)] for a directory [d] two levels below an
    existing one: [parent] and [d] are created unless present; a regular
    file in the way raises. *)
Definition makedirs2 (parent d : string) : io unit :=
  fun s =>
    if bool_decide (is_Some (fs_files s !! parent)) ||
       bool_decide (is_Some (fs_files s !! d))
    then (Raise ("File exists: " +:+ d), s)
    else (Ok tt, mkFs (fs_files s) ({[parent; d]} ∪ fs_dirs s)).

End Py.

Import Py.

(* ===================================================================== *)
(** ** The application module *)
(* ===================================================================== *)

Module App.

(** *** Values exchanged with the libraries *)

(** What [json.loads] returns.  Of the values of an object only three kinds
    matter to [app.py]: a string (a column name), another hashable scalar
    (number, boolean, null), and an unhashable container (list or object). *)
Inductive jvalue : Type :=
| JString (s : string)
| JScalar
| JContainer.

Inductive json : Type :=
| JObject (members : gmap string jvalue)
| JNotObject.

(** A row as [DataFrame.iterrows] yields it: a [Series] of column labels and
    values, in column order. *)
Definition Series (Cell : Type) : Type := list (string * Cell).

(** A frame: its column names, and its rows, each with its index label. *)
Record DataFrame (Cell : Type) : Type := mkDataFrame {
  df_columns : list string;
  df_rows : list (Label * Series Cell)
}.
Arguments mkDataFrame {Cell} _ _.
Arguments df_columns {Cell} _.
Arguments df_rows {Cell} _.

(** [werkzeug.datastructures.FileStorage] *)
Record FileStorage : Type := mkFile {
  filename : string;
  content : list Byte.byte
}.

(** [flask.request]: the uploaded files and the form fields. *)
Record Request : Type := mkRequest {
  req_files : gmap string FileStorage;
  req_form : gmap string string
}.

Inductive Body (Cell : Type) : Type :=
| JsonError (error : string)
| JsonVariables (variables : list string)
| JsonCsvPreview (columns : list string) (preview : list (list Cell)) (rowCount : nat)
| JsonStatusOk
| ZipAttachment (download_name : string) (entries : list (string * list Byte.byte)).
Arguments JsonError {Cell} _.
Arguments JsonVariables {Cell} _.
Arguments JsonCsvPreview {Cell} _ _ _.
Arguments JsonStatusOk {Cell}.
Arguments ZipAttachment {Cell} _ _.

Record Response (Cell : Type) : Type := mkResponse {
  status : nat;
  body : Body Cell
}.
Arguments mkResponse {Cell} _ _.
Arguments status {Cell} _.
Arguments body {Cell} _.

(** The libraries and the operating system services [app.py] calls.  Their
    behaviour is not part of the repository; every theorem below holds for
    whatever they do. *)
Record Libs : Type := mkLibs {
  (** pandas scalars and [str(value)] *)
  Cell : Type;
  py_str : Cell -> string;
  (** [pd.read_csv(file, sep=';', encoding=..., nrows=...)] on the bytes of
      the file *)
  read_csv : list Byte.byte -> string -> option nat -> result (DataFrame Cell);
  (** docxtpl: [DocxTemplate(file)], [get_undeclared_variables()], and
      [render(context)] giving the bytes [save] writes *)
  Template : Type;
  DocxTemplate : list Byte.byte -> result Template;
  get_undeclared_variables : Template -> result (list string);
  render : Template -> gmap string string -> result (list Byte.byte);
  (** docx2pdf: [convert(docx, pdf)] giving the bytes of the PDF *)
  convert : list Byte.byte -> result (list Byte.byte);
  (** [json.loads], [werkzeug.utils.secure_filename] *)
  json_loads : string -> result json;
  secure_filename : string -> string;
  (** [tempfile.gettempdir()], and the name [tempfile.mkdtemp()] picks *)
  gettempdir : string;
  mkdtemp_name : fs -> result string;
  (** the operating system refusing to create a file at a path (no
      permission, no directory to hold it, ...) *)
  storage_error : string -> option string;
  (** [datetime.now().strftime('%Y%m%d_%H%M%S')] *)
  timestamp : string
}.

(** [MAX_FILE_SIZE = 50 * 1024 * 1024] *)
Definition MAX_FILE_SIZE : nat := 50 * 1024 * 1024.

(** [ALLOWED_EXTENSIONS = {'docx', 'csv'}] *)
Definition ALLOWED_EXTENSIONS : list string := ["docx"; "csv"].

Definition in_allowed (ext : string) : bool :=
  existsb (String.eqb ext) ALLOWED_EXTENSIONS.

(** [allowed_file]: the guard ['.' in filename] makes the index [[1]] of the
    split safe, so the function never raises. *)
Definition allowed_file (filename : string) : bool :=
  contains_char "." filename &&
  match rsplit1 "." filename with
  | Some (_, ext) => in_allowed (lower ext)
  | None => false
  end.

(** The character class of the regular expression in [sanitize_filename]. *)
Definition forbidden_chars : list ascii :=
  ["<"; ">"; ":"; ascii_of_nat 34; "/"; "\"; "|"; "?"; "*"]%char.

Definition is_forbidden (c : ascii) : bool :=
  existsb (Ascii.eqb c) forbidden_chars.
Arguments is_forbidden : simpl never.

(** [sanitize_filename]: [re.sub] with a one-character class replaces each
    matching character, one by one, with the underscore. *)
Fixpoint sanitize_filename (filename : string) : string :=
  match filename with
  | EmptyString => EmptyString
  | String c rest =>
      String (if is_forbidden c then "_"%char else c) (sanitize_filename rest)
  end.

Section WithLibs.

Context (L : Libs).

(** [file.save(path)] and [doc.save(path)] *)
Definition write_file (path : string) (data : list Byte.byte) : io unit :=
  fun s =>
    match storage_error L path with
    | Some msg => (Raise msg, s)
    | None => (Ok tt, mkFs (<[path := data]> (fs_files s)) (fs_dirs s))
    end.

(** Opening a file for reading. *)
Definition read_file (path : string) : io (list Byte.byte) :=
  fun s =>
    match fs_files s !! path with
    | Some data => (Ok data, s)
    | None => (Raise ("No such file or directory: " +:+ path), s)
    end.

(** [tempfile.mkdtemp()] *)
Definition mkdtemp : io string :=
  fun s =>
    match mkdtemp_name L s with
    | Ok d => (Ok d, mkFs (fs_files s) ({[d]} ∪ fs_dirs s))
    | Raise msg => (Raise msg, s)
    end.

(** [pd.read_csv(file_path, sep=';', encoding=encoding, nrows=nrows)] *)
Definition pd_read_csv (file_path encoding : string) (nrows : option nat)
  : io (DataFrame (Cell L)) :=
  do* data := read_file file_path in lift (read_csv L data encoding nrows).

(** [detect_csv_encoding] *)
Definition encodings : list string :=
  ["utf-8"; "utf-8-sig"; "latin-1"; "cp1252"; "iso-8859-1"].

Fixpoint detect_loop (file_path : string) (encs : list string) (s : fs) : string :=
  match encs with
  | [] => "utf-8"
  | encoding :: rest =>
      match pd_read_csv file_path encoding (Some 1) s with
      | (Ok _, _) => encoding
      | (Raise _, _) => detect_loop file_path rest s
      end
  end.

Definition detect_csv_encoding (file_path : string) (s : fs) : string :=
  detect_loop file_path encodings s.

(** [get_csv_columns] *)
Definition get_csv_columns (file_path : string) (s : fs) : option (list string) :=
  let encoding := detect_csv_encoding file_path s in
  match pd_read_csv file_path encoding (Some 0) s with
  | (Ok df, _) => Some (df_columns df)
  | (Raise _, _) => None
  end.

(** *** Building the render context (lines 186-193) *)

(** [field_mapping.get(var_name, var_name)]: only a dict has a [get]. *)
Definition mapping_get (field_mapping : json) (var_name : string) : result jvalue :=
  match field_mapping with
  | JObject members => Ok (default (JString var_name) (members !! var_name))
  | JNotObject => Raise "object has no attribute 'get'"
  end.

(** The value stored under the first occurrence of a label. *)
Fixpoint series_lookup (label : string) (row : Series (Cell L)) : option (Cell L) :=
  match row with
  | [] => None
  | (l, v) :: rest => if String.eqb l label then Some v else series_lookup label rest
  end.

(** [csv_column in row.index]: the labels are strings, so no other scalar is
    among them, and a list or dict cannot be hashed. *)
Definition in_index (csv_column : jvalue) (row : Series (Cell L)) : result bool :=
  match csv_column with
  | JString c => Ok (bool_decide (c ∈ row.*1))
  | JScalar => Ok false
  | JContainer => Raise "unhashable type"
  end.

(** [row[csv_column]] *)
Definition series_getitem (row : Series (Cell L)) (csv_column : jvalue) : result (Cell L) :=
  match csv_column with
  | JString c =>
      match series_lookup c row with
      | Some v => Ok v
      | None => Raise ("'" +:+ c +:+ "'")
      end
  | JScalar => Raise "KeyError"
  | JContainer => Raise "unhashable type"
  end.

(** The value assigned to [context[var_name]]. *)
Definition context_value (field_mapping : json) (row : Series (Cell L))
  (var_name : string) : result string :=
  let* csv_column := mapping_get field_mapping var_name in
  let* present := in_index csv_column row in
  if present then
    let* v := series_getitem row csv_column in Ok (py_str L v)
  else Ok ("[" +:+ var_name +:+ "]").

(** The loop over the template's variables, updating [context] in place. *)
Fixpoint build_context (field_mapping : json) (row : Series (Cell L))
  (vars : list string) (context : gmap string string) : result (gmap string string) :=
  match vars with
  | [] => Ok context
  | var_name :: rest =>
      let* v := context_value field_mapping row var_name in
      build_context field_mapping row rest (<[var_name := v]> context)
  end.

(** *** Naming the output (lines 200-205) *)

(** [str(row.get(key, default))] for a [default] that is a string. *)
Definition series_get_str (row : Series (Cell L)) (key default : string) : string :=
  match series_lookup key row with
  | Some v => py_str L v
  | None => default
  end.

Definition row_email (idx : Label) (row : Series (Cell L)) : string :=
  series_get_str row "Email" ("row_" +:+ label_str idx).

Definition row_org (row : Series (Cell L)) : string :=
  series_get_str row "Организация" "".

Definition safe_email (idx : Label) (row : Series (Cell L)) : string :=
  sanitize_filename (row_email idx row).

Definition safe_org (idx : Label) (row : Series (Cell L)) : string :=
  let org := row_org row in
  if String.eqb org "" then "doc_" +:+ label_str idx else sanitize_filename org.

Definition base_name (idx : Label) (row : Series (Cell L)) : string :=
  safe_email idx row +:+ "_" +:+ safe_org idx row.

Definition docx_filename (idx : Label) (row : Series (Cell L)) : string :=
  base_name idx row +:+ ".docx".

Definition pdf_filename (idx : Label) (row : Series (Cell L)) : string :=
  base_name idx row +:+ ".pdf".

(** *** One row (the body of the [try] at lines 185-218) *)

(** [DocxTemplate(path)] *)
Definition open_template (path : string) : io (Template L) :=
  do* data := read_file path in lift (DocxTemplate L data).

(** Lines 210-216: the conversion is attempted and any failure dropped. *)
Definition convert_to_pdf (docx_path pdf_path : string) : io unit :=
  try_except
    (do* docx := read_file docx_path in
     do* pdf := lift (convert L docx) in
     write_file pdf_path pdf)
    (fun _ => ret tt).

Definition render_row (template_path output_folder pdf_folder : string)
  (doc_template : Template L) (field_mapping : json)
  (idx : Label) (row : Series (Cell L)) : io unit :=
  do* vars := lift (get_undeclared_variables L doc_template) in
  do* context := lift (build_context field_mapping row vars ∅) in
  do* doc := open_template template_path in
  do* rendered := lift (render L doc context) in
  let docx_path := path_join output_folder (docx_filename idx row) in
  do* _ := write_file docx_path rendered in
  let pdf_path := path_join pdf_folder (pdf_filename idx row) in
  do* _ := convert_to_pdf docx_path pdf_path in
  ret tt.

(** *** The loop over the rows (lines 180-222) *)

(** [data.iterrows()]: the rows in order, each with its index label. *)
Definition iterrows (data : DataFrame (Cell L)) : list (Label * Series (Cell L)) :=
  df_rows data.

(** The line of line 221; evaluating [idx + 1] can raise. *)
Definition row_error (idx : Label) (msg : string) : result string :=
  let* number := label_next idx in
  Ok ("Строка " +:+ number +:+ ": " +:+ msg).

(** An exception raised while the [except] clause of a row runs is not
    caught there: it leaves the loop. *)
Fixpoint generate_loop (template_path output_folder pdf_folder : string)
  (doc_template : Template L) (field_mapping : json)
  (rows : list (Label * Series (Cell L)))
  (success_count : nat) (error_list : list string) : io (nat * list string) :=
  match rows with
  | [] => ret (success_count, error_list)
  | (idx, row) :: rest =>
      fun s =>
        match render_row template_path output_folder pdf_folder
                doc_template field_mapping idx row s with
        | (Ok _, s') =>
            generate_loop template_path output_folder pdf_folder
              doc_template field_mapping rest (success_count + 1) error_list s'
        | (Raise msg, s') =>
            match row_error idx msg with
            | Ok line =>
                generate_loop template_path output_folder pdf_folder
                  doc_template field_mapping rest success_count
                  (error_list ++ [line]) s'
            | Raise e => (Raise e, s')
            end
        end
  end.

(** *** The archive (lines 228-234) *)

(** [", ".join(l)] *)
Fixpoint str_join (sep : string) (l : list string) : string :=
  match l with
  | [] => ""
  | [x] => x
  | x :: rest => x +:+ sep +:+ str_join sep rest
  end.

(** [os.walk(output_folder)] visits every file below the folder;
    [os.path.relpath] names it relative to the folder. *)
Definition archive_entry (output_folder : string)
  (file : string * list Byte.byte) : option (string * list Byte.byte) :=
  match strip_prefix (output_folder +:+ "/") file.1 with
  | Some arcname => Some (arcname, file.2)
  | None => None
  end.

Definition build_zip (output_folder : string) : io (list (string * list Byte.byte)) :=
  fun s => (Ok (omap (archive_entry output_folder) (map_to_list (fs_files s))), s).

(** *** The handlers *)

Definition json_error (code : nat) (msg : string) : Response (Cell L) :=
  mkResponse code (JsonError msg).

(** The outermost [try ... except Exception as e: return ..., 500]. *)
Definition outer_try (prefix : string) (handler : io (Response (Cell L)))
  (s : fs) : Response (Cell L) * fs :=
  match handler s with
  | (Ok r, s') => (r, s')
  | (Raise msg, s') => (json_error 500 (prefix +:+ msg), s')
  end.

(** The cleanup of the preview handlers' [except] clause. *)
Definition remove_if_exists (path : string) : io unit :=
  fun s => if path_exists path s then os_remove path s else (Ok tt, s).

(** [POST /api/preview-template] *)
Definition preview_template (request : Request) : fs -> Response (Cell L) * fs :=
  outer_try "Неизвестная ошибка: "
    match req_files request !! "template" with
    | None => ret (json_error 400 "Шаблон не загружен")
    | Some template_file =>
        if String.eqb (filename template_file) "" then
          ret (json_error 400 "Файл шаблона пуст")
        else if negb (allowed_file (filename template_file)) then
          ret (json_error 400 "Недопустимый формат шаблона")
        else
          let temp_path :=
            path_join (gettempdir L) (secure_filename L (filename template_file)) in
          do* _ := write_file temp_path (content template_file) in
          try_except
            (do* doc := open_template temp_path in
             do* variables := lift (get_undeclared_variables L doc) in
             do* _ := os_remove temp_path in
             ret (mkResponse 200 (JsonVariables variables)))
            (fun e =>
               do* _ := remove_if_exists temp_path in
               ret (json_error 400 ("Ошибка при чтении шаблона: " +:+ e)))
    end.

(** [POST /api/preview-csv] *)
Definition preview_csv (request : Request) : fs -> Response (Cell L) * fs :=
  outer_try "Неизвестная ошибка: "
    match req_files request !! "csv" with
    | None => ret (json_error 400 "CSV не загружен")
    | Some csv_file =>
        if String.eqb (filename csv_file) "" then
          ret (json_error 400 "Файл CSV пуст")
        else if negb (allowed_file (filename csv_file)) then
          ret (json_error 400 "Недопустимый формат CSV")
        else
          let temp_path :=
            path_join (gettempdir L) (secure_filename L (filename csv_file)) in
          do* _ := write_file temp_path (content csv_file) in
          try_except
            (do* encoding := (fun s => (Ok (detect_csv_encoding temp_path s), s)) in
             do* df := pd_read_csv temp_path encoding None in
             let columns := df_columns df in
             let preview_data := map (fun r => map snd r.2) (take 3 (df_rows df)) in
             let row_count := length (df_rows df) in
             do* _ := os_remove temp_path in
             ret (mkResponse 200 (JsonCsvPreview columns preview_data row_count)))
            (fun e =>
               do* _ := remove_if_exists temp_path in
               ret (json_error 400 ("Ошибка при чтении CSV: " +:+ e)))
    end.

(** Lines 144 and 149-154: the field mapping of a request. *)
Definition parse_mapping (request : Request) : json :=
  let mapping := default "{}" (req_form request !! "mapping") in
  if String.eqb mapping "{}" then JObject ∅
  else
    match json_loads L mapping with
    | Ok field_mapping => field_mapping
    | Raise _ => JObject ∅
    end.

(** Lines 160-177: the uploads are stored in the work directory, the CSV is
    loaded, the output folders are created and the template is opened. *)
Definition load_inputs (template_file csv_file : FileStorage) (work_dir : string)
  : io (DataFrame (Cell L) * Template L) :=
  let template_path := path_join work_dir (secure_filename L (filename template_file)) in
  let csv_path := path_join work_dir (secure_filename L (filename csv_file)) in
  do* _ := write_file template_path (content template_file) in
  do* _ := write_file csv_path (content csv_file) in
  do* encoding := (fun s => (Ok (detect_csv_encoding csv_path s), s)) in
  do* data := pd_read_csv csv_path encoding None in
  let output_folder := path_join work_dir "output_docs" in
  let pdf_folder := path_join output_folder "pdf_files" in
  do* _ := makedirs2 output_folder pdf_folder in
  do* doc_template := open_template template_path in
  ret (data, doc_template).

(** Lines 224-250: what follows the loop. *)
Definition finish (work_dir : string) (counted : nat * list string)
  : io (Response (Cell L)) :=
  let success_count := counted.1 in
  let error_list := counted.2 in
  let output_folder := path_join work_dir "output_docs" in
  if Nat.eqb success_count 0 then
    ret (json_error 400
           ("Не удалось создать документы. Ошибки: " +:+
            str_join ", " (take 3 error_list)))
  else
    do* zip_buffer := build_zip output_folder in
    do* _ := rmtree work_dir in
    let download_name := "documents_" +:+ timestamp L +:+ ".zip" in
    ret (mkResponse 200 (ZipAttachment download_name zip_buffer)).

(** Lines 160-250: the body of the inner [try]. *)
Definition generate_in_workdir (template_file csv_file : FileStorage)
  (field_mapping : json) (work_dir : string) : io (Response (Cell L)) :=
  let template_path := path_join work_dir (secure_filename L (filename template_file)) in
  let output_folder := path_join work_dir "output_docs" in
  let pdf_folder := path_join output_folder "pdf_files" in
  do* loaded := load_inputs template_file csv_file work_dir in
  do* counted :=
    generate_loop template_path output_folder pdf_folder loaded.2
      field_mapping (iterrows loaded.1) 0 [] in
  finish work_dir counted.

(** [POST /api/generate] *)
Definition generate_documents (request : Request) : fs -> Response (Cell L) * fs :=
  outer_try "Критическая ошибка: "
    match req_files request !! "template", req_files request !! "csv" with
    | Some template_file, Some csv_file =>
        if String.eqb (filename template_file) "" || String.eqb (filename csv_file) "" then
          ret (json_error 400 "Файлы не выбраны")
        else
          let field_mapping := parse_mapping request in
          do* work_dir := mkdtemp in
          try_except
            (generate_in_workdir template_file csv_file field_mapping work_dir)
            (fun e =>
               do* _ := rmtree work_dir in
               ret (json_error 400 ("Ошибка обработки: " +:+ e)))
    | _, _ => ret (json_error 400 "Шаблон и CSV обязательны")
    end.

(** [GET /health] *)
Definition health : Response (Cell L) := mkResponse 200 JsonStatusOk.

(** The handler of error 413. *)
Definition too_large : Response (Cell L) :=
  json_error 413 "Файл слишком большой (максимум 50MB)".

End WithLibs.

End App.

Import App.

(* ===================================================================== *)
(** ** A small world to run the handlers in *)
(* ===================================================================== *)

Module Demo.

Definition b (s : string) : list Byte.byte := list_byte_of_string s.

(** One row per byte of the CSV file; the byte [x00] marks a row whose
    rendering fails. *)
Definition demo_row (c : Byte.byte) : Series string :=
  [("Name", if Byte.eqb c Byte.x00 then "FAIL" else "Alice");
   ("Email", "alice@example.org");
   ("Организация", "Acme")].

(** The rows of such a file, numbered from 0. *)
Definition demo_rows (data : list Byte.byte) : list (Label * Series string) :=
  imap (fun i c => (IntLabel (Z.of_nat i), demo_row c)) data.

Definition frame (data : list Byte.byte) : DataFrame string :=
  mkDataFrame ["Name"; "Email"; "Организация"] (demo_rows data).

Definition demo_read_csv (data : list Byte.byte) (encoding : string)
  (nrows : option nat) : result (DataFrame string) :=
  match data with
  | [] => Raise "No columns to parse from file"
  | _ =>
      let rows := demo_rows data in
      Ok (mkDataFrame ["Name"; "Email"; "Организация"]
            (match nrows with Some n => take n rows | None => rows end))
  end.

Definition demo_render (t : list Byte.byte) (context : gmap string string)
  : result (list Byte.byte) :=
  if bool_decide (context !! "Name" = Some "FAIL") then Raise "render failed"
  else Ok (t ++ b (default "" (context !! "Name")) ++ b (default "" (context !! "Phone")))%list.

Definition demo_json_loads (s : string) : result json :=
  if String.eqb s "phone=Tel" then Ok (JObject {[ "Phone" := JString "Tel" ]})
  else Raise "Expecting value".

Definition libs : Libs :=
  {| Cell := string;
     py_str := fun v => v;
     read_csv := demo_read_csv;
     Template := list Byte.byte;
     DocxTemplate := fun data => Ok data;
     get_undeclared_variables := fun _ => Ok ["Name"; "Phone"];
     render := demo_render;
     convert := fun _ => Raise "no converter installed";
     json_loads := demo_json_loads;
     secure_filename := sanitize_filename;
     gettempdir := "/tmp";
     mkdtemp_name := fun _ => Ok "/tmp/tmpwork";
     storage_error := fun _ => None;
     timestamp := "20240101_120000" |}.

Definition empty_fs : fs := mkFs ∅ {[ "/tmp" ]}.

Definition upload (template_name csv_name : string) (csv : list Byte.byte) : Request :=
  mkRequest
    {[ "template" := mkFile template_name (b "T:");
       "csv" := mkFile csv_name csv ]}
    ∅.

(** The same world with other surroundings: what [mkdtemp] answers, which
    paths cannot be written, what the PDF converter does, and what
    [json.loads] returns. *)
Definition world (tmp : fs -> result string) (refused : string -> option string)
  (converter : list Byte.byte -> result (list Byte.byte))
  (parser : string -> result json) : Libs :=
  {| Cell := string;
     py_str := fun v => v;
     read_csv := demo_read_csv;
     Template := list Byte.byte;
     DocxTemplate :=
       fun data => if bool_decide (data = []) then Raise "Package not found" else Ok data;
     get_undeclared_variables := fun _ => Ok ["Name"; "Phone"];
     render := demo_render;
     convert := converter;
     json_loads := parser;
     secure_filename := sanitize_filename;
     gettempdir := "/tmp";
     mkdtemp_name := tmp;
     storage_error := refused;
     timestamp := "20240101_120000" |}.

(** A request that carries the given files under the given field names. *)
Definition upload_as (field : string) (name : string) (data : list Byte.byte) : Request :=
  mkRequest {[ field := mkFile name data ]} ∅.

(** *** A reader of small CSV files

    What [pd.read_csv(file, sep=';')] makes of the files used below: UTF-8
    text, one record per line, fields without quotes whose text is not a
    number.  Blank lines are skipped.  An empty field is read as NaN, whose
    [str] is [nan].  When the first data line has one field more than the
    header, the first field of every line becomes the label of its row;
    otherwise the rows are numbered from 0. *)

(** [s.split(sep)] for a one-character separator. *)
Fixpoint split_on (sep : ascii) (s : string) : list string :=
  match s with
  | EmptyString => [""]
  | String a rest =>
      if Ascii.eqb a sep then "" :: split_on sep rest
      else
        match split_on sep rest with
        | x :: xs => String a x :: xs
        | [] => [String a ""]
        end
  end.

Definition newline : ascii := ascii_of_nat 10.

(** The bytes of a file with the given lines. *)
Definition csv_lines (lines : list string) : list Byte.byte :=
  b (fold_right (fun line text => line +:+ String newline text) "" lines).

Definition csv_cell (field : string) : option string :=
  if String.eqb field "" then None else Some field.

Definition csv_series (columns fields : list string) : Series (option string) :=
  imap (fun j column => (column, from_option csv_cell None (fields !! j))) columns.

Definition csv_row (columns : list string) (labelled : bool) (i : nat) (line : string)
  : Label * Series (option string) :=
  match labelled, split_on ";" line with
  | true, label :: fields => (StrLabel label, csv_series columns fields)
  | _, fields => (IntLabel (Z.of_nat i), csv_series columns fields)
  end.

Definition csv_read (data : list Byte.byte) (encoding : string)
  (nrows : option nat) : result (DataFrame (option string)) :=
  let lines :=
    List.filter (fun line => negb (String.eqb line ""))
      (split_on newline (string_of_list_byte data)) in
  match lines with
  | [] => Raise "No columns to parse from file"
  | header :: records =>
      let columns := split_on ";" header in
      let labelled :=
        match records with
        | first :: _ => Nat.eqb (length (split_on ";" first)) (S (length columns))
        | [] => false
        end in
      let rows := imap (csv_row columns labelled) records in
      Ok (mkDataFrame columns
            (match nrows with Some n => take n rows | None => rows end))
  end.

(** The world of [libs], with its files read as CSV text. *)
Definition csv_libs : Libs :=
  {| Cell := option string;
     py_str := default "nan";
     read_csv := csv_read;
     Template := list Byte.byte;
     DocxTemplate := fun data => Ok data;
     get_undeclared_variables := fun _ => Ok ["Name"; "Phone"];
     render := demo_render;
     convert := fun _ => Raise "no converter installed";
     json_loads := demo_json_loads;
     secure_filename := sanitize_filename;
     gettempdir := "/tmp";
     mkdtemp_name := fun _ => Ok "/tmp/tmpwork";
     storage_error := fun _ => None;
     timestamp := "20240101_120000" |}.

End Demo.

(* ===================================================================== *)
(** ** Notions used in the statements *)
(* ===================================================================== *)

(** [s] ends with the text [suffix]. *)
Fixpoint has_suffix (suffix s : string) : bool :=
  String.eqb s suffix ||
  match s with
  | EmptyString => false
  | String _ rest => has_suffix suffix rest
  end.

(** The number of entries of an archive whose name ends in [.docx]. *)
Definition docx_count (entries : list (string * list Byte.byte)) : nat :=
  length (filter (fun entry => has_suffix ".docx" entry.1 = true) entries).

(** The path of a file that becomes a DOCX entry of the archive. *)
Definition docx_entry_path (output_folder : string)
  (file : string * list Byte.byte) : option string :=
  match archive_entry output_folder file with
  | Some entry => if has_suffix ".docx" entry.1 then Some file.1 else None
  | None => None
  end.

Section Notions.

Context (L : Libs).

(** The probe of line 41: does [read_csv] with [nrows=1] return? *)
Definition probe (file_path : string) (s : fs) (encoding : string) : bool :=
  is_ok (pd_read_csv L file_path encoding (Some 1) s).1.

(** The form field [mapping] is missing, or [json.loads] raises on it. *)
Definition mapping_unusable (request : Request) : bool :=
  match req_form request !! "mapping" with
  | None => true
  | Some mapping => negb (is_ok (json_loads L mapping))
  end.

(** The same request with the form field [mapping] set to [mapping]. *)
Definition with_mapping (request : Request) (mapping : string) : Request :=
  mkRequest (req_files request) (<["mapping" := mapping]> (req_form request)).

(** The name of the document of a row, part by part: the sanitized [Email]
    value, or [row_] and the sanitized text of the index label without such
    a column ... *)
Definition expected_email (idx : Label) (row : Series (Cell L)) : string :=
  match series_lookup L "Email" row with
  | Some v => sanitize_filename (py_str L v)
  | None => "row_" +:+ sanitize_filename (label_str idx)
  end.

(** ... and the sanitized organization value, or [doc_] and the text of the
    index label as it is when the column is missing or the string of its
    value is empty. *)
Definition expected_org (idx : Label) (row : Series (Cell L)) : string :=
  match series_lookup L "Организация" row with
  | Some v =>
      if String.eqb (py_str L v) "" then "doc_" +:+ label_str idx
      else sanitize_filename (py_str L v)
  | None => "doc_" +:+ label_str idx
  end.

(** The value the specification gives to a placeholder: the string of the
    row's value in the mapped column (the placeholder's own name when the
    mapping has no entry for it), or the bracketed placeholder name. *)
Definition expected_value (mapping : gmap string string) (row : Series (Cell L))
  (placeholder : string) : string :=
  match series_lookup L (default placeholder (mapping !! placeholder)) row with
  | Some v => py_str L v
  | None => "[" +:+ placeholder +:+ "]"
  end.

(** The outcome of every row, in order, and the file system after the last
    one: what the loop of lines 183-222 does, without its two counters. *)
Fixpoint run_rows (template_path output_folder pdf_folder : string)
  (doc_template : Template L) (field_mapping : json)
  (rows : list (Label * Series (Cell L))) (s : fs) : list (result unit) * fs :=
  match rows with
  | [] => ([], s)
  | (idx, row) :: rest =>
      let step :=
        render_row L template_path output_folder pdf_folder doc_template
          field_mapping idx row s in
      let later :=
        run_rows template_path output_folder pdf_folder doc_template
          field_mapping rest step.2 in
      (step.1 :: later.1, later.2)
  end.

(** The number of rows that did not raise. *)
Fixpoint count_ok (outcomes : list (result unit)) : nat :=
  match outcomes with
  | [] => 0
  | Ok _ :: rest => S (count_ok rest)
  | Raise _ :: rest => count_ok rest
  end.

(** The error line of a row that raised. *)
Definition error_entry (x : (Label * Series (Cell L)) * result unit) : option string :=
  match x.2 with
  | Raise msg =>
      match label_next x.1.1 with
      | Ok number => Some ("Строка " +:+ number +:+ ": " +:+ msg)
      | Raise _ => None
      end
  | Ok _ => None
  end.

(** The error line of a row that raised can be written: [idx + 1] is
    defined for its label.  A row that succeeded needs no line. *)
Definition line_printable (x : (Label * Series (Cell L)) * result unit) : bool :=
  match x.2 with
  | Raise _ => is_ok (label_next x.1.1)
  | Ok _ => true
  end.

(** Every row that raised has a label for which the error line can be
    written; so it is for a frame whose labels are integers, the default. *)
Definition lines_printable (rows : list (Label * Series (Cell L)))
  (outcomes : list (result unit)) : bool :=
  forallb line_printable (zip rows outcomes).

Definition error_entries (rows : list (Label * Series (Cell L)))
  (outcomes : list (result unit)) : list string :=
  omap error_entry (zip rows outcomes).

(** The DOCX path of a row that did not raise. *)
Definition written_path (output_folder : string)
  (x : (Label * Series (Cell L)) * result unit) : option string :=
  match x.2 with
  | Ok _ => Some (path_join output_folder (docx_filename L x.1.1 x.1.2))
  | Raise _ => None
  end.

Definition written_paths (output_folder : string)
  (rows : list (Label * Series (Cell L))) (outcomes : list (result unit)) : list string :=
  omap (written_path output_folder) (zip rows outcomes).

End Notions.

Section FurtherNotions.

Context (L : Libs).

(** The encoding [detect_csv_encoding] settles on, as a function of the
    bytes of the file: the first candidate under which the trial parse of
    these bytes returns, ['utf-8'] when there is none. *)
Fixpoint first_readable (data : list Byte.byte) (encs : list string) : string :=
  match encs with
  | [] => "utf-8"
  | encoding :: rest =>
      if is_ok (read_csv L data encoding (Some 1)) then encoding
      else first_readable data rest
  end.

(** Where a preview handler stores an upload. *)
Definition temp_path (file : FileStorage) : string :=
  path_join (gettempdir L) (secure_filename L (filename file)).

(** The PDF path of a row that did not raise. *)
Definition converted_path (pdf_folder : string)
  (x : (Label * Series (Cell L)) * result unit) : option string :=
  match x.2 with
  | Ok _ => Some (path_join pdf_folder (pdf_filename L x.1.1 x.1.2))
  | Raise _ => None
  end.

Definition converted_paths (pdf_folder : string)
  (rows : list (Label * Series (Cell L))) (outcomes : list (result unit)) : list string :=
  omap (converted_path pdf_folder) (zip rows outcomes).

(** The names of the entries of the archive an answer carries. *)
Definition archive_names (response : Response (Cell L)) : list string :=
  match body response with
  | ZipAttachment _ entries => entries.*1
  | _ => []
  end.

(** No character of the class of [sanitize_filename] occurs in the text. *)
Definition free_of_forbidden (text : string) : bool :=
  forallb (fun c => negb (contains_char c text)) forbidden_chars.

(** The statuses the handlers answer with. *)
Definition known_status (code : nat) : bool :=
  Nat.eqb code 200 || Nat.eqb code 400 || Nat.eqb code 500.

(** The request lacks one of the two files, or one of them has an empty
    filename (lines 139 and 146). *)
Definition incomplete_upload (request : Request) : bool :=
  match req_files request !! "template", req_files request !! "csv" with
  | Some template_file, Some csv_file =>
      String.eqb (filename template_file) "" || String.eqb (filename csv_file) ""
  | _, _ => true
  end.

End FurtherNotions.

(* ===================================================================== *)
(** ** Properties of the string helpers *)
(* ===================================================================== *)

Section StringFacts.

Lemma append_nil_l (s : string) : "" +:+ s = s.
Proof. reflexivity. Qed.

Lemma append_cons (a : ascii) (s t : string) :
  String a s +:+ t = String a (s +:+ t).
Proof. reflexivity. Qed.

Lemma append_nil_r (s : string) : s +:+ "" = s.
Proof.
  induction s as [|a s IH]; [reflexivity|].
  now rewrite append_cons, IH.
Qed.

Lemma append_assoc (s t u : string) : (s +:+ t) +:+ u = s +:+ (t +:+ u).
Proof.
  induction s as [|a s IH]; [reflexivity|].
  now rewrite !append_cons, IH.
Qed.

Lemma contains_char_append (c : ascii) (s t : string) :
  contains_char c (s +:+ t) = contains_char c s || contains_char c t.
Proof.
  induction s as [|a s IH]; [reflexivity|].
  rewrite append_cons. cbn. rewrite IH. now rewrite orb_assoc.
Qed.

(** Without the separator there is nothing to split. *)
Lemma rsplit1_absent (sep : ascii) (s : string) :
  contains_char sep s = false -> rsplit1 sep s = None.
Proof.
  induction s as [|a s IH]; cbn; [reflexivity|].
  intros H. apply orb_false_iff in H as [Ha Hs].
  rewrite (IH Hs), Ha. reflexivity.
Qed.

(** The split happens at the last separator: whatever precedes it, the second
    component is the text that follows it. *)
Lemma rsplit1_last (sep : ascii) (stem ext : string) :
  contains_char sep ext = false ->
  rsplit1 sep (stem +:+ String sep ext) = Some (stem, ext).
Proof.
  intros Hext. induction stem as [|a stem IH].
  - rewrite append_nil_l. cbn.
    rewrite (rsplit1_absent _ _ Hext), Ascii.eqb_refl. reflexivity.
  - rewrite append_cons. cbn. rewrite IH. reflexivity.
Qed.

End StringFacts.

(* ===================================================================== *)
(** ** [sanitize_filename] *)
(* ===================================================================== *)

Section Sanitize.

Lemma is_forbidden_underscore : is_forbidden "_" = false.
Proof. reflexivity. Qed.

(** The character written in place of [c] is never one of the class. *)
Lemma sanitized_char_allowed (c : ascii) :
  is_forbidden (if is_forbidden c then "_"%char else c) = false.
Proof. destruct (is_forbidden c) eqn:E; [reflexivity | exact E]. Qed.

Lemma sanitize_no_forbidden (c : ascii) (s : string) :
  is_forbidden c = true -> contains_char c (sanitize_filename s) = false.
Proof.
  intros Hc. induction s as [|a s IH]; cbn; [reflexivity|].
  rewrite IH, orb_false_r.
  apply Ascii.eqb_neq. intros E.
  pose proof (sanitized_char_allowed a) as H. congruence.
Qed.

Lemma sanitize_idempotent (s : string) :
  sanitize_filename (sanitize_filename s) = sanitize_filename s.
Proof.
  induction s as [|a s IH]; cbn; [reflexivity|].
  rewrite IH, sanitized_char_allowed. reflexivity.
Qed.

(** A string free of the class is left alone. *)
Lemma sanitize_clean (s : string) :
  (forall c, is_forbidden c = true -> contains_char c s = false) ->
  sanitize_filename s = s.
Proof.
  induction s as [|a s IH]; cbn; intros H; [reflexivity|].
  destruct (is_forbidden a) eqn:Ea.
  - specialize (H a Ea). rewrite Ascii.eqb_refl in H. discriminate.
  - rewrite IH; [reflexivity|].
    intros c Hc. specialize (H c Hc). now apply orb_false_iff in H.
Qed.

Lemma sanitize_append (s t : string) :
  sanitize_filename (s +:+ t) = sanitize_filename s +:+ sanitize_filename t.
Proof.
  induction s as [|a s IH]; [reflexivity|].
  rewrite append_cons. cbn. now rewrite IH, append_cons.
Qed.

Lemma sanitize_length (s : string) :
  String.length (sanitize_filename s) = String.length s.
Proof. induction s as [|a s IH]; cbn; [reflexivity | now rewrite IH]. Qed.

End Sanitize.

(** C6. [sanitize_filename] is a total function on strings (it is defined by
    structural recursion, so it returns on every input).  For every string
    [s], none of the nine characters of the class (less-than, greater-than,
    colon, double quote, slash, backslash, vertical bar, question mark,
    asterisk) occurs in [sanitize_filename s], and sanitizing a second time
    changes nothing. *)
Theorem sanitize_filename_total_clean_idempotent (s : string) :
  (exists r, sanitize_filename s = r) /\
  forallb (fun c => negb (contains_char c (sanitize_filename s)))
    ["<"; ">"; ":"; ascii_of_nat 34; "/"; "\"; "|"; "?"; "*"]%char = true /\
  sanitize_filename (sanitize_filename s) = sanitize_filename s.
Proof.
  split; [eexists; reflexivity|]. split; [|apply sanitize_idempotent].
  cbn [forallb]. rewrite !sanitize_no_forbidden by reflexivity. reflexivity.
Qed.

(* ===================================================================== *)
(** ** [allowed_file] and the preview handlers *)
(* ===================================================================== *)

Section AllowedFile.

Context (L : Libs).

Lemma allowed_file_no_dot (name : string) :
  contains_char "." name = false -> allowed_file name = false.
Proof. intros H. unfold allowed_file. now rewrite H. Qed.

(** The verdict on a name with a dot is the verdict on its last component. *)
Lemma allowed_file_extension (stem ext : string) :
  contains_char "." ext = false ->
  allowed_file (stem +:+ "." +:+ ext) = in_allowed (lower ext).
Proof.
  intros Hext. unfold allowed_file.
  change ("." +:+ ext) with (String "." ext).
  rewrite rsplit1_last by assumption.
  rewrite contains_char_append. cbn. now rewrite orb_true_r.
Qed.

Lemma preview_template_rejects (request : Request) (file : FileStorage) (s : fs) :
  req_files request !! "template" = Some file ->
  allowed_file (filename file) = false ->
  exists msg, preview_template L request s = (json_error L 400 msg, s).
Proof.
  intros Hfile Hext. unfold preview_template, outer_try. rewrite Hfile.
  destruct (String.eqb (filename file) ""); [eexists; reflexivity|].
  rewrite Hext. eexists; reflexivity.
Qed.

Lemma preview_csv_rejects (request : Request) (file : FileStorage) (s : fs) :
  req_files request !! "csv" = Some file ->
  allowed_file (filename file) = false ->
  exists msg, preview_csv L request s = (json_error L 400 msg, s).
Proof.
  intros Hfile Hext. unfold preview_csv, outer_try. rewrite Hfile.
  destruct (String.eqb (filename file) ""); [eexists; reflexivity|].
  rewrite Hext. eexists; reflexivity.
Qed.

End AllowedFile.

(** C10. A filename without a dot fails the extension check, so an upload
    under such a name is answered with status 400 both by
    [POST /api/preview-template] and by [POST /api/preview-csv], with the
    file system left exactly as it was (nothing is persisted).  On a name
    that has a dot the check looks only at the text after the last dot, in
    lower case. *)
Theorem allowed_file_requires_dot (L : Libs)
  (template_request csv_request : Request) (template_file csv_file : FileStorage)
  (s : fs) (stem ext : string) :
  req_files template_request !! "template" = Some template_file ->
  contains_char "." (filename template_file) = false ->
  req_files csv_request !! "csv" = Some csv_file ->
  contains_char "." (filename csv_file) = false ->
  contains_char "." ext = false ->
  allowed_file (filename template_file) = false /\
  allowed_file (filename csv_file) = false /\
  (exists msg, preview_template L template_request s = (json_error L 400 msg, s)) /\
  (exists msg, preview_csv L csv_request s = (json_error L 400 msg, s)) /\
  allowed_file (stem +:+ "." +:+ ext) = in_allowed (lower ext).
Proof.
  intros Ht Htdot Hc Hcdot Hext.
  pose proof (allowed_file_no_dot _ Htdot) as At.
  pose proof (allowed_file_no_dot _ Hcdot) as Ac.
  repeat split; try assumption.
  - now apply preview_template_rejects with template_file.
  - now apply preview_csv_rejects with csv_file.
  - now apply allowed_file_extension.
Qed.

Lemma allowed_file_requires_dot_witness :
  allowed_file "README" = false /\
  allowed_file "rows" = false /\
  (exists msg, preview_template Demo.libs (Demo.upload "README" "rows" []) Demo.empty_fs
               = (json_error Demo.libs 400 msg, Demo.empty_fs)) /\
  (exists msg, preview_csv Demo.libs (Demo.upload "README" "rows" []) Demo.empty_fs
               = (json_error Demo.libs 400 msg, Demo.empty_fs)) /\
  allowed_file ("my.report" +:+ "." +:+ "DocX") = in_allowed (lower "DocX").
Proof.
  apply (allowed_file_requires_dot Demo.libs
           (Demo.upload "README" "rows" []) (Demo.upload "README" "rows" [])
           (mkFile "README" (Demo.b "T:")) (mkFile "rows" [])
           Demo.empty_fs "my.report" "DocX");
    reflexivity.
Defined.

(* ===================================================================== *)
(** ** [detect_csv_encoding] *)
(* ===================================================================== *)

Section Detect.

Context (L : Libs).

Lemma detect_loop_step (file_path : string) (s : fs) (e : string) (rest : list string) :
  detect_loop L file_path (e :: rest) s =
  if probe L file_path s e then e else detect_loop L file_path rest s.
Proof.
  unfold probe. cbn [detect_loop].
  destruct (pd_read_csv L file_path e (Some 1) s) as [[df|msg] s']; reflexivity.
Qed.

(** The loop returns the first candidate whose probe succeeds, and ['utf-8']
    when it runs off the end of the list. *)
Lemma detect_loop_spec (file_path : string) (s : fs) (encs : list string) :
  (exists i e, encs !! i = Some e /\ probe L file_path s e = true /\
     (forall j e', j < i -> encs !! j = Some e' -> probe L file_path s e' = false) /\
     detect_loop L file_path encs s = e)
  \/ ((forall e, e ∈ encs -> probe L file_path s e = false) /\
      detect_loop L file_path encs s = "utf-8").
Proof.
  induction encs as [|e rest IH].
  - right. split; [|reflexivity]. intros e He. inversion He.
  - rewrite detect_loop_step. destruct (probe L file_path s e) eqn:Pe.
    + left. exists 0, e. repeat split; try assumption. intros j e' Hj. lia.
    + destruct IH as [(i & e0 & Hi & Pe0 & Hbefore & Hres) | [Hall Hres]].
      * left. exists (S i), e0. repeat split; try assumption.
        intros [|j] e' Hj Hlook; cbn in Hlook.
        -- congruence.
        -- apply (Hbefore j); [lia | assumption].
      * right. split; [|assumption].
        intros e' He'. apply elem_of_cons in He' as [-> | He']; auto.
Qed.

(** The probe reads nothing but the bytes of the file. *)
Lemma probe_same_bytes (p1 p2 : string) (s1 s2 : fs) (e : string) :
  fs_files s1 !! p1 = fs_files s2 !! p2 -> probe L p1 s1 e = probe L p2 s2 e.
Proof.
  intros H. unfold probe, pd_read_csv, iobind, read_file, lift. rewrite H.
  destruct (fs_files s2 !! p2); reflexivity.
Qed.

Lemma detect_loop_same_bytes (p1 p2 : string) (s1 s2 : fs) (encs : list string) :
  fs_files s1 !! p1 = fs_files s2 !! p2 ->
  detect_loop L p1 encs s1 = detect_loop L p2 encs s2.
Proof.
  intros H. induction encs as [|e rest IH]; [reflexivity|].
  rewrite !detect_loop_step, (probe_same_bytes _ _ _ _ e H), IH. reflexivity.
Qed.

End Detect.

(** C7. [detect_csv_encoding] goes through the fixed list
    [utf-8, utf-8-sig, latin-1, cp1252, iso-8859-1] in order and returns the
    first encoding under which the trial parse (the [read_csv] call with
    [nrows=1] of line 41) returns without an exception; when the parse fails
    under every encoding of the list it returns ['utf-8'], the head of the
    list.  Two runs on files holding the same bytes return the same
    encoding. *)
Theorem detect_csv_encoding_first_success (L : Libs)
  (file_path : string) (s : fs) (file_path' : string) (s' : fs) :
  fs_files s !! file_path = fs_files s' !! file_path' ->
  encodings = ["utf-8"; "utf-8-sig"; "latin-1"; "cp1252"; "iso-8859-1"] /\
  head encodings = Some "utf-8" /\
  ((exists i e, encodings !! i = Some e /\ probe L file_path s e = true /\
      (forall j e', j < i -> encodings !! j = Some e' -> probe L file_path s e' = false) /\
      detect_csv_encoding L file_path s = e)
   \/ ((forall e, e ∈ encodings -> probe L file_path s e = false) /\
       detect_csv_encoding L file_path s = "utf-8")) /\
  detect_csv_encoding L file_path s = detect_csv_encoding L file_path' s'.
Proof.
  intros Hbytes. split; [reflexivity|]. split; [reflexivity|]. split.
  - apply detect_loop_spec.
  - now apply detect_loop_same_bytes.
Qed.

Lemma detect_csv_encoding_first_success_witness :
  let s := mkFs {[ "/tmp/rows.csv" := [Byte.x01] ]} {[ "/tmp" ]} in
  let s' := mkFs {[ "/srv/copy.csv" := [Byte.x01] ]} ∅ in
  detect_csv_encoding Demo.libs "/tmp/rows.csv" s = "utf-8" /\
  detect_csv_encoding Demo.libs "/tmp/rows.csv" s =
  detect_csv_encoding Demo.libs "/srv/copy.csv" s'.
Proof.
  intros s s'. split; [reflexivity|].
  apply (detect_csv_encoding_first_success Demo.libs "/tmp/rows.csv" s "/srv/copy.csv" s').
  reflexivity.
Defined.

(* ===================================================================== *)
(** ** The field mapping of a request *)
(* ===================================================================== *)

Section Mapping.

Context (L : Libs).

Lemma parse_mapping_unusable (request : Request) :
  mapping_unusable L request = true -> parse_mapping L request = JObject ∅.
Proof.
  unfold mapping_unusable, parse_mapping.
  destruct (req_form request !! "mapping") as [m|]; cbn; [|reflexivity].
  destruct (String.eqb m "{}"); [reflexivity|].
  destruct (json_loads L m); [discriminate | reflexivity].
Qed.

Lemma parse_mapping_empty_object (request : Request) :
  parse_mapping L (with_mapping request "{}") = JObject ∅.
Proof.
  unfold parse_mapping, with_mapping. cbn [req_form].
  rewrite lookup_insert_eq. reflexivity.
Qed.

(** The handler looks at the form only through [parse_mapping]. *)
Lemma generate_documents_mapping (r1 r2 : Request) (s : fs) :
  req_files r1 = req_files r2 ->
  parse_mapping L r1 = parse_mapping L r2 ->
  generate_documents L r1 s = generate_documents L r2 s.
Proof.
  intros Hf Hm. unfold generate_documents. rewrite Hf, Hm. reflexivity.
Qed.

End Mapping.

(** C8. When the form field [mapping] is absent, or present but rejected
    by [json.loads], the field mapping used for generation is the empty
    mapping, and the handler answers exactly as it answers the same request
    carrying the mapping [{}]: the request is not turned down on account of
    the mapping. *)
Theorem unusable_mapping_is_empty (L : Libs) (request : Request) (s : fs) :
  mapping_unusable L request = true ->
  parse_mapping L request = JObject ∅ /\
  generate_documents L request s =
  generate_documents L (with_mapping request "{}") s.
Proof.
  intros H. pose proof (parse_mapping_unusable L request H) as Hm.
  split; [assumption|].
  apply generate_documents_mapping; [reflexivity|].
  now rewrite Hm, parse_mapping_empty_object.
Qed.

Lemma unusable_mapping_is_empty_witness :
  let request :=
    with_mapping (Demo.upload "letter.docx" "rows.csv" [Byte.x01]) "{oops" in
  parse_mapping Demo.libs request = JObject ∅ /\
  generate_documents Demo.libs request Demo.empty_fs =
  generate_documents Demo.libs (with_mapping request "{}") Demo.empty_fs.
Proof.
  intros request.
  apply (unusable_mapping_is_empty Demo.libs request Demo.empty_fs).
  reflexivity.
Defined.

(* ===================================================================== *)
(** ** The render context *)
(* ===================================================================== *)

Section Context.

Context (L : Libs).

Lemma series_lookup_index (label : string) (row : Series (Cell L)) :
  label ∈ row.*1 <-> is_Some (series_lookup L label row).
Proof.
  induction row as [|[l v] row IH]; cbn.
  - split; [intros H; inversion H | intros [x Hx]; discriminate].
  - rewrite elem_of_cons. destruct (String.eqb l label) eqn:E.
    + apply String.eqb_eq in E. split; [eauto | intros _; left; congruence].
    + apply String.eqb_neq in E. rewrite <- IH.
      split; [intros [?|?]; [congruence | assumption] | intros ?; now right].
Qed.

Lemma series_lookup_absent (label : string) (row : Series (Cell L)) :
  label ∉ row.*1 <-> series_lookup L label row = None.
Proof.
  rewrite series_lookup_index, eq_None_not_Some. reflexivity.
Qed.

(** With a mapping whose values are column names, one variable never
    raises and gets the expected string. *)
Lemma context_value_expected (mapping : gmap string string)
  (row : Series (Cell L)) (var_name : string) :
  context_value L (JObject (JString <$> mapping)) row var_name =
  Ok (expected_value L mapping row var_name).
Proof.
  unfold context_value, expected_value, mapping_get. cbn [bind].
  rewrite lookup_fmap. set (c := default var_name (mapping !! var_name)).
  assert (default (JString var_name) (JString <$> mapping !! var_name) = JString c) as ->.
  { unfold c. destruct (mapping !! var_name); reflexivity. }
  cbn [in_index bind]. case_bool_decide as Hc.
  - apply series_lookup_index in Hc as [v Hv]. cbn. now rewrite Hv.
  - apply series_lookup_absent in Hc. now rewrite Hc.
Qed.

Lemma build_context_lookup (mapping : gmap string string)
  (row : Series (Cell L)) (vars : list string) (context : gmap string string) :
  exists final,
    build_context L (JObject (JString <$> mapping)) row vars context = Ok final /\
    forall q, final !! q =
              if decide (q ∈ vars) then Some (expected_value L mapping row q)
              else context !! q.
Proof.
  revert context. induction vars as [|x vars IH]; intros context.
  - exists context. split; [reflexivity|]. intros q.
    destruct (decide (q ∈ [])) as [H|_]; [inversion H | reflexivity].
  - cbn [build_context]. rewrite context_value_expected. cbn [bind].
    destruct (IH (<[x := expected_value L mapping row x]> context)) as (final & Hrun & Hlook).
    exists final. split; [assumption|]. intros q. rewrite Hlook.
    destruct (decide (q ∈ vars)) as [Hin|Hnin].
    + rewrite decide_True by (now right). reflexivity.
    + destruct (decide (q = x)) as [->|Hne].
      * rewrite decide_True by (now left). now rewrite lookup_insert_eq.
      * rewrite decide_False by (rewrite elem_of_cons; tauto).
        now rewrite lookup_insert_ne.
Qed.

End Context.

(** C4. For every row and every placeholder of the template, the render
    context built for the row exists (building it does not raise when the
    field mapping maps placeholders to column names), has exactly the
    placeholders as its keys, and maps the placeholder to the string of the
    row's value in the column named by the mapping, or by the placeholder
    itself when the mapping has no entry for it, when the row has that
    column, and to the placeholder's name in square brackets when it has
    not. *)
Theorem render_context_of_row (L : Libs) (mapping : gmap string string)
  (row : Series (Cell L)) (placeholders : list string) (placeholder : string) :
  placeholder ∈ placeholders ->
  exists context,
    build_context L (JObject (JString <$> mapping)) row placeholders ∅ = Ok context /\
    dom context = list_to_set placeholders /\
    let column := default placeholder (mapping !! placeholder) in
    (column ∈ row.*1 ->
       exists v, series_lookup L column row = Some v /\
                 context !! placeholder = Some (py_str L v)) /\
    (column ∉ row.*1 ->
       context !! placeholder = Some ("[" +:+ placeholder +:+ "]")).
Proof.
  intros Hin.
  destruct (build_context_lookup L mapping row placeholders ∅) as (context & Hrun & Hlook).
  exists context. split; [assumption|]. split.
  - apply set_eq. intros q. rewrite elem_of_dom, Hlook, elem_of_list_to_set.
    destruct (decide (q ∈ placeholders)) as [H|H].
    + split; [intros _; assumption | intros _; eauto].
    + rewrite lookup_empty. split; [intros [? ?]; discriminate | contradiction].
  - cbn zeta. pose proof (Hlook placeholder) as Hp.
    rewrite decide_True in Hp by assumption. unfold expected_value in Hp.
    split.
    + intros Hcol. apply series_lookup_index in Hcol as [v Hv].
      exists v. split; [assumption|]. now rewrite Hp, Hv.
    + intros Hcol. apply series_lookup_absent in Hcol. now rewrite Hp, Hcol.
Qed.

Lemma render_context_of_row_witness :
  exists context,
    build_context Demo.libs (JObject (JString <$> {[ "Phone" := "Tel" ]}))
      (Demo.demo_row Byte.x01) ["Name"; "Phone"] ∅ = Ok context /\
    context !! "Phone" = Some "[Phone]".
Proof.
  destruct (render_context_of_row Demo.libs {[ "Phone" := "Tel" ]}
              (Demo.demo_row Byte.x01) ["Name"; "Phone"] "Phone")
    as (context & Hrun & _ & _ & Habsent).
  - apply (bool_decide_unpack _). vm_compute. exact I.
  - exists context. split; [exact Hrun|]. apply Habsent.
    apply (bool_decide_unpack _). vm_compute. exact I.
Defined.

(* ===================================================================== *)
(** ** Paths and decimal numerals *)
(* ===================================================================== *)

Section Paths.

Lemma append_eq_nil (s t : string) : s +:+ t = "" -> t = "".
Proof. destruct s; [trivial | discriminate]. Qed.

Lemma endswith_append (c : ascii) (s t : string) :
  t <> "" -> endswith c (s +:+ t) = endswith c t.
Proof.
  intros Ht. induction s as [|a s IH]; [reflexivity|].
  rewrite append_cons. cbn [endswith].
  destruct (s +:+ t) eqn:E; [|assumption].
  apply append_eq_nil in E. contradiction.
Qed.

Lemma startswith_absent (c : ascii) (s : string) :
  contains_char c s = false -> startswith c s = false.
Proof.
  destruct s as [|a s]; cbn; [reflexivity|].
  intros H. now apply orb_false_iff in H.
Qed.

(** Joining relative names onto one directory prepends one and the same
    text to all of them. *)
Lemma path_join_relative (dir : string) :
  exists stem, forall name, startswith "/" name = false -> path_join dir name = stem +:+ name.
Proof.
  destruct (String.eqb dir "" || endswith "/" dir) eqn:E.
  - exists dir. intros name Hn. unfold path_join. now rewrite Hn, E.
  - exists (dir +:+ "/"). intros name Hn. unfold path_join.
    now rewrite Hn, E, append_assoc.
Qed.

(** Below a directory whose name ends in a letter the joined path is the
    directory, a slash, and the name. *)
Lemma path_join_below (stem leaf name : string) :
  leaf <> "" -> endswith "/" leaf = false -> startswith "/" name = false ->
  path_join (stem +:+ leaf) name = (stem +:+ leaf) +:+ "/" +:+ name.
Proof.
  intros Hleaf Hend Hname. unfold path_join. rewrite Hname.
  rewrite endswith_append, Hend by assumption.
  destruct (String.eqb (stem +:+ leaf) "") eqn:E; [|reflexivity].
  apply String.eqb_eq, append_eq_nil in E. contradiction.
Qed.

Lemma output_folder_join (work_dir name : string) :
  startswith "/" name = false ->
  path_join (path_join work_dir "output_docs") name =
  path_join work_dir "output_docs" +:+ "/" +:+ name.
Proof.
  intros Hname. destruct (path_join_relative work_dir) as [stem Hstem].
  rewrite (Hstem "output_docs") by reflexivity.
  now apply path_join_below.
Qed.

Lemma pdf_folder_join (work_dir name : string) :
  startswith "/" name = false ->
  path_join (path_join (path_join work_dir "output_docs") "pdf_files") name =
  path_join work_dir "output_docs" +:+ "/pdf_files/" +:+ name.
Proof.
  intros Hname. rewrite (output_folder_join work_dir "pdf_files") by reflexivity.
  rewrite <- append_assoc.
  rewrite (path_join_below (path_join work_dir "output_docs" +:+ "/") "pdf_files" name)
    by (try discriminate; auto).
  now rewrite !append_assoc.
Qed.

(** A decimal numeral consists of digits; none of them is in the class. *)
Lemma forbidden_cases (c : ascii) :
  is_forbidden c = true -> In c forbidden_chars.
Proof.
  unfold is_forbidden. intros H. apply existsb_exists in H as (x & Hx & E).
  apply Ascii.eqb_eq in E. now subst.
Qed.

Lemma uint_no_forbidden (c : ascii) (d : Decimal.uint) :
  is_forbidden c = true -> contains_char c (NilEmpty.string_of_uint d) = false.
Proof.
  intros Hc. apply forbidden_cases in Hc.
  induction d; cbn; rewrite ?IHd; [reflexivity|..];
    cbn in Hc; intuition (subst; reflexivity).
Qed.

Lemma nilzero_no_forbidden (c : ascii) (d : Decimal.uint) :
  is_forbidden c = true -> contains_char c (NilZero.string_of_uint d) = false.
Proof.
  intros Hc. unfold NilZero.string_of_uint.
  destruct d eqn:E; try (rewrite <- E; now apply uint_no_forbidden).
  apply forbidden_cases in Hc. cbn in Hc. intuition (subst; reflexivity).
Qed.

Lemma str_int_no_forbidden (c : ascii) (n : Z) :
  is_forbidden c = true -> contains_char c (str_int n) = false.
Proof.
  intros Hc. unfold str_int, NilZero.string_of_int.
  destruct (Z.to_int n) as [d|d]; [now apply nilzero_no_forbidden|].
  cbn [contains_char]. rewrite nilzero_no_forbidden by assumption.
  apply forbidden_cases in Hc. cbn in Hc. intuition (subst; reflexivity).
Qed.

(** The prefix of a fallback name passes through [sanitize_filename]
    unchanged. *)
Lemma sanitize_fallback (tag rest : string) :
  (forall c, is_forbidden c = true -> contains_char c tag = false) ->
  sanitize_filename (tag +:+ rest) = tag +:+ sanitize_filename rest.
Proof.
  intros Htag. rewrite sanitize_append. f_equal. now apply sanitize_clean.
Qed.

End Paths.

(* ===================================================================== *)
(** ** One row *)
(* ===================================================================== *)

Section Row.

Context (L : Libs).

Lemma safe_email_expected (idx : Label) (row : Series (Cell L)) :
  safe_email L idx row = expected_email L idx row.
Proof.
  unfold safe_email, row_email, series_get_str, expected_email.
  destruct (series_lookup L "Email" row); [reflexivity|].
  apply sanitize_fallback. intros c Hc.
  apply forbidden_cases in Hc. cbn in Hc. intuition (subst; reflexivity).
Qed.

Lemma safe_org_expected (idx : Label) (row : Series (Cell L)) :
  safe_org L idx row = expected_org L idx row.
Proof.
  unfold safe_org, row_org, series_get_str, expected_org.
  destruct (series_lookup L "Организация" row); reflexivity.
Qed.

Lemma docx_filename_expected (idx : Label) (row : Series (Cell L)) :
  docx_filename L idx row =
  expected_email L idx row +:+ "_" +:+ expected_org L idx row +:+ ".docx".
Proof.
  unfold docx_filename, base_name.
  now rewrite safe_email_expected, safe_org_expected, !append_assoc.
Qed.

(** A name that starts with a sanitized text and an underscore does not
    start with a slash, so [os.path.join] keeps the folder in front of it. *)
Lemma startswith_after_clean (c : ascii) (clean rest : string) :
  contains_char c clean = false -> startswith c rest = false ->
  startswith c (clean +:+ rest) = false.
Proof.
  destruct clean as [|a clean]; [now rewrite append_nil_l|].
  rewrite append_cons. cbn. intros H _. now apply orb_false_iff in H.
Qed.

Lemma base_name_relative (idx : Label) (row : Series (Cell L)) (extension : string) :
  startswith "/" (base_name L idx row +:+ extension) = false.
Proof.
  unfold base_name, safe_email. rewrite !append_assoc.
  apply startswith_after_clean; [now apply sanitize_no_forbidden | reflexivity].
Qed.

Lemma docx_filename_relative (idx : Label) (row : Series (Cell L)) :
  startswith "/" (docx_filename L idx row) = false.
Proof. apply base_name_relative. Qed.

Lemma pdf_filename_relative (idx : Label) (row : Series (Cell L)) :
  startswith "/" (pdf_filename L idx row) = false.
Proof. apply base_name_relative. Qed.

(** The conversion step never raises; it leaves the files alone or adds the
    PDF. *)
Lemma convert_to_pdf_effect (docx_path pdf_path : string) (s : fs) :
  exists s', convert_to_pdf L docx_path pdf_path s = (Ok tt, s') /\
    fs_dirs s' = fs_dirs s /\
    (fs_files s' = fs_files s \/
     exists pdf, fs_files s' = <[pdf_path := pdf]> (fs_files s)).
Proof.
  unfold convert_to_pdf, try_except, iobind, read_file, lift, write_file, ret.
  destruct (fs_files s !! docx_path) as [docx|]; [|eauto].
  destruct (convert L docx) as [pdf|msg]; [|eauto].
  destruct (storage_error L pdf_path); [eauto|].
  eexists. split; [reflexivity|]. cbn. eauto.
Qed.

(** What a row that succeeds has done. *)
Lemma render_row_ok (template_path output_folder pdf_folder : string)
  (doc_template : Template L) (field_mapping : json)
  (idx : Label) (row : Series (Cell L)) (s s' : fs) (u : unit) :
  render_row L template_path output_folder pdf_folder doc_template field_mapping
    idx row s = (Ok u, s') ->
  exists vars context data doc rendered,
    get_undeclared_variables L doc_template = Ok vars /\
    build_context L field_mapping row vars ∅ = Ok context /\
    fs_files s !! template_path = Some data /\
    DocxTemplate L data = Ok doc /\
    render L doc context = Ok rendered /\
    fs_dirs s' = fs_dirs s /\
    let docx_path := path_join output_folder (docx_filename L idx row) in
    let pdf_path := path_join pdf_folder (pdf_filename L idx row) in
    (fs_files s' = <[docx_path := rendered]> (fs_files s) \/
     exists pdf,
       fs_files s' = <[pdf_path := pdf]> (<[docx_path := rendered]> (fs_files s))).
Proof.
  unfold render_row, open_template, iobind, lift, read_file, write_file, ret.
  cbv beta.
  destruct (get_undeclared_variables L doc_template) as [vars|] eqn:Hv;
    [|cbv beta iota; discriminate].
  destruct (build_context L field_mapping row vars ∅) as [context|] eqn:Hc;
    [|cbv beta iota; discriminate].
  destruct (fs_files s !! template_path) as [data|] eqn:Hd;
    [|cbv beta iota; discriminate].
  destruct (DocxTemplate L data) as [doc|] eqn:Ht; [|cbv beta iota; discriminate].
  destruct (render L doc context) as [rendered|] eqn:Hr;
    [|cbv beta iota; discriminate].
  destruct (storage_error L _); [cbv beta iota; discriminate|].
  cbv beta iota.
  match goal with
  | |- context [convert_to_pdf L ?d ?p ?st] =>
      destruct (convert_to_pdf_effect d p st) as (s1 & -> & Hdirs & Hfiles)
  end.
  intros H. injection H as _ <-. cbn in Hdirs, Hfiles.
  exists vars, context, data, doc, rendered.
  repeat split; try reflexivity; assumption.
Qed.

(** A row that fails has written nothing. *)
Lemma render_row_raise (template_path output_folder pdf_folder : string)
  (doc_template : Template L) (field_mapping : json)
  (idx : Label) (row : Series (Cell L)) (s s' : fs) (msg : string) :
  render_row L template_path output_folder pdf_folder doc_template field_mapping
    idx row s = (Raise msg, s') ->
  s' = s.
Proof.
  unfold render_row, open_template, iobind, lift, read_file, write_file, ret.
  cbv beta.
  destruct (get_undeclared_variables L doc_template) as [vars|]; [|cbv beta iota; congruence].
  destruct (build_context L field_mapping row vars ∅) as [context|]; [|cbv beta iota; congruence].
  destruct (fs_files s !! template_path) as [data|]; [|cbv beta iota; congruence].
  destruct (DocxTemplate L data) as [doc|]; [|cbv beta iota; congruence].
  destruct (render L doc context) as [rendered|]; [|cbv beta iota; congruence].
  destruct (storage_error L _); [cbv beta iota; congruence|].
  cbv beta iota.
  match goal with
  | |- context [convert_to_pdf L ?d ?p ?st] =>
      destruct (convert_to_pdf_effect d p st) as (s1 & -> & _)
  end.
  discriminate.
Qed.

Lemma docx_path_shape (work_dir : string) (idx : Label) (row : Series (Cell L)) :
  path_join (path_join work_dir "output_docs") (docx_filename L idx row) =
  path_join work_dir "output_docs" +:+ "/" +:+ docx_filename L idx row.
Proof. apply output_folder_join, docx_filename_relative. Qed.

Lemma pdf_path_shape (work_dir : string) (idx : Label) (row : Series (Cell L)) :
  path_join (path_join (path_join work_dir "output_docs") "pdf_files")
    (pdf_filename L idx row) =
  path_join work_dir "output_docs" +:+ "/pdf_files/" +:+ pdf_filename L idx row.
Proof. apply pdf_folder_join, pdf_filename_relative. Qed.

(** A DOCX path ends in the letter x, a PDF path in the letter f. *)
Lemma docx_path_last (work_dir : string) (idx : Label) (row : Series (Cell L)) :
  endswith "x"
    (path_join (path_join work_dir "output_docs") (docx_filename L idx row)) = true.
Proof.
  rewrite docx_path_shape. unfold docx_filename.
  rewrite <- !append_assoc. now rewrite endswith_append.
Qed.

Lemma pdf_path_last (work_dir : string) (idx : Label) (row : Series (Cell L)) :
  endswith "x"
    (path_join (path_join (path_join work_dir "output_docs") "pdf_files")
       (pdf_filename L idx row)) = false.
Proof.
  rewrite pdf_path_shape. unfold pdf_filename.
  rewrite <- !append_assoc. now rewrite endswith_append.
Qed.

(** A row that succeeds leaves what [render] produced at its DOCX path. *)
Lemma render_row_document (work_dir template_path : string)
  (doc_template : Template L) (field_mapping : json)
  (idx : Label) (row : Series (Cell L)) (s s' : fs) (u : unit) :
  render_row L template_path (path_join work_dir "output_docs")
    (path_join (path_join work_dir "output_docs") "pdf_files")
    doc_template field_mapping idx row s = (Ok u, s') ->
  exists vars context data doc rendered,
    get_undeclared_variables L doc_template = Ok vars /\
    build_context L field_mapping row vars ∅ = Ok context /\
    fs_files s !! template_path = Some data /\
    DocxTemplate L data = Ok doc /\
    render L doc context = Ok rendered /\
    fs_files s' !! path_join (path_join work_dir "output_docs") (docx_filename L idx row)
    = Some rendered.
Proof.
  intros Hrun. apply render_row_ok in Hrun
    as (vars & context & data & doc & rendered & Hv & Hc & Hd & Ht & Hr & _ & Hfiles).
  exists vars, context, data, doc, rendered. repeat split; try assumption.
  cbn zeta in Hfiles. destruct Hfiles as [-> | [pdf ->]].
  - apply lookup_insert_eq.
  - rewrite lookup_insert_ne; [apply lookup_insert_eq|].
    intros E. pose proof (docx_path_last work_dir idx row) as Hx.
    rewrite <- E, pdf_path_last in Hx. discriminate.
Qed.

End Row.

(** X28. A row that is processed without an exception leaves its document
    at [<output folder>/<email>_<org>.docx], a path below the output folder
    (the name does not start with a slash).  [email] is the sanitized string
    of the row's [Email] value, or [row_] followed by the sanitized text of
    the row's index label when the row has no such column.  [org] is the
    sanitized string of the row's organization value when the row has that
    column and the string is not empty, and otherwise [doc_] followed by the
    text of the index label, which is not sanitized.  The content of the file
    is what [render] produced from the row's context. *)
Theorem output_document_name (L : Libs) (work_dir template_path : string)
  (doc_template : Template L) (field_mapping : json)
  (idx : Label) (row : Series (Cell L)) (s s' : fs) :
  let output_folder := path_join work_dir "output_docs" in
  let pdf_folder := path_join output_folder "pdf_files" in
  let name :=
    expected_email L idx row +:+ "_" +:+ expected_org L idx row +:+ ".docx" in
  render_row L template_path output_folder pdf_folder doc_template field_mapping
    idx row s = (Ok tt, s') ->
  docx_filename L idx row = name /\
  startswith "/" name = false /\
  exists vars context data doc rendered,
    get_undeclared_variables L doc_template = Ok vars /\
    build_context L field_mapping row vars ∅ = Ok context /\
    fs_files s !! template_path = Some data /\
    DocxTemplate L data = Ok doc /\
    render L doc context = Ok rendered /\
    fs_files s' !! (output_folder +:+ "/" +:+ name) = Some rendered.
Proof.
  intros output_folder pdf_folder name Hrun.
  subst output_folder pdf_folder name.
  rewrite <- !docx_filename_expected.
  split; [reflexivity|]. split; [apply docx_filename_relative|].
  rewrite <- docx_path_shape. now apply render_row_document with tt.
Qed.

Lemma output_document_name_witness :
  let s := mkFs {[ "/tmp/tmpwork/letter.docx" := Demo.b "T:" ]} {[ "/tmp/tmpwork" ]} in
  let row : Series (option string) :=
    [("Email", Some "a/b@example.org"); ("Организация", Some "Acme")] in
  let s' :=
    (render_row Demo.csv_libs "/tmp/tmpwork/letter.docx" "/tmp/tmpwork/output_docs"
       "/tmp/tmpwork/output_docs/pdf_files" (Demo.b "T:") (JObject ∅)
       (IntLabel 7) row s).2 in
  exists rendered,
    fs_files s' !! "/tmp/tmpwork/output_docs/a_b@example.org_Acme.docx" = Some rendered.
Proof.
  intros s row s'.
  destruct (output_document_name Demo.csv_libs "/tmp/tmpwork" "/tmp/tmpwork/letter.docx"
              (Demo.b "T:") (JObject ∅) (IntLabel 7) row s s')
    as (_ & _ & _ & _ & _ & _ & rendered & _ & _ & _ & _ & _ & Hfile).
  - vm_compute. reflexivity.
  - exists rendered. exact Hfile.
Defined.

(** C5. The claim names the document of a row [<email>_doc_<row index>.docx]
    when the organization value of the row is empty, and builds both
    fallbacks from the row index.  In the program an empty field of the CSV
    reaches the loop as NaN, whose [str] is the text [nan], not the empty
    string: the test of line 203 sees a value and the fallback is not taken.
    And the index of the two fallbacks is the label the row has in the index
    of the frame, put into [doc_...] after the sanitizer has run.  Here the
    handler is run twice.  On a CSV with the header [Email;Организация] and
    the line [alice@example.org;], whose organization field is empty, the
    archive holds [alice@example.org_nan.docx], where the claim gives
    [alice@example.org_doc_0.docx].  On a CSV with the header [Name] and the
    line [a:b;Alice], whose rows are labelled by their first field, the
    archive holds [row_a_b_doc_a:b.docx], a name with a colon after [doc_],
    where the claim gives [row_0_doc_0.docx]. *)
Theorem empty_organization_named_nan :
  let csv_a := Demo.csv_lines ["Email;Организация"; "alice@example.org;"] in
  let csv_b := Demo.csv_lines ["Name"; "a:b;Alice"] in
  let row_a : Series (option string) :=
    [("Email", Some "alice@example.org"); ("Организация", None)] in
  let row_b : Series (option string) := [("Name", Some "Alice")] in
  let answer csv :=
    (generate_documents Demo.csv_libs (Demo.upload "letter.docx" "rows.csv" csv)
       Demo.empty_fs).1 in
  read_csv Demo.csv_libs csv_a "utf-8" None =
    Ok (mkDataFrame ["Email"; "Организация"] [(IntLabel 0, row_a)]) /\
  row_org Demo.csv_libs row_a = "nan" /\
  docx_filename Demo.csv_libs (IntLabel 0) row_a = "alice@example.org_nan.docx" /\
  status (answer csv_a) = 200 /\
  archive_names Demo.csv_libs (answer csv_a) = ["alice@example.org_nan.docx"] /\
  read_csv Demo.csv_libs csv_b "utf-8" None =
    Ok (mkDataFrame ["Name"] [(StrLabel "a:b", row_b)]) /\
  docx_filename Demo.csv_libs (StrLabel "a:b") row_b = "row_a_b_doc_a:b.docx" /\
  status (answer csv_b) = 200 /\
  archive_names Demo.csv_libs (answer csv_b) = ["row_a_b_doc_a:b.docx"].
Proof.
  intros csv_a csv_b row_a row_b answer.
  repeat split; vm_compute; reflexivity.
Qed.

(* ===================================================================== *)
(** ** The loop over the rows *)
(* ===================================================================== *)

Section Loop.

Context (L : Libs).
Context (template_path output_folder pdf_folder : string).
Context (doc_template : Template L) (field_mapping : json).

Local Abbreviation step := (render_row L template_path output_folder pdf_folder
                    doc_template field_mapping).
Local Abbreviation loop := (generate_loop L template_path output_folder pdf_folder
                    doc_template field_mapping).
Local Abbreviation run := (run_rows L template_path output_folder pdf_folder
                   doc_template field_mapping).

Lemma run_rows_length (rows : list (Label * Series (Cell L))) (s : fs) :
  length (run rows s).1 = length rows.
Proof.
  revert s. induction rows as [|[idx row] rows IH]; intros s;
    cbn [run_rows fst snd length]; [reflexivity|].
  now rewrite IH.
Qed.



(** When the error line of every failing row can be written, the loop
    returns the number of rows that succeeded and one error line per row that
    failed, in row order. *)
Lemma generate_loop_run (rows : list (Label * Series (Cell L)))
  (success_count : nat) (error_list : list string) (s : fs) :
  lines_printable L rows (run rows s).1 = true ->
  loop rows success_count error_list s =
  (Ok (success_count + count_ok (run rows s).1,
       (error_list ++ error_entries L rows (run rows s).1)%list),
   (run rows s).2).
Proof.
  revert success_count error_list s.
  induction rows as [|[idx row] rows IH]; intros n errs s.
  - intros _. cbn. unfold ret, error_entries. cbn. now rewrite Nat.add_0_r, app_nil_r.
  - cbn [generate_loop run_rows fst snd]. unfold lines_printable.
    cbn [zip_with forallb]. fold (lines_printable L rows).
    destruct (step idx row s) as [[u|msg] s1] eqn:E; cbn [fst snd];
      unfold line_printable at 1; cbn [fst snd]; intros Hp.
    + rewrite (IH _ _ _ Hp). cbn [count_ok]. unfold error_entries. cbn.
      do 2 f_equal. f_equal. lia.
    + apply andb_prop in Hp as [Hline Hp].
      unfold row_error. destruct (label_next idx) as [number|e] eqn:En;
        [|discriminate]. cbn [bind].
      rewrite (IH _ _ _ Hp). cbn [count_ok]. unfold error_entries.
      cbn [zip_with omap list_omap]. unfold error_entry at 2. cbn [fst snd].
      rewrite En. rewrite <- app_assoc. reflexivity.
Qed.

(** Otherwise the loop is left by the exception of an error line that
    cannot be written: that of a row that failed and whose label has no
    successor. *)
Lemma generate_loop_abort (rows : list (Label * Series (Cell L)))
  (success_count : nat) (error_list : list string) (s : fs) :
  lines_printable L rows (run rows s).1 = false ->
  exists e s' i idx row msg,
    loop rows success_count error_list s = (Raise e, s') /\
    rows !! i = Some (idx, row) /\
    (run rows s).1 !! i = Some (Raise msg) /\
    label_next idx = Raise e.
Proof.
  revert success_count error_list s.
  induction rows as [|[idx row] rows IH]; intros n errs s.
  - discriminate.
  - cbn [generate_loop run_rows fst snd]. unfold lines_printable.
    cbn [zip_with forallb]. fold (lines_printable L rows).
    destruct (step idx row s) as [[u|msg] s1] eqn:E; cbn [fst snd];
      unfold line_printable at 1; cbn [fst snd]; intros Hp.
    + destruct (IH (n + 1) errs s1 Hp) as (e & s' & i & idx' & row' & msg' & H).
      exists e, s', (S i), idx', row', msg'. exact H.
    + unfold row_error. destruct (label_next idx) as [number|e] eqn:En; cbn [bind].
      * destruct (IH n (errs ++ ["Строка " +:+ number +:+ ": " +:+ msg])%list s1 Hp)
          as (e & s' & i & idx' & row' & msg' & H).
        exists e, s', (S i), idx', row', msg'. exact H.
      * exists e, s1, 0, idx, row, msg. auto.
Qed.

(** Running or leaving, the loop makes and removes no directory. *)
Lemma generate_loop_dirs (rows : list (Label * Series (Cell L)))
  (success_count : nat) (error_list : list string) (s s' : fs)
  (r : result (nat * list string)) :
  loop rows success_count error_list s = (r, s') -> fs_dirs s' = fs_dirs s.
Proof.
  revert success_count error_list s.
  induction rows as [|[idx row] rows IH]; intros n errs s.
  - cbn. unfold ret. now intros [= _ <-].
  - cbn [generate_loop].
    destruct (step idx row s) as [[u|msg] s1] eqn:E.
    + intros H. apply IH in H. rewrite H.
      now apply render_row_ok in E as (? & ? & ? & ? & ? & _ & _ & _ & _ & _ & Hd & _).
    + apply render_row_raise in E as ->.
      destruct (row_error idx msg); [apply IH | now intros [= _ <-]].
Qed.

(** The rows leave the directories alone. *)
Lemma run_rows_dirs (rows : list (Label * Series (Cell L))) (s : fs) :
  fs_dirs (run rows s).2 = fs_dirs s.
Proof.
  revert s. induction rows as [|[idx row] rows IH]; intros s;
    cbn [run_rows fst snd]; [reflexivity|].
  rewrite IH. destruct (step idx row s) as [[u|msg] s1] eqn:E; cbn [fst snd].
  - now apply render_row_ok in E as (? & ? & ? & ? & ? & _ & _ & _ & _ & _ & Hd & _).
  - now apply render_row_raise in E as ->.
Qed.

Lemma error_entries_lookup (rows : list (Label * Series (Cell L)))
  (outcomes : list (result unit)) (i : nat) (idx : Label) (row : Series (Cell L))
  (msg number : string) :
  rows !! i = Some (idx, row) -> outcomes !! i = Some (Raise msg) ->
  label_next idx = Ok number ->
  ("Строка " +:+ number +:+ ": " +:+ msg) ∈ error_entries L rows outcomes.
Proof.
  intros Hr Ho Hn. unfold error_entries. apply list_elem_of_omap.
  exists ((idx, row), Raise msg).
  split; [|unfold error_entry; cbn [fst snd]; now rewrite Hn].
  apply list_elem_of_lookup. exists i. apply lookup_zip_with_Some.
  exists (idx, row), (Raise msg). auto.
Qed.

End Loop.

(* ===================================================================== *)
(** ** [POST /api/generate] *)
(* ===================================================================== *)

Section Generate.

Context (L : Libs).

Lemma mkdtemp_ok (s s0 : fs) (work_dir : string) :
  mkdtemp L s = (Ok work_dir, s0) ->
  s0 = mkFs (fs_files s) ({[work_dir]} ∪ fs_dirs s).
Proof.
  unfold mkdtemp. destruct (mkdtemp_name L s); [|discriminate].
  now intros [= <- <-].
Qed.

(** What [load_inputs] leaves behind when it returns: the two uploads,
    stored under their secured names, and the two output folders. *)
Lemma load_inputs_ok (template_file csv_file : FileStorage) (work_dir : string)
  (s0 s1 : fs) (loaded : DataFrame (Cell L) * Template L) :
  load_inputs L template_file csv_file work_dir s0 = (Ok loaded, s1) ->
  let template_path := path_join work_dir (secure_filename L (filename template_file)) in
  let csv_path := path_join work_dir (secure_filename L (filename csv_file)) in
  let output_folder := path_join work_dir "output_docs" in
  fs_files s1 =
    <[csv_path := content csv_file]>
      (<[template_path := content template_file]> (fs_files s0)) /\
  fs_dirs s1 = {[output_folder; path_join output_folder "pdf_files"]} ∪ fs_dirs s0.
Proof.
  unfold load_inputs, pd_read_csv, open_template, makedirs2, iobind, lift,
    read_file, write_file, ret.
  cbv beta.
  repeat match goal with
  | |- context [match ?x with _ => _ end] =>
      lazymatch x with
      | context [match _ with _ => _ end] => fail
      | _ => destruct x eqn:?; cbv beta iota; try discriminate
      end
  end.
  intros [= _ <-]. cbn. auto.
Qed.

(** The whole handler, once the uploads are loaded and when the error line
    of every failing row can be written: the rows are run, and the answer
    depends on the number of successes alone. *)
Lemma generate_documents_loaded (request : Request)
  (template_file csv_file : FileStorage) (s s0 s1 : fs) (work_dir : string)
  (data : DataFrame (Cell L)) (doc_template : Template L) :
  req_files request !! "template" = Some template_file ->
  req_files request !! "csv" = Some csv_file ->
  String.eqb (filename template_file) "" = false ->
  String.eqb (filename csv_file) "" = false ->
  mkdtemp L s = (Ok work_dir, s0) ->
  load_inputs L template_file csv_file work_dir s0 = (Ok (data, doc_template), s1) ->
  let template_path := path_join work_dir (secure_filename L (filename template_file)) in
  let output_folder := path_join work_dir "output_docs" in
  let pdf_folder := path_join output_folder "pdf_files" in
  let rows := iterrows L data in
  let ran :=
    run_rows L template_path output_folder pdf_folder doc_template
      (parse_mapping L request) rows s1 in
  lines_printable L rows ran.1 = true ->
  work_dir ∈ fs_dirs ran.2 /\
  generate_documents L request s =
  if Nat.eqb (count_ok ran.1) 0 then
    (json_error L 400
       ("Не удалось создать документы. Ошибки: " +:+
        str_join ", " (take 3 (error_entries L rows ran.1))),
     ran.2)
  else
    (mkResponse 200
       (ZipAttachment ("documents_" +:+ timestamp L +:+ ".zip")
          (omap (archive_entry output_folder) (map_to_list (fs_files ran.2)))),
     (rmtree work_dir ran.2).2).
Proof.
  intros Ht Hc Hnt Hnc Hmk Hload template_path output_folder pdf_folder rows ran
    Hprint.
  assert (work_dir ∈ fs_dirs ran.2) as Hdir.
  { unfold ran. rewrite run_rows_dirs.
    apply load_inputs_ok in Hload as [_ ->]. apply mkdtemp_ok in Hmk as ->.
    cbn. set_solver. }
  split; [assumption|].
  unfold generate_documents, outer_try. rewrite Ht, Hc, Hnt, Hnc. cbn [orb].
  unfold iobind at 1. rewrite Hmk.
  unfold try_except, generate_in_workdir. unfold iobind at 1. rewrite Hload.
  cbn [fst snd]. unfold iobind at 1. rewrite generate_loop_run by exact Hprint.
  fold template_path output_folder pdf_folder rows ran.
  unfold finish. cbn [fst snd app Nat.add].
  destruct (Nat.eqb (count_ok ran.1) 0); [reflexivity|].
  unfold iobind, build_zip, rmtree, ret.
  rewrite bool_decide_eq_true_2 by assumption. reflexivity.
Qed.

(** The whole handler, once the uploads are loaded and when the error line
    of some failing row cannot be written: the exception raised in the
    [except] clause of that row ends the loop and is handled by the [except]
    clause of the inner [try]. *)
Lemma generate_documents_aborted (request : Request)
  (template_file csv_file : FileStorage) (s s0 s1 : fs) (work_dir : string)
  (data : DataFrame (Cell L)) (doc_template : Template L) :
  req_files request !! "template" = Some template_file ->
  req_files request !! "csv" = Some csv_file ->
  String.eqb (filename template_file) "" = false ->
  String.eqb (filename csv_file) "" = false ->
  mkdtemp L s = (Ok work_dir, s0) ->
  load_inputs L template_file csv_file work_dir s0 = (Ok (data, doc_template), s1) ->
  lines_printable L (iterrows L data)
    (run_rows L
       (path_join work_dir (secure_filename L (filename template_file)))
       (path_join work_dir "output_docs")
       (path_join (path_join work_dir "output_docs") "pdf_files")
       doc_template (parse_mapping L request) (iterrows L data) s1).1 = false ->
  exists e s' i idx row msg,
    generate_documents L request s =
      (json_error L 400 ("Ошибка обработки: " +:+ e), s') /\
    (work_dir ∉ fs_dirs s') /\
    iterrows L data !! i = Some (idx, row) /\
    (run_rows L
       (path_join work_dir (secure_filename L (filename template_file)))
       (path_join work_dir "output_docs")
       (path_join (path_join work_dir "output_docs") "pdf_files")
       doc_template (parse_mapping L request) (iterrows L data) s1).1 !! i
      = Some (Raise msg) /\
    label_next idx = Raise e.
Proof.
  intros Ht Hc Hnt Hnc Hmk Hload Hprint.
  destruct (generate_loop_abort L _ _ _ _ _ _ 0 [] s1 Hprint)
    as (e & s2 & i & idx & row & msg & Hloop & Hrow & Hout & Hnext).
  assert (work_dir ∈ fs_dirs s2) as Hdir.
  { rewrite (generate_loop_dirs L _ _ _ _ _ _ _ _ _ _ _ Hloop).
    apply load_inputs_ok in Hload as [_ ->]. apply mkdtemp_ok in Hmk as ->.
    cbn. set_solver. }
  assert (exists s', rmtree work_dir s2 = (Ok tt, s') /\ work_dir ∉ fs_dirs s')
    as (s' & Hrm & Hgone).
  { unfold rmtree. rewrite bool_decide_eq_true_2 by assumption.
    eexists. split; [reflexivity|]. cbn. rewrite elem_of_filter. tauto. }
  exists e, s', i, idx, row, msg.
  split; [|auto].
  unfold generate_documents, outer_try. rewrite Ht, Hc, Hnt, Hnc. cbn [orb].
  unfold iobind at 1. rewrite Hmk.
  unfold try_except, generate_in_workdir. unfold iobind at 1. rewrite Hload.
  cbn [fst snd]. unfold iobind at 1. rewrite Hloop.
  unfold iobind. now rewrite Hrm.
Qed.

End Generate.

Section Counting.

Context (L : Libs).

(** When every error line can be written, every row is either counted or
    reported. *)
Lemma errors_plus_successes (rows : list (Label * Series (Cell L)))
  (outcomes : list (result unit)) :
  length rows = length outcomes ->
  lines_printable L rows outcomes = true ->
  length (error_entries L rows outcomes) + count_ok outcomes = length rows.
Proof.
  revert outcomes. unfold error_entries, lines_printable.
  induction rows as [|x rows IH]; intros [|[u|msg] outcomes]; cbn; try discriminate.
  - reflexivity.
  - intros [= H] Hp. specialize (IH _ H Hp). lia.
  - intros [= H] Hp. apply andb_prop in Hp as [Hx Hp]. specialize (IH _ H Hp).
    unfold error_entry, line_printable in *. cbn [fst snd] in *.
    destruct (label_next x.1); [cbn; lia | discriminate].
Qed.

(** In a frame indexed by integers, the default of [read_csv], every error
    line can be written, whichever rows fail. *)
Lemma int_labels_printable (rows : list (Label * Series (Cell L)))
  (outcomes : list (result unit)) :
  (forall idx row, (idx, row) ∈ rows -> exists n, idx = IntLabel n) ->
  lines_printable L rows outcomes = true.
Proof.
  intros Hint. unfold lines_printable. apply forallb_forall.
  intros [[idx row] outcome] Hin.
  apply list_elem_of_In, list_elem_of_lookup in Hin as [i Hi].
  apply lookup_zip_with_Some in Hi as (x & y & [= <- <-] & Hx & _).
  destruct (Hint idx row) as [n ->]; [apply list_elem_of_lookup; eauto|].
  unfold line_printable. now destruct outcome.
Qed.

(** When every error line can be written, the label of a failing row has a
    successor. *)
Lemma lines_printable_lookup (rows : list (Label * Series (Cell L)))
  (outcomes : list (result unit)) (i : nat) (idx : Label) (row : Series (Cell L))
  (msg : string) :
  lines_printable L rows outcomes = true ->
  rows !! i = Some (idx, row) -> outcomes !! i = Some (Raise msg) ->
  exists number, label_next idx = Ok number.
Proof.
  unfold lines_printable. rewrite forallb_forall. intros Hp Hr Ho.
  specialize (Hp ((idx, row), Raise msg)).
  unfold line_printable in Hp. cbn [fst snd] in Hp.
  destruct (label_next idx) as [number|e]; [eauto|].
  discriminate Hp. apply list_elem_of_In, list_elem_of_lookup. exists i.
  apply lookup_zip_with_Some. exists (idx, row), (Raise msg). auto.
Qed.

(** A failing row whose label has a successor adds its line to the error
    list and the loop goes on with the rows that follow, the success count
    unchanged. *)
Lemma generate_loop_failure (template_path output_folder pdf_folder : string)
  (doc_template : Template L) (field_mapping : json)
  (idx : Label) (row : Series (Cell L)) (rest : list (Label * Series (Cell L)))
  (success_count : nat) (error_list : list string) (s s' : fs)
  (msg number : string) :
  render_row L template_path output_folder pdf_folder doc_template field_mapping
    idx row s = (Raise msg, s') ->
  label_next idx = Ok number ->
  generate_loop L template_path output_folder pdf_folder doc_template field_mapping
    ((idx, row) :: rest) success_count error_list s =
  generate_loop L template_path output_folder pdf_folder doc_template field_mapping
    rest success_count
    (error_list ++ ["Строка " +:+ number +:+ ": " +:+ msg]) s'.
Proof.
  intros H Hn. cbn [generate_loop]. rewrite H. unfold row_error. now rewrite Hn.
Qed.

(** A failing row whose label has no successor ends the loop: the exception
    of the error line leaves it, and the rows that follow are not run. *)
Lemma generate_loop_failure_abort (template_path output_folder pdf_folder : string)
  (doc_template : Template L) (field_mapping : json)
  (idx : Label) (row : Series (Cell L)) (rest : list (Label * Series (Cell L)))
  (success_count : nat) (error_list : list string) (s s' : fs)
  (msg e : string) :
  render_row L template_path output_folder pdf_folder doc_template field_mapping
    idx row s = (Raise msg, s') ->
  label_next idx = Raise e ->
  generate_loop L template_path output_folder pdf_folder doc_template field_mapping
    ((idx, row) :: rest) success_count error_list s = (Raise e, s').
Proof.
  intros H Hn. cbn [generate_loop]. rewrite H. unfold row_error. now rewrite Hn.
Qed.

End Counting.

(** C3. The claim asks that a failing row be recorded and that the loop go
    on with the next row.  The line recorded for a failing row holds
    [idx + 1], and [idx] is the label the row has in the index of the frame:
    a string when the data lines of the CSV have one field more than the
    header.  Adding 1 to a string raises inside the [except] clause of the
    row; that exception leaves the loop ([generate_loop_failure_abort]) and
    the request is answered by the [except] clause of the inner [try]
    ([generate_documents_aborted]).  Here the handler is run on a CSV with
    the header [Name] and the lines [k1;FAIL] and [k2;Alice].  The row
    labelled [k1] fails to render and the row labelled [k2] renders, so the
    claim gives status 200 and the archive with the document of [k2].  The
    loop raises instead: no error line is recorded, the row [k2] is not
    processed, and the answer is status 400 with the message of the
    [TypeError].  With the same two lines without their labels the loop runs
    to its end and the answer is the archive. *)
Theorem labelled_row_failure_ends_loop :
  let csv := Demo.csv_lines ["Name"; "k1;FAIL"; "k2;Alice"] in
  let plain := Demo.csv_lines ["Name"; "FAIL"; "Alice"] in
  let row_k1 : Series (option string) := [("Name", Some "FAIL")] in
  let row_k2 : Series (option string) := [("Name", Some "Alice")] in
  let rows := [(StrLabel "k1", row_k1); (StrLabel "k2", row_k2)] in
  let loaded :=
    load_inputs Demo.csv_libs (mkFile "letter.docx" (Demo.b "T:"))
      (mkFile "rows.csv" csv) "/tmp/tmpwork"
      (mkdtemp Demo.csv_libs Demo.empty_fs).2 in
  let step :=
    render_row Demo.csv_libs "/tmp/tmpwork/letter.docx" "/tmp/tmpwork/output_docs"
      "/tmp/tmpwork/output_docs/pdf_files" (Demo.b "T:") (JObject ∅) in
  let loop :=
    generate_loop Demo.csv_libs "/tmp/tmpwork/letter.docx" "/tmp/tmpwork/output_docs"
      "/tmp/tmpwork/output_docs/pdf_files" (Demo.b "T:") (JObject ∅) in
  let answer file :=
    (generate_documents Demo.csv_libs (Demo.upload "letter.docx" "rows.csv" file)
       Demo.empty_fs).1 in
  loaded.1 = Ok (mkDataFrame ["Name"] rows, Demo.b "T:") /\
  (step (StrLabel "k1") row_k1 loaded.2).1 = Raise "render failed" /\
  (step (StrLabel "k2") row_k2 loaded.2).1 = Ok tt /\
  row_error (StrLabel "k1") "render failed" = Raise concat_error /\
  (loop rows 0 [] loaded.2).1 = Raise concat_error /\
  answer csv = json_error Demo.csv_libs 400 ("Ошибка обработки: " +:+ concat_error) /\
  status (answer plain) = 200 /\
  archive_names Demo.csv_libs (answer plain) = ["row_1_doc_1.docx"].
Proof.
  intros csv plain row_k1 row_k2 rows loaded step loop answer.
  repeat split; vm_compute; reflexivity.
Qed.

(** X27. In a request whose uploads were loaded and in which the label of
    every failing row has a successor (as the integer labels of a frame
    indexed by position have), a row that raises adds to the error list a
    line made of the successor of the row's label and the message of the
    exception, and the loop goes on with the next row: the loop does not
    raise, every row is either counted as a success or reported.  When no
    row succeeded the answer is status 400 with a message that quotes the
    first three error lines at most; when at least one row succeeded the
    answer is status 200 with the archive of the output folder, however many
    rows failed. *)
Theorem row_failures_are_collected (L : Libs) (request : Request)
  (template_file csv_file : FileStorage) (s s0 s1 : fs) (work_dir : string)
  (data : DataFrame (Cell L)) (doc_template : Template L) :
  req_files request !! "template" = Some template_file ->
  req_files request !! "csv" = Some csv_file ->
  String.eqb (filename template_file) "" = false ->
  String.eqb (filename csv_file) "" = false ->
  mkdtemp L s = (Ok work_dir, s0) ->
  load_inputs L template_file csv_file work_dir s0 = (Ok (data, doc_template), s1) ->
  let template_path := path_join work_dir (secure_filename L (filename template_file)) in
  let output_folder := path_join work_dir "output_docs" in
  let pdf_folder := path_join output_folder "pdf_files" in
  let field_mapping := parse_mapping L request in
  let rows := iterrows L data in
  let ran :=
    run_rows L template_path output_folder pdf_folder doc_template field_mapping rows s1 in
  let outcomes := ran.1 in
  let errors := error_entries L rows outcomes in
  lines_printable L rows outcomes = true ->
  (forall idx row rest success_count error_list st st' msg number,
     render_row L template_path output_folder pdf_folder doc_template field_mapping
       idx row st = (Raise msg, st') ->
     label_next idx = Ok number ->
     generate_loop L template_path output_folder pdf_folder doc_template field_mapping
       ((idx, row) :: rest) success_count error_list st =
     generate_loop L template_path output_folder pdf_folder doc_template field_mapping
       rest success_count
       (error_list ++ ["Строка " +:+ number +:+ ": " +:+ msg]) st') /\
  generate_loop L template_path output_folder pdf_folder doc_template field_mapping
    rows 0 [] s1 = (Ok (count_ok outcomes, errors), ran.2) /\
  length errors + count_ok outcomes = length rows /\
  (forall i idx row msg,
     rows !! i = Some (idx, row) -> outcomes !! i = Some (Raise msg) ->
     exists number,
       label_next idx = Ok number /\
       ("Строка " +:+ number +:+ ": " +:+ msg) ∈ errors) /\
  (count_ok outcomes = 0 ->
     generate_documents L request s =
     (json_error L 400
        ("Не удалось создать документы. Ошибки: " +:+ str_join ", " (take 3 errors)),
      ran.2)) /\
  (count_ok outcomes <> 0 ->
     generate_documents L request s =
     (mkResponse 200
        (ZipAttachment ("documents_" +:+ timestamp L +:+ ".zip")
           (omap (archive_entry output_folder) (map_to_list (fs_files ran.2)))),
      (rmtree work_dir ran.2).2)).
Proof.
  intros Ht Hc Hnt Hnc Hmk Hload template_path output_folder pdf_folder
    field_mapping rows ran outcomes errors Hprint.
  pose proof (generate_documents_loaded L request template_file csv_file s s0 s1
                work_dir data doc_template Ht Hc Hnt Hnc Hmk Hload Hprint)
    as [_ Hgen].
  cbn zeta in Hgen.
  fold template_path output_folder pdf_folder field_mapping rows ran in Hgen.
  fold outcomes errors in Hgen.
  split; [intros; now apply generate_loop_failure|].
  split; [now apply generate_loop_run|].
  split.
  { apply errors_plus_successes; [|assumption].
    unfold outcomes, ran. now rewrite run_rows_length. }
  split.
  { intros i idx row msg Hrow Hout.
    destruct (lines_printable_lookup L rows outcomes i idx row msg Hprint Hrow Hout)
      as [number Hn].
    exists number. split; [assumption|].
    now apply (error_entries_lookup L rows outcomes i idx row). }
  split; intros Hcount; rewrite Hgen.
  - now rewrite Hcount.
  - apply Nat.eqb_neq in Hcount. now rewrite Hcount.
Qed.

Lemma row_failures_are_collected_witness :
  let request :=
    Demo.upload "letter.docx" "rows.csv" [Byte.x00; Byte.x01; Byte.x00; Byte.x00; Byte.x00] in
  status (generate_documents Demo.libs request Demo.empty_fs).1 = 200.
Proof.
  intros request.
  pose (s0 := (mkdtemp Demo.libs Demo.empty_fs).2).
  pose (template_file := mkFile "letter.docx" (Demo.b "T:")).
  pose (csv_file := mkFile "rows.csv" [Byte.x00; Byte.x01; Byte.x00; Byte.x00; Byte.x00]).
  pose (loaded := load_inputs Demo.libs template_file csv_file "/tmp/tmpwork" s0).
  pose (data := Demo.frame [Byte.x00; Byte.x01; Byte.x00; Byte.x00; Byte.x00]).
  assert (load_inputs Demo.libs template_file csv_file "/tmp/tmpwork" s0
          = (Ok (data, Demo.b "T:"), loaded.2)) as Hload
    by (vm_compute; reflexivity).
  destruct (row_failures_are_collected Demo.libs request template_file csv_file
              Demo.empty_fs s0 loaded.2 "/tmp/tmpwork" data (Demo.b "T:")
              eq_refl eq_refl eq_refl eq_refl eq_refl Hload)
    as (_ & _ & _ & _ & _ & Harchive); [vm_compute; reflexivity|].
  rewrite Harchive; [reflexivity|]. vm_compute. discriminate.
Defined.

(* ===================================================================== *)
(** ** Prefixes, suffixes and duplicates *)
(* ===================================================================== *)

Section Affixes.

Lemma strip_prefix_Some (pre p r : string) :
  strip_prefix pre p = Some r <-> p = pre +:+ r.
Proof.
  revert p. induction pre as [|a pre IH]; intros p.
  - cbn. rewrite append_nil_l. split; congruence.
  - destruct p as [|b p]; cbn.
    + rewrite append_cons. split; discriminate.
    + rewrite append_cons. destruct (Ascii.eqb a b) eqn:E.
      * apply Ascii.eqb_eq in E as ->. rewrite IH. split; congruence.
      * apply Ascii.eqb_neq in E. split; [discriminate | congruence].
Qed.

Lemma is_under_inv (d p : string) :
  is_under d p = true -> exists r, p = d +:+ "/" +:+ r.
Proof.
  unfold is_under. destruct (strip_prefix (d +:+ "/") p) as [r|] eqn:E; [|discriminate].
  intros _. exists r. apply strip_prefix_Some in E. now rewrite <- append_assoc.
Qed.

Lemma has_suffix_split (suffix s : string) :
  has_suffix suffix s = true -> exists pre, s = pre +:+ suffix.
Proof.
  induction s as [|a s IH]; cbn [has_suffix].
  - rewrite orb_false_r. intros E. apply String.eqb_eq in E as <-. now exists "".
  - intros H. apply orb_prop in H as [E|H].
    + apply String.eqb_eq in E as <-. now exists "".
    + destruct (IH H) as [pre ->]. now exists (String a pre).
Qed.

(** An archive name that ends in [.docx] belongs to a path that ends in the
    letter x. *)
Lemma docx_suffix_last (stem arcname : string) :
  has_suffix ".docx" arcname = true -> endswith "x" (stem +:+ arcname) = true.
Proof.
  intros H. apply has_suffix_split in H as [pre ->].
  rewrite <- append_assoc. now rewrite endswith_append.
Qed.

(** A name without a slash, joined onto the work directory, is not below
    the output folder. *)
Lemma upload_outside_output (work_dir name : string) :
  contains_char "/" name = false ->
  is_under (path_join work_dir "output_docs") (path_join work_dir name) = false.
Proof.
  intros Hname. destruct (path_join_relative work_dir) as [stem Hstem].
  rewrite (Hstem "output_docs") by reflexivity.
  rewrite (Hstem name) by now apply startswith_absent.
  destruct (is_under _ _) eqn:E; [|reflexivity].
  apply is_under_inv in E as [r E]. rewrite append_assoc in E.
  apply String.app_inj in E. subst name.
  rewrite !contains_char_append in Hname. cbn in Hname. discriminate.
Qed.

End Affixes.

Section Duplicates.

Context {A : Type} `{EqDecision A}.

Lemma remove_dups_length_le (l : list A) : length (remove_dups l) <= length l.
Proof.
  induction l as [|x l IH]; cbn; [lia|].
  destruct (decide_rel elem_of x l); cbn; lia.
Qed.


(** A list without duplicates drawn from [k] is no longer than the distinct
    elements of [k]. *)
Lemma NoDup_within_length (l k : list A) :
  NoDup l -> (forall x, x ∈ l -> x ∈ k) -> length l <= length (remove_dups k).
Proof.
  intros Hnd Hsub. apply submseteq_length, NoDup_submseteq; [assumption|].
  intros x Hx. apply elem_of_remove_dups. auto.
Qed.

End Duplicates.

Section Omap.

Context {A B : Type} (f : A -> option B).


End Omap.

(* ===================================================================== *)
(** ** Rows that share a name *)
(* ===================================================================== *)

Section ArchiveCount.

Context (folder : string).

(** The keys selected by a function that answers with the key itself are
    as distinct as the keys. *)
Lemma NoDup_omap_keys {V} (h : string * V -> option string) (l : list (string * V)) :
  NoDup l.*1 -> (forall kv y, h kv = Some y -> y = kv.1) -> NoDup (omap h l).
Proof.
  intros Hnd Hh. induction l as [|kv l IH]; cbn; [constructor|].
  apply NoDup_cons in Hnd as [Hnin Hnd]. specialize (IH Hnd).
  destruct (h kv) as [y|] eqn:E; [|assumption].
  apply Hh in E as ->. constructor; [|assumption].
  intros Hin. apply list_elem_of_omap in Hin as (kv' & Hkv' & E').
  apply Hh in E'. apply Hnin. rewrite E'. apply list_elem_of_fmap. eauto.
Qed.

Lemma docx_count_paths (l : list (string * list Byte.byte)) :
  docx_count (omap (archive_entry folder) l) = length (omap (docx_entry_path folder) l).
Proof.
  unfold docx_count, docx_entry_path.
  induction l as [|file l IH]; cbn; [reflexivity|].
  destruct (archive_entry folder file) as [entry|]; [|assumption].
  rewrite filter_cons. destruct (has_suffix ".docx" entry.1) eqn:E.
  - rewrite decide_True by reflexivity. cbn. now rewrite IH.
  - rewrite decide_False by discriminate. assumption.
Qed.

(** The archive has no more DOCX entries than there are distinct paths in
    any list that holds the path of every DOCX file below the folder. *)
Lemma archive_docx_bound (files : gmap string (list Byte.byte)) (paths : list string) :
  (forall p, is_Some (files !! p) -> is_under folder p = true ->
             endswith "x" p = true -> p ∈ paths) ->
  docx_count (omap (archive_entry folder) (map_to_list files))
  <= length (remove_dups paths).
Proof.
  intros Hpaths. rewrite docx_count_paths. apply NoDup_within_length.
  - apply NoDup_omap_keys; [apply NoDup_fst_map_to_list|].
    intros kv y. unfold docx_entry_path.
    destruct (archive_entry folder kv); [|discriminate].
    destruct (has_suffix ".docx" _); congruence.
  - intros p Hp. apply list_elem_of_omap in Hp as ([q data] & Hin & Hq).
    apply elem_of_map_to_list in Hin.
    unfold docx_entry_path, archive_entry in Hq. cbn in Hq.
    destruct (strip_prefix (folder +:+ "/") q) as [arcname|] eqn:E;
      [|discriminate].
    cbn in Hq. destruct (has_suffix ".docx" arcname) eqn:Hs; [|discriminate].
    injection Hq as <-. apply Hpaths.
    + eauto.
    + unfold is_under. now rewrite E.
    + apply strip_prefix_Some in E as ->. now apply docx_suffix_last.
Qed.

End ArchiveCount.

Section Overwrite.

Context (L : Libs) (work_dir template_path : string).
Context (doc_template : Template L) (field_mapping : json).

Local Abbreviation output_folder := (path_join work_dir "output_docs").
Local Abbreviation pdf_folder := (path_join (path_join work_dir "output_docs") "pdf_files").
Local Abbreviation run := (run_rows L template_path output_folder pdf_folder
                             doc_template field_mapping).

Lemma written_paths_length (rows : list (Label * Series (Cell L)))
  (outcomes : list (result unit)) :
  length rows = length outcomes ->
  length (written_paths L output_folder rows outcomes) = count_ok outcomes.
Proof.
  revert outcomes. unfold written_paths.
  induction rows as [|x rows IH]; intros [|[u|msg] outcomes]; cbn; try discriminate.
  - reflexivity.
  - intros [= H]. f_equal. exact (IH _ H).
  - intros [= H]. exact (IH _ H).
Qed.


End Overwrite.



(* ===================================================================== *)
(** ** The work directory and the extension check in [POST /api/generate] *)
(* ===================================================================== *)

Section WorkDir.

Context (L : Libs).

(** The rows only add files. *)
Lemma run_rows_keeps_files (template_path output_folder pdf_folder : string)
  (doc_template : Template L) (field_mapping : json)
  (rows : list (Label * Series (Cell L))) (s : fs) (p : string) :
  is_Some (fs_files s !! p) ->
  is_Some (fs_files (run_rows L template_path output_folder pdf_folder
                       doc_template field_mapping rows s).2 !! p).
Proof.
  revert s. induction rows as [|[idx row] rows IH]; intros s Hp;
    cbn [run_rows fst snd]; [assumption|].
  apply IH.
  destruct (render_row L template_path output_folder pdf_folder doc_template
              field_mapping idx row s) as [[u|msg] s1] eqn:E; cbn [snd].
  - apply render_row_ok in E as (? & ? & ? & ? & ? & _ & _ & _ & _ & _ & _ & Hfiles).
    cbn zeta in Hfiles. destruct Hfiles as [-> | [pdf ->]];
      rewrite ?lookup_insert_is_Some'; auto.
  - now apply render_row_raise in E as ->.
Qed.

(** On the path that returns the archive the work directory is removed. *)
Lemma rmtree_removes (work_dir : string) (s : fs) :
  work_dir ∈ fs_dirs s ->
  exists s', rmtree work_dir s = (Ok tt, s') /\
    (work_dir ∉ fs_dirs s') /\
    (forall p, is_under work_dir p = true -> fs_files s' !! p = None).
Proof.
  intros Hin. unfold rmtree. rewrite bool_decide_eq_true_2 by assumption.
  eexists. split; [reflexivity|]. cbn. split.
  - rewrite elem_of_filter. tauto.
  - intros p Hp. apply map_lookup_filter_None. right. intros x _. cbn. congruence.
Qed.

(** With at least one success, and the loop run to its end, the handler
    ends with the work directory and everything below it gone. *)
Lemma generate_success_cleans_up (request : Request)
  (template_file csv_file : FileStorage) (s s0 s1 : fs) (work_dir : string)
  (data : DataFrame (Cell L)) (doc_template : Template L) :
  req_files request !! "template" = Some template_file ->
  req_files request !! "csv" = Some csv_file ->
  String.eqb (filename template_file) "" = false ->
  String.eqb (filename csv_file) "" = false ->
  mkdtemp L s = (Ok work_dir, s0) ->
  load_inputs L template_file csv_file work_dir s0 = (Ok (data, doc_template), s1) ->
  lines_printable L (iterrows L data)
    (run_rows L
       (path_join work_dir (secure_filename L (filename template_file)))
       (path_join work_dir "output_docs")
       (path_join (path_join work_dir "output_docs") "pdf_files")
       doc_template (parse_mapping L request) (iterrows L data) s1).1 = true ->
  count_ok (run_rows L
              (path_join work_dir (secure_filename L (filename template_file)))
              (path_join work_dir "output_docs")
              (path_join (path_join work_dir "output_docs") "pdf_files")
              doc_template (parse_mapping L request) (iterrows L data) s1).1 <> 0 ->
  let final := (generate_documents L request s).2 in
  (work_dir ∉ fs_dirs final) /\
  (forall p, is_under work_dir p = true -> fs_files final !! p = None).
Proof.
  intros Ht Hc Hnt Hnc Hmk Hload Hprint Hcount.
  pose proof (generate_documents_loaded L request template_file csv_file s s0 s1
                work_dir data doc_template Ht Hc Hnt Hnc Hmk Hload Hprint)
    as [Hdir Hgen].
  cbn zeta in Hdir, Hgen. apply Nat.eqb_neq in Hcount.
  rewrite Hcount in Hgen. cbn zeta. rewrite Hgen. cbn [snd].
  destruct (rmtree_removes work_dir _ Hdir) as (s' & -> & Hgone & Hfiles). auto.
Qed.

(** With no success, and the loop run to its end, the handler returns from
    inside the [try] block, past both calls of [shutil.rmtree]: the work
    directory and the uploads stored in it stay. *)
Lemma generate_zero_successes_leak (request : Request)
  (template_file csv_file : FileStorage) (s s0 s1 : fs) (work_dir : string)
  (data : DataFrame (Cell L)) (doc_template : Template L) :
  req_files request !! "template" = Some template_file ->
  req_files request !! "csv" = Some csv_file ->
  String.eqb (filename template_file) "" = false ->
  String.eqb (filename csv_file) "" = false ->
  mkdtemp L s = (Ok work_dir, s0) ->
  load_inputs L template_file csv_file work_dir s0 = (Ok (data, doc_template), s1) ->
  lines_printable L (iterrows L data)
    (run_rows L
       (path_join work_dir (secure_filename L (filename template_file)))
       (path_join work_dir "output_docs")
       (path_join (path_join work_dir "output_docs") "pdf_files")
       doc_template (parse_mapping L request) (iterrows L data) s1).1 = true ->
  count_ok (run_rows L
              (path_join work_dir (secure_filename L (filename template_file)))
              (path_join work_dir "output_docs")
              (path_join (path_join work_dir "output_docs") "pdf_files")
              doc_template (parse_mapping L request) (iterrows L data) s1).1 = 0 ->
  let answer := generate_documents L request s in
  status answer.1 = 400 /\
  work_dir ∈ fs_dirs answer.2 /\
  is_Some (fs_files answer.2
             !! path_join work_dir (secure_filename L (filename template_file))) /\
  is_Some (fs_files answer.2
             !! path_join work_dir (secure_filename L (filename csv_file))).
Proof.
  intros Ht Hc Hnt Hnc Hmk Hload Hprint Hcount.
  pose proof (generate_documents_loaded L request template_file csv_file s s0 s1
                work_dir data doc_template Ht Hc Hnt Hnc Hmk Hload Hprint)
    as [Hdir Hgen].
  cbn zeta in Hdir, Hgen. rewrite Hcount in Hgen. cbn zeta. rewrite Hgen.
  cbn [fst snd status json_error Nat.eqb].
  split; [reflexivity|]. split; [assumption|].
  apply load_inputs_ok in Hload as [Hfiles _]. cbn zeta in Hfiles.
  split; apply run_rows_keeps_files; rewrite Hfiles.
  - rewrite !lookup_insert_is_Some'. auto.
  - rewrite lookup_insert_is_Some'. auto.
Qed.

(** When loading the uploads raises, the [except] clause removes the work
    directory and answers 400 with the message of the exception. *)
Lemma load_inputs_raise_dirs (template_file csv_file : FileStorage) (work_dir : string)
  (s0 s1 : fs) (msg : string) :
  load_inputs L template_file csv_file work_dir s0 = (Raise msg, s1) ->
  fs_dirs s0 ⊆ fs_dirs s1.
Proof.
  unfold load_inputs, pd_read_csv, open_template, makedirs2, iobind, lift,
    read_file, write_file, ret.
  cbv beta.
  repeat match goal with
  | |- context [match ?x with _ => _ end] =>
      lazymatch x with
      | context [match _ with _ => _ end] => fail
      | _ => destruct x eqn:?; cbv beta iota; try discriminate
      end
  end;
  intros [= _ <-]; cbn; set_solver.
Qed.

Lemma generate_exception_cleans_up (request : Request)
  (template_file csv_file : FileStorage) (s s0 s1 : fs) (work_dir msg : string) :
  req_files request !! "template" = Some template_file ->
  req_files request !! "csv" = Some csv_file ->
  String.eqb (filename template_file) "" = false ->
  String.eqb (filename csv_file) "" = false ->
  mkdtemp L s = (Ok work_dir, s0) ->
  load_inputs L template_file csv_file work_dir s0 = (Raise msg, s1) ->
  let answer := generate_documents L request s in
  answer.1 = json_error L 400 ("Ошибка обработки: " +:+ msg) /\
  work_dir ∉ fs_dirs answer.2.
Proof.
  intros Ht Hc Hnt Hnc Hmk Hload.
  assert (work_dir ∈ fs_dirs s1) as Hdir.
  { apply load_inputs_raise_dirs in Hload. apply mkdtemp_ok in Hmk as ->.
    cbn in Hload. set_solver. }
  destruct (rmtree_removes work_dir s1 Hdir) as (s' & Hrm & Hgone & _).
  assert (generate_documents L request s =
          (json_error L 400 ("Ошибка обработки: " +:+ msg), s')) as Hgen.
  { unfold generate_documents, outer_try. rewrite Ht, Hc, Hnt, Hnc. cbn [orb].
    unfold iobind at 1. rewrite Hmk.
    unfold try_except, generate_in_workdir. unfold iobind at 1. rewrite Hload.
    unfold iobind. now rewrite Hrm. }
  cbn zeta. rewrite Hgen. auto.
Qed.

End WorkDir.

(** C2. The claim asks that the work directory be gone on every path out
    of the handler.  That holds on the path that returns the archive
    ([generate_success_cleans_up]) and on the path through the [except]
    clause ([generate_exception_cleans_up]), but not on the path taken when
    no row succeeds ([generate_zero_successes_leak]).  Here the handler is
    run on a request whose single row fails to render: the answer is status
    400 with the row's error, and the work directory is still there with
    both uploads in it. *)
Theorem zero_successes_leave_work_dir :
  let request := Demo.upload "letter.docx" "rows.csv" [Byte.x00] in
  let answer := generate_documents Demo.libs request Demo.empty_fs in
  answer.1 =
    json_error Demo.libs 400
      "Не удалось создать документы. Ошибки: Строка 1: render failed" /\
  "/tmp/tmpwork" ∈ fs_dirs answer.2 /\
  fs_files answer.2 !! "/tmp/tmpwork/letter.docx" = Some (Demo.b "T:") /\
  fs_files answer.2 !! "/tmp/tmpwork/rows.csv" = Some [Byte.x00].
Proof.
  intros request answer. split; [vm_compute; reflexivity|]. split.
  - apply (bool_decide_unpack _). vm_compute. exact I.
  - split; vm_compute; reflexivity.
Qed.

(** C1. The claim asks that an upload with a disallowed extension be
    answered with status 400 before anything is stored.  [generate_documents]
    never calls [allowed_file] (the two preview handlers do).  Here it is run
    on a request whose template is named [letter.txt] and whose CSV is named
    [rows.txt]: both names fail the extension check, both files are stored
    in the work directory, and the answer is status 200 with the archive of
    the generated document. *)
Theorem generate_accepts_disallowed_extension :
  let template_file := mkFile "letter.txt" (Demo.b "T:") in
  let csv_file := mkFile "rows.txt" [Byte.x01] in
  let request := Demo.upload "letter.txt" "rows.txt" [Byte.x01] in
  let stored :=
    (load_inputs Demo.libs template_file csv_file "/tmp/tmpwork"
       (mkdtemp Demo.libs Demo.empty_fs).2).2 in
  allowed_file "letter.txt" = false /\
  allowed_file "rows.txt" = false /\
  req_files request !! "template" = Some template_file /\
  req_files request !! "csv" = Some csv_file /\
  fs_files stored !! "/tmp/tmpwork/letter.txt" = Some (Demo.b "T:") /\
  fs_files stored !! "/tmp/tmpwork/rows.txt" = Some [Byte.x01] /\
  (generate_documents Demo.libs request Demo.empty_fs).1 =
    mkResponse 200
      (ZipAttachment "documents_20240101_120000.zip"
         [("alice@example.org_Acme.docx", Demo.b "T:Alice[Phone]")]).
Proof.
  intros template_file csv_file request stored.
  repeat split; vm_compute; reflexivity.
Qed.

(* ===================================================================== *)
(** ** Further properties of the helpers *)
(* ===================================================================== *)

Section Extension.

Lemma rsplit1_Some (sep : ascii) (s before after : string) :
  rsplit1 sep s = Some (before, after) ->
  s = before +:+ String sep after /\ contains_char sep after = false.
Proof.
  revert before. induction s as [|a s IH]; intros before; cbn; [discriminate|].
  destruct (rsplit1 sep s) as [[b' a']|] eqn:E.
  - intros [= <- <-]. destruct (IH b' eq_refl) as [-> Hafter].
    now rewrite append_cons.
  - destruct (Ascii.eqb a sep) eqn:Ea; [|discriminate].
    intros [= <- <-]. apply Ascii.eqb_eq in Ea as ->. split; [reflexivity|].
    clear IH. induction s as [|c s IHs]; [reflexivity|]. cbn in E |- *.
    destruct (rsplit1 sep s) as [[? ?]|]; [discriminate|].
    destruct (Ascii.eqb c sep); [discriminate|]. now rewrite IHs.
Qed.

Lemma in_allowed_iff (ext : string) :
  in_allowed ext = true <-> ext = "docx" \/ ext = "csv".
Proof.
  unfold in_allowed, ALLOWED_EXTENSIONS. cbn [existsb].
  rewrite orb_false_r, orb_true_iff, !String.eqb_eq. reflexivity.
Qed.

End Extension.

(** X1. [allowed_file] accepts exactly the names of the form
    [stem.ext] in which [ext] has no further dot and is [docx] or [csv] up to
    the case of its ASCII letters.  The stem may be anything, the empty
    string included (a file named [.csv] passes), and only the last
    component counts ([letter.docx.txt] fails). *)
Theorem allowed_file_iff (name : string) :
  allowed_file name = true <->
  exists stem ext,
    name = stem +:+ "." +:+ ext /\
    contains_char "." ext = false /\
    (lower ext = "docx" \/ lower ext = "csv").
Proof.
  split.
  - unfold allowed_file. intros H. apply andb_prop in H as [_ H].
    destruct (rsplit1 "." name) as [[stem ext]|] eqn:E; [|discriminate].
    apply rsplit1_Some in E as [-> Hext]. exists stem, ext.
    split; [reflexivity|]. split; [assumption|]. now apply in_allowed_iff.
  - intros (stem & ext & -> & Hext & Hlow).
    rewrite allowed_file_extension by assumption. now apply in_allowed_iff.
Qed.

(** X2. [sanitize_filename] keeps the length of its argument and works
    character by character: the result for a concatenation is the
    concatenation of the results, whatever the two parts are. *)
Theorem sanitize_filename_length_append (s t : string) :
  String.length (sanitize_filename s) = String.length s /\
  sanitize_filename (s +:+ t) = sanitize_filename s +:+ sanitize_filename t.
Proof. split; [apply sanitize_length | apply sanitize_append]. Qed.

(** X3. A name that holds none of the nine characters of the class is
    returned as it is: [sanitize_filename] changes nothing but those
    characters. *)
Theorem sanitize_filename_fixes_clean (s : string) :
  forallb (fun c => negb (contains_char c s)) forbidden_chars = true ->
  sanitize_filename s = s.
Proof.
  intros H. apply sanitize_clean. intros c Hc.
  apply forbidden_cases in Hc. rewrite forallb_forall in H.
  specialize (H c Hc). now apply negb_true_iff in H.
Qed.

Lemma sanitize_filename_fixes_clean_witness :
  sanitize_filename "Acme Ltd. (2024)_final-v2.docx" = "Acme Ltd. (2024)_final-v2.docx".
Proof.
  apply (sanitize_filename_fixes_clean "Acme Ltd. (2024)_final-v2.docx").
  reflexivity.
Defined.

(* ===================================================================== *)
(** ** Further properties of the encoding detector *)
(* ===================================================================== *)

Section DetectBytes.

Context (L : Libs).

Lemma detect_loop_bytes (file_path : string) (s : fs) (data : list Byte.byte)
  (encs : list string) :
  fs_files s !! file_path = Some data ->
  detect_loop L file_path encs s = first_readable L data encs.
Proof.
  intros Hfile. induction encs as [|e rest IH]; [reflexivity|].
  cbn [detect_loop first_readable].
  unfold pd_read_csv, iobind, read_file, lift. rewrite Hfile.
  destruct (read_csv L data e (Some 1)); [reflexivity | exact IH].
Qed.

Lemma detect_loop_missing (file_path : string) (s : fs) (encs : list string) :
  fs_files s !! file_path = None ->
  detect_loop L file_path encs s = "utf-8".
Proof.
  intros Hfile. induction encs as [|e rest IH]; [reflexivity|].
  cbn [detect_loop]. unfold pd_read_csv, iobind, read_file. now rewrite Hfile.
Qed.

Lemma detect_loop_member (file_path : string) (s : fs) (encs : list string) :
  detect_loop L file_path encs s ∈ encs \/ detect_loop L file_path encs s = "utf-8".
Proof.
  induction encs as [|e rest IH]; [now right|].
  cbn [detect_loop].
  destruct (pd_read_csv L file_path e (Some 1) s) as [[df|msg] s'].
  - left. now left.
  - destruct IH as [IH|IH]; [left; now right | now right].
Qed.

End DetectBytes.

(** X4. Whatever the file holds, [detect_csv_encoding] answers with one
    of its five candidates; and the answer is a function of the bytes of the
    file alone: it is the first candidate under which the trial parse of
    these bytes returns. *)
Theorem detect_csv_encoding_among_candidates (L : Libs) (file_path : string) (s : fs) :
  detect_csv_encoding L file_path s ∈ encodings /\
  match fs_files s !! file_path with
  | Some data => detect_csv_encoding L file_path s = first_readable L data encodings
  | None => detect_csv_encoding L file_path s = "utf-8"
  end.
Proof.
  split.
  - destruct (detect_loop_member L file_path s encodings) as [H | H]; [exact H|].
    unfold detect_csv_encoding. rewrite H. now left.
  - destruct (fs_files s !! file_path) as [data|] eqn:E.
    + now apply detect_loop_bytes.
    + now apply detect_loop_missing.
Qed.

(** X5. On a path that names no file every trial parse raises, so
    [detect_csv_encoding] falls back to ['utf-8'], and [get_csv_columns],
    whose own parse raises as well, returns [None] instead of raising. *)
Theorem missing_csv_file (L : Libs) (file_path : string) (s : fs) :
  fs_files s !! file_path = None ->
  detect_csv_encoding L file_path s = "utf-8" /\
  get_csv_columns L file_path s = None.
Proof.
  intros Hfile. split; [now apply detect_loop_missing|].
  unfold get_csv_columns, pd_read_csv, iobind, read_file. now rewrite Hfile.
Qed.

Lemma missing_csv_file_witness :
  detect_csv_encoding Demo.libs "/tmp/nothing.csv" Demo.empty_fs = "utf-8" /\
  get_csv_columns Demo.libs "/tmp/nothing.csv" Demo.empty_fs = None.
Proof.
  apply (missing_csv_file Demo.libs "/tmp/nothing.csv" Demo.empty_fs).
  reflexivity.
Defined.

(** X6. For a file that exists, [get_csv_columns] returns the column
    names of the header-only parse ([nrows=0]) of its bytes under the
    encoding the detector settles on for these bytes, and [None] when that
    parse raises. *)
Theorem get_csv_columns_of_bytes (L : Libs) (file_path : string) (s : fs)
  (data : list Byte.byte) :
  fs_files s !! file_path = Some data ->
  get_csv_columns L file_path s =
  match read_csv L data (first_readable L data encodings) (Some 0) with
  | Ok df => Some (df_columns df)
  | Raise _ => None
  end.
Proof.
  intros Hfile. unfold get_csv_columns, detect_csv_encoding.
  rewrite (detect_loop_bytes L file_path s data encodings Hfile).
  unfold pd_read_csv, iobind, read_file, lift. rewrite Hfile.
  now destruct (read_csv L data _ (Some 0)).
Qed.

Lemma get_csv_columns_of_bytes_witness :
  get_csv_columns Demo.libs "/tmp/rows.csv"
    (mkFs {[ "/tmp/rows.csv" := [Byte.x01; Byte.x01] ]} {[ "/tmp" ]})
  = Some ["Name"; "Email"; "Организация"].
Proof.
  rewrite (get_csv_columns_of_bytes Demo.libs "/tmp/rows.csv"
             (mkFs {[ "/tmp/rows.csv" := [Byte.x01; Byte.x01] ]} {[ "/tmp" ]})
             [Byte.x01; Byte.x01]); reflexivity.
Defined.

(* ===================================================================== *)
(** ** Further properties of the preview handlers *)
(* ===================================================================== *)

Section Preview.

Context (L : Libs).

Lemma delete_written (path : string) (data : list Byte.byte)
  (files : gmap string (list Byte.byte)) :
  delete path (<[path := data]> files) = delete path files.
Proof. apply delete_insert_eq. Qed.

Lemma remove_written (path : string) (data : list Byte.byte) (s : fs) :
  os_remove path (mkFs (<[path := data]> (fs_files s)) (fs_dirs s)) =
  (Ok tt, mkFs (delete path (fs_files s)) (fs_dirs s)).
Proof.
  unfold os_remove. cbn [fs_files fs_dirs]. rewrite lookup_insert_eq.
  now rewrite delete_written.
Qed.

Lemma remove_if_exists_written (path : string) (data : list Byte.byte) (s : fs) :
  remove_if_exists path (mkFs (<[path := data]> (fs_files s)) (fs_dirs s)) =
  (Ok tt, mkFs (delete path (fs_files s)) (fs_dirs s)).
Proof.
  unfold remove_if_exists, path_exists. cbn [fs_files fs_dirs].
  rewrite lookup_insert_eq.
  rewrite bool_decide_eq_true_2 by eauto. cbn [orb]. apply remove_written.
Qed.

(** [POST /api/preview-template] once the upload is stored. *)
Lemma preview_template_stored (request : Request) (file : FileStorage) (s : fs) :
  req_files request !! "template" = Some file ->
  String.eqb (filename file) "" = false ->
  allowed_file (filename file) = true ->
  storage_error L (temp_path L file) = None ->
  preview_template L request s =
  (match (let* doc := DocxTemplate L (content file) in
          get_undeclared_variables L doc) with
   | Ok variables => mkResponse 200 (JsonVariables variables)
   | Raise e => json_error L 400 ("Ошибка при чтении шаблона: " +:+ e)
   end,
   mkFs (delete (temp_path L file) (fs_files s)) (fs_dirs s)).
Proof.
  intros Hfile Hname Hext Hstore.
  unfold preview_template, outer_try. rewrite Hfile, Hname, Hext. cbn [negb].
  fold (temp_path L file).
  unfold iobind at 1. unfold write_file at 1. rewrite Hstore.
  unfold try_except, open_template, iobind, read_file, lift, ret.
  cbn [fs_files fs_dirs]. rewrite lookup_insert_eq.
  destruct (DocxTemplate L (content file)) as [doc|e]; cbn [bind].
  - destruct (get_undeclared_variables L doc) as [variables|e].
    + now rewrite remove_written.
    + now rewrite remove_if_exists_written.
  - now rewrite remove_if_exists_written.
Qed.

(** [POST /api/preview-csv] once the upload is stored. *)
Lemma preview_csv_stored (request : Request) (file : FileStorage) (s : fs) :
  req_files request !! "csv" = Some file ->
  String.eqb (filename file) "" = false ->
  allowed_file (filename file) = true ->
  storage_error L (temp_path L file) = None ->
  preview_csv L request s =
  (match read_csv L (content file) (first_readable L (content file) encodings) None with
   | Ok df =>
       mkResponse 200
         (JsonCsvPreview (df_columns df) (map (fun r => map snd r.2) (take 3 (df_rows df)))
            (length (df_rows df)))
   | Raise e => json_error L 400 ("Ошибка при чтении CSV: " +:+ e)
   end,
   mkFs (delete (temp_path L file) (fs_files s)) (fs_dirs s)).
Proof.
  intros Hfile Hname Hext Hstore.
  unfold preview_csv, outer_try. rewrite Hfile, Hname, Hext. cbn [negb].
  fold (temp_path L file).
  unfold iobind at 1. unfold write_file at 1. rewrite Hstore.
  unfold try_except. unfold iobind at 1. unfold detect_csv_encoding.
  rewrite (detect_loop_bytes L (temp_path L file) _ (content file) encodings)
    by (cbn [fs_files]; apply lookup_insert_eq).
  unfold pd_read_csv, iobind, read_file, lift, ret.
  cbn [fs_files fs_dirs]. rewrite lookup_insert_eq.
  destruct (read_csv L (content file) _ None) as [df|e].
  - now rewrite remove_written.
  - now rewrite remove_if_exists_written.
Qed.

Lemma preview_template_unsaved (request : Request) (file : FileStorage) (s : fs)
  (msg : string) :
  req_files request !! "template" = Some file ->
  String.eqb (filename file) "" = false ->
  allowed_file (filename file) = true ->
  storage_error L (temp_path L file) = Some msg ->
  preview_template L request s = (json_error L 500 ("Неизвестная ошибка: " +:+ msg), s).
Proof.
  intros Hfile Hname Hext Hstore.
  unfold preview_template, outer_try. rewrite Hfile, Hname, Hext. cbn [negb].
  fold (temp_path L file).
  unfold iobind at 1. unfold write_file at 1. now rewrite Hstore.
Qed.

Lemma preview_csv_unsaved (request : Request) (file : FileStorage) (s : fs)
  (msg : string) :
  req_files request !! "csv" = Some file ->
  String.eqb (filename file) "" = false ->
  allowed_file (filename file) = true ->
  storage_error L (temp_path L file) = Some msg ->
  preview_csv L request s = (json_error L 500 ("Неизвестная ошибка: " +:+ msg), s).
Proof.
  intros Hfile Hname Hext Hstore.
  unfold preview_csv, outer_try. rewrite Hfile, Hname, Hext. cbn [negb].
  fold (temp_path L file).
  unfold iobind at 1. unfold write_file at 1. now rewrite Hstore.
Qed.

End Preview.

(** X7. [POST /api/preview-template] with an upload whose name passes
    the checks and that can be stored: the answer is status 200 with the
    template's variables when docxtpl opens the file and lists them, and
    status 400 with docxtpl's message when either step raises.  In both
    cases the stored upload is deleted again: afterwards there is no file at
    the path it was stored under (a file that was there before the request is
    gone too), every other file is as before, and no directory was made. *)
Theorem preview_template_answer (L : Libs) (request : Request) (file : FileStorage)
  (s : fs) :
  req_files request !! "template" = Some file ->
  String.eqb (filename file) "" = false ->
  allowed_file (filename file) = true ->
  storage_error L (temp_path L file) = None ->
  let answer := preview_template L request s in
  answer.1 =
    match (let* doc := DocxTemplate L (content file) in
           get_undeclared_variables L doc) with
    | Ok variables => mkResponse 200 (JsonVariables variables)
    | Raise e => json_error L 400 ("Ошибка при чтении шаблона: " +:+ e)
    end /\
  fs_dirs answer.2 = fs_dirs s /\
  fs_files answer.2 !! temp_path L file = None /\
  (forall p, p <> temp_path L file -> fs_files answer.2 !! p = fs_files s !! p).
Proof.
  intros Hfile Hname Hext Hstore answer. unfold answer.
  rewrite (preview_template_stored L request file s Hfile Hname Hext Hstore).
  cbn [fst snd fs_files fs_dirs]. repeat split.
  - apply lookup_delete_eq.
  - intros p Hp. now apply lookup_delete_ne.
Qed.

Lemma preview_template_answer_witness :
  (preview_template Demo.libs (Demo.upload "letter.docx" "rows.csv" []) Demo.empty_fs).1
  = mkResponse 200 (JsonVariables ["Name"; "Phone"]).
Proof.
  destruct (preview_template_answer Demo.libs (Demo.upload "letter.docx" "rows.csv" [])
              (mkFile "letter.docx" (Demo.b "T:")) Demo.empty_fs
              eq_refl eq_refl eq_refl eq_refl) as [H _].
  exact H.
Defined.

(** X8. [POST /api/preview-csv] with an upload whose name passes the
    checks and that can be stored: the file is parsed in full under the
    encoding detected for its bytes.  When the parse returns, the answer is
    status 200 with the column names, the values of the first rows, three at
    most, and the number of all rows; when it raises, status 400 with the
    parser's message.  In both cases the stored upload is deleted again and
    nothing else on the file system has changed. *)
Theorem preview_csv_answer (L : Libs) (request : Request) (file : FileStorage)
  (s : fs) :
  req_files request !! "csv" = Some file ->
  String.eqb (filename file) "" = false ->
  allowed_file (filename file) = true ->
  storage_error L (temp_path L file) = None ->
  let answer := preview_csv L request s in
  match read_csv L (content file) (first_readable L (content file) encodings) None with
  | Ok df =>
      exists preview,
        answer.1 =
          mkResponse 200
            (JsonCsvPreview (df_columns df) preview (length (df_rows df))) /\
        preview = map (fun r => map snd r.2) (take 3 (df_rows df)) /\
        length preview = Nat.min 3 (length (df_rows df))
  | Raise e => answer.1 = json_error L 400 ("Ошибка при чтении CSV: " +:+ e)
  end /\
  fs_dirs answer.2 = fs_dirs s /\
  fs_files answer.2 !! temp_path L file = None /\
  (forall p, p <> temp_path L file -> fs_files answer.2 !! p = fs_files s !! p).
Proof.
  intros Hfile Hname Hext Hstore answer. unfold answer.
  rewrite (preview_csv_stored L request file s Hfile Hname Hext Hstore).
  cbn [fst snd fs_files fs_dirs]. repeat split.
  - destruct (read_csv L (content file) _ None) as [df|e]; [|reflexivity].
    eexists. split; [reflexivity|]. split; [reflexivity|].
    now rewrite length_map, length_take.
  - apply lookup_delete_eq.
  - intros p Hp. now apply lookup_delete_ne.
Qed.

Lemma preview_csv_answer_witness :
  exists preview,
    (preview_csv Demo.libs
       (Demo.upload "t.docx" "rows.csv" [Byte.x01; Byte.x01; Byte.x01; Byte.x01; Byte.x01])
       Demo.empty_fs).1
    = mkResponse 200 (JsonCsvPreview ["Name"; "Email"; "Организация"] preview 5) /\
    length preview = 3.
Proof.
  destruct (preview_csv_answer Demo.libs
              (Demo.upload "t.docx" "rows.csv" [Byte.x01; Byte.x01; Byte.x01; Byte.x01; Byte.x01])
              (mkFile "rows.csv" [Byte.x01; Byte.x01; Byte.x01; Byte.x01; Byte.x01])
              Demo.empty_fs eq_refl eq_refl eq_refl eq_refl) as [H _].
  cbn in H. destruct H as (preview & Ha & _ & Hl).
  exists preview. split; [exact Ha | exact Hl].
Defined.

(** X9. When the upload of a preview request cannot be stored, the
    exception of [save] reaches the outer handler: the answer is status 500
    with the message of the exception, and the file system is untouched.
    This holds for both preview handlers. *)
Theorem preview_save_failure (L : Libs) (template_request csv_request : Request)
  (template_file csv_file : FileStorage) (s : fs) (msg_t msg_c : string) :
  req_files template_request !! "template" = Some template_file ->
  String.eqb (filename template_file) "" = false ->
  allowed_file (filename template_file) = true ->
  storage_error L (temp_path L template_file) = Some msg_t ->
  req_files csv_request !! "csv" = Some csv_file ->
  String.eqb (filename csv_file) "" = false ->
  allowed_file (filename csv_file) = true ->
  storage_error L (temp_path L csv_file) = Some msg_c ->
  preview_template L template_request s =
    (json_error L 500 ("Неизвестная ошибка: " +:+ msg_t), s) /\
  preview_csv L csv_request s =
    (json_error L 500 ("Неизвестная ошибка: " +:+ msg_c), s).
Proof.
  intros. split; [now apply preview_template_unsaved with template_file
                 | now apply preview_csv_unsaved with csv_file].
Qed.

Lemma preview_save_failure_witness :
  let L := Demo.world (fun _ => Ok "/tmp/tmpwork") (fun _ => Some "Read-only file system")
             (fun _ => Raise "no converter installed") Demo.demo_json_loads in
  preview_template L (Demo.upload_as "template" "letter.docx" (Demo.b "T:")) Demo.empty_fs =
    (json_error L 500 "Неизвестная ошибка: Read-only file system", Demo.empty_fs) /\
  preview_csv L (Demo.upload_as "csv" "rows.csv" [Byte.x01]) Demo.empty_fs =
    (json_error L 500 "Неизвестная ошибка: Read-only file system", Demo.empty_fs).
Proof.
  intros L.
  apply (preview_save_failure L
           (Demo.upload_as "template" "letter.docx" (Demo.b "T:"))
           (Demo.upload_as "csv" "rows.csv" [Byte.x01])
           (mkFile "letter.docx" (Demo.b "T:")) (mkFile "rows.csv" [Byte.x01])
           Demo.empty_fs "Read-only file system" "Read-only file system");
    reflexivity.
Defined.

Section PreviewCases.

Context (L : Libs).

Lemma preview_template_cases (request : Request) (s : fs) :
  (exists code msg,
     preview_template L request s = (json_error L code msg, s) /\
     known_status code = true) \/
  (exists file r,
     preview_template L request s =
       (r, mkFs (delete (temp_path L file) (fs_files s)) (fs_dirs s)) /\
     known_status (status r) = true).
Proof.
  destruct (req_files request !! "template") as [file|] eqn:Hfile.
  2:{ left. exists 400, "Шаблон не загружен". split; [|reflexivity].
      unfold preview_template, outer_try. now rewrite Hfile. }
  destruct (String.eqb (filename file) "") eqn:Hname.
  { left. exists 400, "Файл шаблона пуст". split; [|reflexivity].
    unfold preview_template, outer_try. now rewrite Hfile, Hname. }
  destruct (allowed_file (filename file)) eqn:Hext.
  2:{ left. exists 400, "Недопустимый формат шаблона". split; [|reflexivity].
      unfold preview_template, outer_try. now rewrite Hfile, Hname, Hext. }
  destruct (storage_error L (temp_path L file)) as [msg|] eqn:Hstore.
  { left. exists 500, ("Неизвестная ошибка: " +:+ msg). split; [|reflexivity].
    now apply preview_template_unsaved with file. }
  right. exists file. eexists. split.
  - now apply preview_template_stored.
  - destruct (DocxTemplate L (content file)) as [doc|e]; cbn [bind]; [|reflexivity].
    now destruct (get_undeclared_variables L doc).
Qed.

Lemma preview_csv_cases (request : Request) (s : fs) :
  (exists code msg,
     preview_csv L request s = (json_error L code msg, s) /\
     known_status code = true) \/
  (exists file r,
     preview_csv L request s =
       (r, mkFs (delete (temp_path L file) (fs_files s)) (fs_dirs s)) /\
     known_status (status r) = true).
Proof.
  destruct (req_files request !! "csv") as [file|] eqn:Hfile.
  2:{ left. exists 400, "CSV не загружен". split; [|reflexivity].
      unfold preview_csv, outer_try. now rewrite Hfile. }
  destruct (String.eqb (filename file) "") eqn:Hname.
  { left. exists 400, "Файл CSV пуст". split; [|reflexivity].
    unfold preview_csv, outer_try. now rewrite Hfile, Hname. }
  destruct (allowed_file (filename file)) eqn:Hext.
  2:{ left. exists 400, "Недопустимый формат CSV". split; [|reflexivity].
      unfold preview_csv, outer_try. now rewrite Hfile, Hname, Hext. }
  destruct (storage_error L (temp_path L file)) as [msg|] eqn:Hstore.
  { left. exists 500, ("Неизвестная ошибка: " +:+ msg). split; [|reflexivity].
    now apply preview_csv_unsaved with file. }
  right. exists file. eexists. split.
  - now apply preview_csv_stored.
  - now destruct (read_csv L (content file) _ None).
Qed.

End PreviewCases.

(** X10. Neither preview handler leaves anything behind, whatever the
    request and whatever the libraries do: after the handler has answered,
    the directories are those from before, and every file that exists existed
    before with the same content (the stored upload has been deleted on every
    path).  The status of the answer is 200, 400 or 500. *)
Theorem preview_handlers_leave_nothing (L : Libs) (request : Request) (s : fs) :
  let template_answer := preview_template L request s in
  let csv_answer := preview_csv L request s in
  (fs_dirs template_answer.2 = fs_dirs s /\
   fs_files template_answer.2 ⊆ fs_files s /\
   known_status (status template_answer.1) = true) /\
  (fs_dirs csv_answer.2 = fs_dirs s /\
   fs_files csv_answer.2 ⊆ fs_files s /\
   known_status (status csv_answer.1) = true).
Proof.
  cbn zeta. split.
  - destruct (preview_template_cases L request s)
      as [(code & msg & -> & Hk) | (file & r & -> & Hk)]; cbn [fst snd fs_files fs_dirs].
    + auto.
    + split; [reflexivity|]. split; [apply delete_subseteq | assumption].
  - destruct (preview_csv_cases L request s)
      as [(code & msg & -> & Hk) | (file & r & -> & Hk)]; cbn [fst snd fs_files fs_dirs].
    + auto.
    + split; [reflexivity|]. split; [apply delete_subseteq | assumption].
Qed.

(* ===================================================================== *)
(** ** Further properties of [POST /api/generate] *)
(* ===================================================================== *)

Section GenerateCases.

Context (L : Libs).

Lemma generate_documents_complete (request : Request) (s : fs) :
  incomplete_upload request = false ->
  exists template_file csv_file,
    req_files request !! "template" = Some template_file /\
    req_files request !! "csv" = Some csv_file /\
    String.eqb (filename template_file) "" = false /\
    String.eqb (filename csv_file) "" = false.
Proof.
  unfold incomplete_upload.
  destruct (req_files request !! "template") as [t|]; [|discriminate].
  destruct (req_files request !! "csv") as [c|]; [|discriminate].
  intros H. apply orb_false_iff in H as [Ht Hc]. exists t, c. auto.
Qed.

Lemma generate_documents_incomplete (request : Request) (s : fs) :
  incomplete_upload request = true ->
  exists msg, generate_documents L request s = (json_error L 400 msg, s).
Proof.
  unfold incomplete_upload, generate_documents, outer_try.
  destruct (req_files request !! "template") as [t|]; [|eexists; reflexivity].
  destruct (req_files request !! "csv") as [c|]; [|eexists; reflexivity].
  intros ->. eexists; reflexivity.
Qed.

Lemma generate_documents_no_work_dir (request : Request) (s : fs) (msg : string) :
  incomplete_upload request = false ->
  mkdtemp_name L s = Raise msg ->
  generate_documents L request s =
  (json_error L 500 ("Критическая ошибка: " +:+ msg), s).
Proof.
  intros Hc Hmk.
  destruct (generate_documents_complete request s Hc) as (t & c & Ht & Hcsv & Hnt & Hnc).
  unfold generate_documents, outer_try. rewrite Ht, Hcsv, Hnt, Hnc. cbn [orb].
  unfold iobind, mkdtemp. now rewrite Hmk.
Qed.

End GenerateCases.

(** X11. [POST /api/generate] without the [template] file, without the
    [csv] file, or with an empty filename for either is answered with status
    400 at once: the file system is exactly as before, no work directory has
    been made. *)
Theorem generate_rejects_incomplete_upload (L : Libs) (request : Request) (s : fs) :
  incomplete_upload request = true ->
  exists msg, generate_documents L request s = (json_error L 400 msg, s).
Proof. apply generate_documents_incomplete. Qed.

Lemma generate_rejects_incomplete_upload_witness :
  exists msg,
    generate_documents Demo.libs (Demo.upload_as "template" "letter.docx" (Demo.b "T:"))
      Demo.empty_fs
    = (json_error Demo.libs 400 msg, Demo.empty_fs).
Proof.
  apply (generate_rejects_incomplete_upload Demo.libs
           (Demo.upload_as "template" "letter.docx" (Demo.b "T:")) Demo.empty_fs).
  reflexivity.
Defined.

(** X12. When both files are there but [tempfile.mkdtemp] raises, the
    exception is met outside the inner [try]: the answer is status 500 with
    the message of the exception, and nothing has been written. *)
Theorem generate_without_work_dir (L : Libs) (request : Request) (s : fs) (msg : string) :
  incomplete_upload request = false ->
  mkdtemp_name L s = Raise msg ->
  generate_documents L request s =
  (json_error L 500 ("Критическая ошибка: " +:+ msg), s).
Proof. apply generate_documents_no_work_dir. Qed.

Lemma generate_without_work_dir_witness :
  let L := Demo.world (fun _ => Raise "No space left on device") (fun _ => None)
             (fun _ => Raise "no converter installed") Demo.demo_json_loads in
  generate_documents L (Demo.upload "letter.docx" "rows.csv" [Byte.x01]) Demo.empty_fs =
  (json_error L 500 "Критическая ошибка: No space left on device", Demo.empty_fs).
Proof.
  intros L.
  apply (generate_without_work_dir L (Demo.upload "letter.docx" "rows.csv" [Byte.x01])
           Demo.empty_fs "No space left on device"); reflexivity.
Defined.

Section LoadErrors.

Context (L : Libs).

(** An unparsable CSV makes [load_inputs] raise with the parser's message,
    after both uploads were stored. *)
Lemma load_inputs_bad_csv (template_file csv_file : FileStorage) (work_dir : string)
  (s0 : fs) (e : string) :
  storage_error L (path_join work_dir (secure_filename L (filename template_file))) = None ->
  storage_error L (path_join work_dir (secure_filename L (filename csv_file))) = None ->
  read_csv L (content csv_file) (first_readable L (content csv_file) encodings) None
    = Raise e ->
  exists s1, load_inputs L template_file csv_file work_dir s0 = (Raise e, s1).
Proof.
  intros Hst Hsc Hread. unfold load_inputs.
  unfold iobind at 1. unfold write_file at 1. rewrite Hst.
  unfold iobind at 1. unfold write_file at 1. rewrite Hsc.
  unfold iobind at 1. unfold detect_csv_encoding.
  rewrite (detect_loop_bytes L _ _ (content csv_file) encodings)
    by (cbn [fs_files]; apply lookup_insert_eq).
  unfold iobind at 1. unfold pd_read_csv, iobind, read_file, lift.
  cbn [fs_files]. rewrite lookup_insert_eq, Hread. eexists; reflexivity.
Qed.

End LoadErrors.

(** X13. When storing the uploads, loading the CSV, creating the output
    folders or opening the template raises, the [except] clause of the inner
    [try] answers with status 400 and the message of the exception, and the
    work directory is removed together with everything stored below it. *)
Theorem generate_load_failure (L : Libs) (request : Request)
  (template_file csv_file : FileStorage) (s s0 s1 : fs) (work_dir msg : string) :
  req_files request !! "template" = Some template_file ->
  req_files request !! "csv" = Some csv_file ->
  String.eqb (filename template_file) "" = false ->
  String.eqb (filename csv_file) "" = false ->
  mkdtemp L s = (Ok work_dir, s0) ->
  load_inputs L template_file csv_file work_dir s0 = (Raise msg, s1) ->
  let answer := generate_documents L request s in
  answer.1 = json_error L 400 ("Ошибка обработки: " +:+ msg) /\
  (work_dir ∉ fs_dirs answer.2) /\
  (forall p, is_under work_dir p = true -> fs_files answer.2 !! p = None).
Proof.
  intros Ht Hc Hnt Hnc Hmk Hload.
  assert (work_dir ∈ fs_dirs s1) as Hdir.
  { apply load_inputs_raise_dirs in Hload. apply mkdtemp_ok in Hmk as ->.
    cbn in Hload. set_solver. }
  destruct (rmtree_removes work_dir s1 Hdir) as (s' & Hrm & Hgone & Hfiles).
  assert (generate_documents L request s =
          (json_error L 400 ("Ошибка обработки: " +:+ msg), s')) as Hgen.
  { unfold generate_documents, outer_try. rewrite Ht, Hc, Hnt, Hnc. cbn [orb].
    unfold iobind at 1. rewrite Hmk.
    unfold try_except, generate_in_workdir. unfold iobind at 1. rewrite Hload.
    unfold iobind. now rewrite Hrm. }
  cbn zeta. rewrite Hgen. auto.
Qed.

Lemma generate_load_failure_witness :
  let L := Demo.world (fun _ => Ok "/tmp/tmpwork") (fun _ => None)
             (fun _ => Raise "no converter installed") Demo.demo_json_loads in
  let request :=
    mkRequest {[ "template" := mkFile "letter.docx" [];
                 "csv" := mkFile "rows.csv" [Byte.x01; Byte.x01] ]} ∅ in
  (generate_documents L request Demo.empty_fs).1
  = json_error L 400 "Ошибка обработки: Package not found".
Proof.
  intros L request.
  pose (s0 := (mkdtemp L Demo.empty_fs).2).
  pose (loaded := load_inputs L (mkFile "letter.docx" []) (mkFile "rows.csv" [Byte.x01; Byte.x01])
                    "/tmp/tmpwork" s0).
  assert (load_inputs L (mkFile "letter.docx" []) (mkFile "rows.csv" [Byte.x01; Byte.x01])
            "/tmp/tmpwork" s0 = (Raise "Package not found", loaded.2)) as Hload
    by (vm_compute; reflexivity).
  destruct (generate_load_failure L request (mkFile "letter.docx" [])
              (mkFile "rows.csv" [Byte.x01; Byte.x01]) Demo.empty_fs s0 loaded.2
              "/tmp/tmpwork" "Package not found"
              eq_refl eq_refl eq_refl eq_refl eq_refl Hload) as [H _].
  exact H.
Defined.

(** X14. A CSV that the parser rejects under the detected encoding is
    reported with status 400 and the parser's own message, provided the two
    uploads could be stored; the work directory is removed. *)
Theorem generate_unparsable_csv (L : Libs) (request : Request)
  (template_file csv_file : FileStorage) (s s0 : fs) (work_dir e : string) :
  req_files request !! "template" = Some template_file ->
  req_files request !! "csv" = Some csv_file ->
  String.eqb (filename template_file) "" = false ->
  String.eqb (filename csv_file) "" = false ->
  mkdtemp L s = (Ok work_dir, s0) ->
  storage_error L (path_join work_dir (secure_filename L (filename template_file))) = None ->
  storage_error L (path_join work_dir (secure_filename L (filename csv_file))) = None ->
  read_csv L (content csv_file) (first_readable L (content csv_file) encodings) None
    = Raise e ->
  let answer := generate_documents L request s in
  answer.1 = json_error L 400 ("Ошибка обработки: " +:+ e) /\
  (work_dir ∉ fs_dirs answer.2).
Proof.
  intros Ht Hc Hnt Hnc Hmk Hst Hsc Hread.
  destruct (load_inputs_bad_csv L template_file csv_file work_dir s0 e Hst Hsc Hread)
    as [s1 Hload].
  assert (work_dir ∈ fs_dirs s1) as Hdir.
  { apply load_inputs_raise_dirs in Hload. apply mkdtemp_ok in Hmk as ->.
    cbn in Hload. set_solver. }
  destruct (rmtree_removes work_dir s1 Hdir) as (s' & Hrm & Hgone & _).
  assert (generate_documents L request s =
          (json_error L 400 ("Ошибка обработки: " +:+ e), s')) as Hgen.
  { unfold generate_documents, outer_try. rewrite Ht, Hc, Hnt, Hnc. cbn [orb].
    unfold iobind at 1. rewrite Hmk.
    unfold try_except, generate_in_workdir. unfold iobind at 1. rewrite Hload.
    unfold iobind. now rewrite Hrm. }
  cbn zeta. rewrite Hgen. auto.
Qed.

Lemma generate_unparsable_csv_witness :
  (generate_documents Demo.libs (Demo.upload "letter.docx" "rows.csv" []) Demo.empty_fs).1
  = json_error Demo.libs 400 "Ошибка обработки: No columns to parse from file".
Proof.
  destruct (generate_unparsable_csv Demo.libs (Demo.upload "letter.docx" "rows.csv" [])
              (mkFile "letter.docx" (Demo.b "T:")) (mkFile "rows.csv" [])
              Demo.empty_fs (mkdtemp Demo.libs Demo.empty_fs).2 "/tmp/tmpwork"
              "No columns to parse from file"
              eq_refl eq_refl eq_refl eq_refl eq_refl eq_refl eq_refl eq_refl) as [H _].
  exact H.
Defined.

(* ===================================================================== *)
(** ** Further properties of a row *)
(* ===================================================================== *)

Section RowFacts.

Context (L : Libs).

Lemma has_suffix_append (stem suffix : string) :
  has_suffix suffix (stem +:+ suffix) = true.
Proof.
  induction stem as [|a stem IH].
  - rewrite append_nil_l. destruct suffix; cbn [has_suffix];
      now rewrite String.eqb_refl.
  - rewrite append_cons. cbn [has_suffix]. rewrite IH. apply orb_true_r.
Qed.

Lemma free_of_forbidden_char (c : ascii) (text : string) :
  free_of_forbidden text = true -> is_forbidden c = true ->
  contains_char c text = false.
Proof.
  unfold free_of_forbidden. rewrite forallb_forall. intros H Hc.
  apply negb_true_iff, H. now apply forbidden_cases.
Qed.

Lemma free_of_forbidden_intro (text : string) :
  (forall c, is_forbidden c = true -> contains_char c text = false) ->
  free_of_forbidden text = true.
Proof.
  intros H. apply forallb_forall. intros c Hc. apply negb_true_iff, H.
  unfold is_forbidden. apply existsb_exists. exists c.
  split; [assumption | apply Ascii.eqb_refl].
Qed.

(** The text of an integer label holds digits and a sign at most. *)
Lemma int_label_free (n : Z) : free_of_forbidden (label_str (IntLabel n)) = true.
Proof. apply free_of_forbidden_intro. intros c. apply str_int_no_forbidden. Qed.

Lemma base_name_no_forbidden (c : ascii) (idx : Label) (row : Series (Cell L)) :
  row_org L row <> "" \/ free_of_forbidden (label_str idx) = true ->
  is_forbidden c = true -> contains_char c (base_name L idx row) = false.
Proof.
  intros Hlabel Hc. unfold base_name, safe_email, safe_org.
  rewrite !contains_char_append, sanitize_no_forbidden by assumption.
  assert (contains_char c "_" = false) as ->
    by (apply forbidden_cases in Hc; cbn in Hc; intuition (subst; reflexivity)).
  destruct (String.eqb (row_org L row) "") eqn:E.
  - apply String.eqb_eq in E. destruct Hlabel as [Hne | Hfree]; [contradiction|].
    rewrite contains_char_append, (free_of_forbidden_char c _ Hfree Hc).
    apply forbidden_cases in Hc; cbn in Hc; intuition (subst; reflexivity).
  - now rewrite sanitize_no_forbidden.
Qed.

(** The row body once every step up to [doc.save] works. *)
Lemma render_row_saved (template_path output_folder pdf_folder : string)
  (doc_template : Template L) (field_mapping : json)
  (idx : Label) (row : Series (Cell L)) (s : fs)
  (vars : list string) (context : gmap string string)
  (data : list Byte.byte) (doc : Template L) (rendered : list Byte.byte) :
  get_undeclared_variables L doc_template = Ok vars ->
  build_context L field_mapping row vars ∅ = Ok context ->
  fs_files s !! template_path = Some data ->
  DocxTemplate L data = Ok doc ->
  render L doc context = Ok rendered ->
  storage_error L (path_join output_folder (docx_filename L idx row)) = None ->
  let docx_path := path_join output_folder (docx_filename L idx row) in
  let pdf_path := path_join pdf_folder (pdf_filename L idx row) in
  let saved := mkFs (<[docx_path := rendered]> (fs_files s)) (fs_dirs s) in
  render_row L template_path output_folder pdf_folder doc_template field_mapping
    idx row s =
  (Ok tt,
   match convert L rendered, storage_error L pdf_path with
   | Ok pdf, None => mkFs (<[pdf_path := pdf]> (fs_files saved)) (fs_dirs s)
   | _, _ => saved
   end).
Proof.
  intros Hv Hc Hd Ht Hr Hs docx_path pdf_path saved.
  subst docx_path pdf_path saved.
  unfold render_row, open_template, iobind, lift, read_file, write_file, ret.
  cbv beta. rewrite Hv, Hc, Hd, Ht, Hr, Hs.
  unfold convert_to_pdf, try_except, iobind, read_file, lift, write_file, ret.
  cbn [fs_files fs_dirs]. rewrite lookup_insert_eq.
  destruct (convert L rendered) as [pdf|e]; [|reflexivity].
  destruct (storage_error L (path_join pdf_folder (pdf_filename L idx row)));
    reflexivity.
Qed.

(** A field mapping that is not an object makes the first variable raise. *)
Lemma build_context_not_object (row : Series (Cell L)) (v : string)
  (vars : list string) (context : gmap string string) :
  exists msg, build_context L JNotObject row (v :: vars) context = Raise msg.
Proof. eexists. reflexivity. Qed.

End RowFacts.

(** X15. A row whose processing raises has written nothing: the file
    system after the row is the one before it, so a failed row leaves no
    partial or empty document in the output folder. *)
Theorem failed_row_writes_nothing (L : Libs)
  (template_path output_folder pdf_folder : string)
  (doc_template : Template L) (field_mapping : json)
  (idx : Label) (row : Series (Cell L)) (s s' : fs) (msg : string) :
  render_row L template_path output_folder pdf_folder doc_template field_mapping
    idx row s = (Raise msg, s') ->
  s' = s.
Proof. apply render_row_raise. Qed.

Lemma failed_row_writes_nothing_witness :
  let s := mkFs {[ "/tmp/tmpwork/letter.docx" := Demo.b "T:" ]} {[ "/tmp/tmpwork" ]} in
  (render_row Demo.libs "/tmp/tmpwork/letter.docx" "/tmp/tmpwork/output_docs"
     "/tmp/tmpwork/output_docs/pdf_files" (Demo.b "T:") (JObject ∅)
     (IntLabel 0) (Demo.demo_row Byte.x00) s).2 = s.
Proof.
  intros s.
  apply (failed_row_writes_nothing Demo.libs "/tmp/tmpwork/letter.docx"
           "/tmp/tmpwork/output_docs" "/tmp/tmpwork/output_docs/pdf_files"
           (Demo.b "T:") (JObject ∅) (IntLabel 0) (Demo.demo_row Byte.x00) s _
           "render failed").
  vm_compute. reflexivity.
Defined.

(** X16. The PDF step of a row never raises and never touches a
    directory.  Either it changes nothing, or the DOCX file was read, the
    converter returned a PDF for it, and that PDF was stored at the PDF
    path, all other files being as before. *)
Theorem pdf_conversion_is_best_effort (L : Libs) (docx_path pdf_path : string) (s : fs) :
  exists s',
    convert_to_pdf L docx_path pdf_path s = (Ok tt, s') /\
    fs_dirs s' = fs_dirs s /\
    (s' = s \/
     exists docx pdf,
       fs_files s !! docx_path = Some docx /\
       convert L docx = Ok pdf /\
       storage_error L pdf_path = None /\
       fs_files s' = <[pdf_path := pdf]> (fs_files s)).
Proof.
  unfold convert_to_pdf, try_except, iobind, read_file, lift, write_file, ret.
  destruct (fs_files s !! docx_path) as [docx|] eqn:Hd; [|eauto].
  destruct (convert L docx) as [pdf|msg] eqn:Hc; [|eauto].
  destruct (storage_error L pdf_path) eqn:Hs; [eauto|].
  eexists. split; [reflexivity|]. split; [reflexivity|]. right.
  exists docx, pdf. auto.
Qed.

(** X17. A row succeeds as soon as the template's variables can be
    listed, the context built, the template opened and rendered, and the
    document stored: the outcome does not depend on the PDF converter.  The
    rendered document is then at the row's DOCX path; the PDF is at the row's
    PDF path when the converter returned one and it could be stored, and
    otherwise the PDF path is as it was before the row. *)
Theorem row_succeeds_without_pdf (L : Libs) (work_dir template_path : string)
  (doc_template : Template L) (field_mapping : json)
  (idx : Label) (row : Series (Cell L)) (s : fs)
  (vars : list string) (context : gmap string string)
  (data : list Byte.byte) (doc : Template L) (rendered : list Byte.byte) :
  let output_folder := path_join work_dir "output_docs" in
  let pdf_folder := path_join output_folder "pdf_files" in
  let docx_path := path_join output_folder (docx_filename L idx row) in
  let pdf_path := path_join pdf_folder (pdf_filename L idx row) in
  get_undeclared_variables L doc_template = Ok vars ->
  build_context L field_mapping row vars ∅ = Ok context ->
  fs_files s !! template_path = Some data ->
  DocxTemplate L data = Ok doc ->
  render L doc context = Ok rendered ->
  storage_error L docx_path = None ->
  exists s',
    render_row L template_path output_folder pdf_folder doc_template field_mapping
      idx row s = (Ok tt, s') /\
    fs_files s' !! docx_path = Some rendered /\
    fs_files s' !! pdf_path =
      match convert L rendered, storage_error L pdf_path with
      | Ok pdf, None => Some pdf
      | _, _ => fs_files s !! pdf_path
      end.
Proof.
  intros output_folder pdf_folder docx_path pdf_path Hv Hc Hd Ht Hr Hs.
  assert (pdf_path <> docx_path) as Hne.
  { intros E. pose proof (docx_path_last L work_dir idx row) as Hx.
    fold output_folder in Hx. fold docx_path in Hx.
    rewrite <- E in Hx. unfold pdf_path, pdf_folder, output_folder in Hx.
    rewrite pdf_path_last in Hx. discriminate. }
  eexists. split.
  { apply (render_row_saved L template_path output_folder pdf_folder doc_template
             field_mapping idx row s vars context data doc rendered); assumption. }
  fold docx_path pdf_path.
  destruct (convert L rendered) as [pdf|e]; [destruct (storage_error L pdf_path)|];
    cbn [fs_files].
  - split; [apply lookup_insert_eq | now apply lookup_insert_ne].
  - split; [|apply lookup_insert_eq].
    rewrite lookup_insert_ne by assumption. apply lookup_insert_eq.
  - split; [apply lookup_insert_eq | now apply lookup_insert_ne].
Qed.

Lemma row_succeeds_without_pdf_witness :
  let s := mkFs {[ "/tmp/tmpwork/letter.docx" := Demo.b "T:" ]} {[ "/tmp/tmpwork" ]} in
  exists s',
    render_row Demo.libs "/tmp/tmpwork/letter.docx" "/tmp/tmpwork/output_docs"
      "/tmp/tmpwork/output_docs/pdf_files" (Demo.b "T:") (JObject ∅)
      (IntLabel 0) (Demo.demo_row Byte.x01) s = (Ok tt, s') /\
    fs_files s' !! "/tmp/tmpwork/output_docs/alice@example.org_Acme.docx"
    = Some (Demo.b "T:Alice[Phone]").
Proof.
  intros s.
  destruct (row_succeeds_without_pdf Demo.libs "/tmp/tmpwork" "/tmp/tmpwork/letter.docx"
              (Demo.b "T:") (JObject ∅) (IntLabel 0) (Demo.demo_row Byte.x01) s
              ["Name"; "Phone"] {[ "Name" := "Alice"; "Phone" := "[Phone]" ]}
              (Demo.b "T:") (Demo.b "T:") (Demo.b "T:Alice[Phone]"))
    as (s' & Hrun & Hdocx & _); try (vm_compute; reflexivity).
  exists s'. split; [exact Hrun | exact Hdocx].
Defined.

(** X18. The names given to the output files are safe when the
    organization text of the row is not empty, or the text of the row's
    index label holds none of the nine characters of the class (as the text
    of an integer label does): then neither the DOCX name nor the PDF name
    of the row contains one of these characters.  The fallback [doc_] and
    the label is the one part of a name that [sanitize_filename] does not
    see.  The names end in [.docx] and [.pdf] in every case. *)
Theorem output_names_are_safe (L : Libs) (idx : Label) (row : Series (Cell L)) :
  (row_org L row <> "" \/ free_of_forbidden (label_str idx) = true ->
   free_of_forbidden (docx_filename L idx row) = true /\
   free_of_forbidden (pdf_filename L idx row) = true) /\
  (forall n, free_of_forbidden (label_str (IntLabel n)) = true) /\
  has_suffix ".docx" (docx_filename L idx row) = true /\
  has_suffix ".pdf" (pdf_filename L idx row) = true.
Proof.
  unfold docx_filename, pdf_filename.
  split; [|split; [apply int_label_free | split; apply has_suffix_append]].
  intros Hlabel.
  split; apply free_of_forbidden_intro; intros c Hf;
    rewrite contains_char_append, (base_name_no_forbidden L c idx row Hlabel Hf);
    apply forbidden_cases in Hf; cbn in Hf; intuition (subst; reflexivity).
Qed.

Lemma output_names_are_safe_witness :
  let row := [("Email", "a/b@example.org")] in
  free_of_forbidden (docx_filename Demo.libs (IntLabel 7) row) = true /\
  free_of_forbidden (pdf_filename Demo.libs (IntLabel 7) row) = true.
Proof.
  intros row.
  destruct (output_names_are_safe Demo.libs (IntLabel 7) row) as [Hsafe _].
  apply Hsafe. right. vm_compute. reflexivity.
Defined.

(** X19. The render context does not depend on the order in which the
    template's variables are listed, nor on repetitions in the list
    ([get_undeclared_variables] returns a set): two lists with the same
    elements give the same context. *)
Theorem render_context_ignores_order (L : Libs) (mapping : gmap string string)
  (row : Series (Cell L)) (vars1 vars2 : list string) :
  (forall x, x ∈ vars1 <-> x ∈ vars2) ->
  build_context L (JObject (JString <$> mapping)) row vars1 ∅ =
  build_context L (JObject (JString <$> mapping)) row vars2 ∅.
Proof.
  intros Hsame.
  destruct (build_context_lookup L mapping row vars1 ∅) as (c1 & -> & H1).
  destruct (build_context_lookup L mapping row vars2 ∅) as (c2 & -> & H2).
  f_equal. apply map_eq. intros q. rewrite H1, H2.
  destruct (decide (q ∈ vars1)) as [Hin|Hnin].
  - rewrite decide_True by now apply Hsame. reflexivity.
  - rewrite decide_False by (intros H; apply Hnin; now apply Hsame). reflexivity.
Qed.

Lemma render_context_ignores_order_witness :
  build_context Demo.libs (JObject (JString <$> ∅)) (Demo.demo_row Byte.x01)
    ["Name"; "Phone"] ∅ =
  build_context Demo.libs (JObject (JString <$> ∅)) (Demo.demo_row Byte.x01)
    ["Phone"; "Name"; "Phone"] ∅.
Proof.
  apply (render_context_ignores_order Demo.libs ∅ (Demo.demo_row Byte.x01)
           ["Name"; "Phone"] ["Phone"; "Name"; "Phone"]).
  intros x. rewrite !elem_of_cons, !elem_of_nil. tauto.
Defined.

(* ===================================================================== *)
(** ** Further properties of the archive *)
(* ===================================================================== *)

Section Archive.

Lemma archive_entry_Some (folder : string) (file entry : string * list Byte.byte) :
  archive_entry folder file = Some entry <->
  file.1 = folder +:+ "/" +:+ entry.1 /\ file.2 = entry.2.
Proof.
  unfold archive_entry. destruct file as [p data], entry as [arcname data']. cbn.
  destruct (strip_prefix (folder +:+ "/") p) as [r|] eqn:E.
  - apply strip_prefix_Some in E. rewrite append_assoc in E. split.
    + intros [= <- <-]. auto.
    + intros [Hp ->]. rewrite Hp in E. apply String.app_inj in E.
      apply (String.app_inj "/") in E. now subst.
  - split; [discriminate|]. intros [Hp _].
    assert (strip_prefix (folder +:+ "/") p = Some arcname) as E'
      by (apply strip_prefix_Some; now rewrite append_assoc).
    congruence.
Qed.

End Archive.

(** X20. The archive is the image of the output folder: building it
    never raises and changes nothing on the file system, and it has an entry
    with a given name and content exactly when the file of that name,
    relative to the folder, exists with that content.  Hence files in
    sub-folders appear under their relative path, and no file from outside
    the folder is in the archive. *)
Theorem archive_mirrors_output_folder (output_folder : string) (s : fs)
  (arcname : string) (data : list Byte.byte) :
  exists entries,
    build_zip output_folder s = (Ok entries, s) /\
    ((arcname, data) ∈ entries <->
     fs_files s !! (output_folder +:+ "/" +:+ arcname) = Some data).
Proof.
  eexists. split; [reflexivity|]. rewrite list_elem_of_omap. split.
  - intros ([p d] & Hin & He). apply elem_of_map_to_list in Hin.
    apply archive_entry_Some in He as [Hp Hd]. cbn in Hp, Hd. now subst.
  - intros Hfile. exists (output_folder +:+ "/" +:+ arcname, data). split.
    + now apply elem_of_map_to_list.
    + now apply archive_entry_Some.
Qed.

(* ===================================================================== *)
(** ** What a request leaves on the file system *)
(* ===================================================================== *)

Section Tracking.

Context (L : Libs) (template_path output_folder pdf_folder : string).
Context (doc_template : Template L) (field_mapping : json).

Local Abbreviation run := (run_rows L template_path output_folder pdf_folder
                             doc_template field_mapping).

(** The rows touch no path but the DOCX and PDF paths of the rows that
    succeed. *)
Lemma run_rows_untouched (rows : list (Label * Series (Cell L))) (s : fs) (p : string) :
  p ∉ written_paths L output_folder rows (run rows s).1 ->
  p ∉ converted_paths L pdf_folder rows (run rows s).1 ->
  fs_files (run rows s).2 !! p = fs_files s !! p.
Proof.
  revert s. induction rows as [|[idx row] rows IH]; intros s;
    cbn [run_rows fst snd]; [reflexivity|].
  unfold written_paths, converted_paths. cbn [zip_with omap list_omap].
  destruct (render_row L template_path output_folder pdf_folder doc_template
              field_mapping idx row s) as [[u|msg] s1] eqn:E; cbn [fst snd].
  - unfold written_path at 1, converted_path at 1. cbn [fst snd].
    intros Hw Hc. apply not_elem_of_cons in Hw as [Hw1 Hw], Hc as [Hc1 Hc].
    rewrite (IH s1 Hw Hc).
    apply render_row_ok in E as (? & ? & ? & ? & ? & _ & _ & _ & _ & _ & _ & Hfiles).
    cbn zeta in Hfiles. destruct Hfiles as [-> | [pdf ->]].
    + now rewrite lookup_insert_ne.
    + now rewrite !lookup_insert_ne.
  - unfold written_path at 1, converted_path at 1. cbn [fst snd].
    intros Hw Hc. rewrite (IH s1 Hw Hc).
    now apply render_row_raise in E as ->.
Qed.

(** Membership in the two lists of paths, row by row. *)
Lemma written_paths_elem (rows : list (Label * Series (Cell L)))
  (outcomes : list (result unit)) (p : string) :
  p ∈ written_paths L output_folder rows outcomes ->
  exists i idx row,
    rows !! i = Some (idx, row) /\ outcomes !! i = Some (Ok tt) /\
    p = path_join output_folder (docx_filename L idx row).
Proof.
  unfold written_paths. intros H.
  apply list_elem_of_omap in H as ([[idx row] out] & Hin & Hp).
  apply list_elem_of_lookup in Hin as [i Hi].
  apply lookup_zip_with_Some in Hi as (x & y & Hxy & Hr & Ho).
  injection Hxy as <- <-. unfold written_path in Hp. cbn in Hp.
  destruct out as [[]|]; [|discriminate]. injection Hp as <-.
  exists i, idx, row. auto.
Qed.

Lemma converted_paths_elem (rows : list (Label * Series (Cell L)))
  (outcomes : list (result unit)) (p : string) :
  p ∈ converted_paths L pdf_folder rows outcomes ->
  exists i idx row,
    rows !! i = Some (idx, row) /\ outcomes !! i = Some (Ok tt) /\
    p = path_join pdf_folder (pdf_filename L idx row).
Proof.
  unfold converted_paths. intros H.
  apply list_elem_of_omap in H as ([[idx row] out] & Hin & Hp).
  apply list_elem_of_lookup in Hin as [i Hi].
  apply lookup_zip_with_Some in Hi as (x & y & Hxy & Hr & Ho).
  injection Hxy as <- <-. unfold converted_path in Hp. cbn in Hp.
  destruct out as [[]|]; [|discriminate]. injection Hp as <-.
  exists i, idx, row. auto.
Qed.

End Tracking.

Section UnderWorkDir.

Context (L : Libs) (work_dir : string).
Hypothesis work_dir_shape : String.eqb work_dir "" || endswith "/" work_dir = false.

Lemma path_join_work_dir (name : string) :
  startswith "/" name = false ->
  path_join work_dir name = work_dir +:+ "/" +:+ name.
Proof. intros Hn. unfold path_join. now rewrite Hn, work_dir_shape. Qed.

Lemma is_under_intro (d rest : string) : is_under d (d +:+ "/" +:+ rest) = true.
Proof.
  unfold is_under.
  assert (strip_prefix (d +:+ "/") (d +:+ "/" +:+ rest) = Some rest) as ->
    by (apply strip_prefix_Some; now rewrite append_assoc).
  reflexivity.
Qed.

Lemma upload_under_work_dir (name : string) :
  contains_char "/" name = false ->
  is_under work_dir (path_join work_dir name) = true.
Proof.
  intros Hn. rewrite path_join_work_dir by now apply startswith_absent.
  apply is_under_intro.
Qed.

Lemma output_folder_under_work_dir (rest : string) :
  is_under work_dir (path_join work_dir "output_docs" +:+ rest) = true.
Proof.
  rewrite path_join_work_dir by reflexivity.
  rewrite !append_assoc. apply is_under_intro.
Qed.

Lemma output_folder_itself_under :
  is_under work_dir (path_join work_dir "output_docs") = true.
Proof.
  rewrite <- (append_nil_r (path_join work_dir "output_docs")).
  apply output_folder_under_work_dir.
Qed.

Lemma pdf_folder_under :
  is_under work_dir (path_join (path_join work_dir "output_docs") "pdf_files") = true.
Proof.
  rewrite output_folder_join by reflexivity. apply output_folder_under_work_dir.
Qed.

Lemma docx_path_under (idx : Label) (row : Series (Cell L)) :
  is_under work_dir
    (path_join (path_join work_dir "output_docs") (docx_filename L idx row)) = true.
Proof. rewrite docx_path_shape. apply output_folder_under_work_dir. Qed.

Lemma pdf_path_under (idx : Label) (row : Series (Cell L)) :
  is_under work_dir
    (path_join (path_join (path_join work_dir "output_docs") "pdf_files")
       (pdf_filename L idx row)) = true.
Proof. rewrite pdf_path_shape. apply output_folder_under_work_dir. Qed.

(** Removing the work directory undoes everything that was done below it. *)
Lemma rmtree_restores (s s1 : fs) :
  (work_dir ∉ fs_dirs s) ->
  (forall p, is_under work_dir p = true -> fs_files s !! p = None /\ p ∉ fs_dirs s) ->
  work_dir ∈ fs_dirs s1 ->
  (forall p, is_under work_dir p = false -> fs_files s1 !! p = fs_files s !! p) ->
  (forall d, d ∈ fs_dirs s1 <->
             d ∈ fs_dirs s \/ d = work_dir \/
             (d ∈ fs_dirs s1 /\ is_under work_dir d = true)) ->
  rmtree work_dir s1 = (Ok tt, s).
Proof.
  intros Hnew Hfresh Hin Hfiles Hdirs. unfold rmtree.
  rewrite bool_decide_eq_true_2 by assumption. f_equal.
  destruct s as [files dirs]. cbn [fs_files fs_dirs] in *. f_equal.
  - apply map_eq. intros p. apply option_eq. intros x.
    rewrite map_lookup_filter_Some. cbn [fst].
    destruct (is_under work_dir p) eqn:Hu.
    + destruct (Hfresh p Hu) as [-> _]. split; [intros [_ ?]|]; discriminate.
    + rewrite (Hfiles p Hu). tauto.
  - apply set_eq. intros d. rewrite elem_of_filter. split.
    + intros [[Hne Hu] Hd]. apply Hdirs in Hd as [Hd | [Hd | [_ Hd]]];
        [assumption | contradiction | congruence].
    + intros Hd. split; [split|].
      * intros ->. contradiction.
      * destruct (is_under work_dir d) eqn:Hu; [|reflexivity].
        destruct (Hfresh d Hu) as [_ Hn]. contradiction.
      * apply Hdirs. now left.
Qed.

End UnderWorkDir.

Section Origin.

Context (L : Libs).

(** Once the uploads are loaded the output folder is still empty, when it was
    empty before the request and the secured names have no slash. *)
Lemma loaded_output_empty (template_file csv_file : FileStorage) (work_dir : string)
  (s s0 s1 : fs) (loaded : DataFrame (Cell L) * Template L) :
  mkdtemp L s = (Ok work_dir, s0) ->
  load_inputs L template_file csv_file work_dir s0 = (Ok loaded, s1) ->
  contains_char "/" (secure_filename L (filename template_file)) = false ->
  contains_char "/" (secure_filename L (filename csv_file)) = false ->
  (forall p, is_under (path_join work_dir "output_docs") p = true ->
             fs_files s !! p = None) ->
  forall p, is_under (path_join work_dir "output_docs") p = true ->
            fs_files s1 !! p = None.
Proof.
  intros Hmk Hload Hst Hsc Hfresh p Hunder.
  apply load_inputs_ok in Hload as [Hfiles _]. cbn zeta in Hfiles.
  apply mkdtemp_ok in Hmk. subst s0. cbn [fs_files] in Hfiles. rewrite Hfiles.
  rewrite !lookup_insert_ne; [now apply Hfresh|..].
  - intros <-. now rewrite upload_outside_output in Hunder.
  - intros <-. now rewrite upload_outside_output in Hunder.
Qed.

(** A file found in the output folder after the rows is the DOCX or the PDF
    of a row that succeeded. *)
Lemma output_file_origin (work_dir template_path : string)
  (doc_template : Template L) (field_mapping : json)
  (rows : list (Label * Series (Cell L))) (s1 : fs) (p : string) :
  let output_folder := path_join work_dir "output_docs" in
  let pdf_folder := path_join output_folder "pdf_files" in
  let ran := run_rows L template_path output_folder pdf_folder doc_template
               field_mapping rows s1 in
  (forall q, is_under output_folder q = true -> fs_files s1 !! q = None) ->
  is_under output_folder p = true ->
  is_Some (fs_files ran.2 !! p) ->
  p ∈ written_paths L output_folder rows ran.1 \/
  p ∈ converted_paths L pdf_folder rows ran.1.
Proof.
  intros output_folder pdf_folder ran Hempty Hunder Hp.
  destruct (decide (p ∈ written_paths L output_folder rows ran.1)) as [|Hw]; [now left|].
  destruct (decide (p ∈ converted_paths L pdf_folder rows ran.1)) as [|Hc]; [now right|].
  exfalso. unfold ran in Hp.
  rewrite (run_rows_untouched L template_path output_folder pdf_folder doc_template
             field_mapping rows s1 p Hw Hc) in Hp.
  rewrite (Hempty p Hunder) in Hp. now destruct Hp.
Qed.

(** The document of a row that succeeded is still there after the rows. *)
Lemma written_file_present (work_dir template_path : string)
  (doc_template : Template L) (field_mapping : json)
  (rows : list (Label * Series (Cell L))) (s : fs) (p : string) :
  let output_folder := path_join work_dir "output_docs" in
  let pdf_folder := path_join output_folder "pdf_files" in
  let ran := run_rows L template_path output_folder pdf_folder doc_template
               field_mapping rows s in
  p ∈ written_paths L output_folder rows ran.1 ->
  is_Some (fs_files ran.2 !! p).
Proof.
  cbn zeta. revert s. induction rows as [|[idx row] rows IH]; intros s;
    cbn [run_rows fst snd].
  - unfold written_paths. cbn. intros H. inversion H.
  - unfold written_paths. cbn [zip_with omap list_omap].
    destruct (render_row L template_path (path_join work_dir "output_docs")
                (path_join (path_join work_dir "output_docs") "pdf_files")
                doc_template field_mapping idx row s) as [[u|msg] s1] eqn:E;
      cbn [fst snd]; unfold written_path at 1; cbn [fst snd].
    + intros H. apply elem_of_cons in H as [-> | H]; [|now apply IH].
      apply run_rows_keeps_files.
      apply render_row_document in E as (? & ? & ? & ? & rendered & _ & _ & _ & _ & _ & Hf).
      eauto.
    + now apply IH.
Qed.

End Origin.

(** X21. The archive of a successful request holds generated documents
    and nothing else: every entry is [<name>.docx] or [pdf_files/<name>.pdf]
    for the name of a row that was processed without an exception.  The
    uploaded template and CSV are not in it.  (The output folder is that of a
    work directory just made, and [secure_filename] returns names without a
    slash; the loop runs to its end, the label of every failing row having a
    successor.) *)
Theorem archive_holds_only_generated (L : Libs) (request : Request)
  (template_file csv_file : FileStorage) (s s0 s1 : fs) (work_dir : string)
  (data : DataFrame (Cell L)) (doc_template : Template L) :
  req_files request !! "template" = Some template_file ->
  req_files request !! "csv" = Some csv_file ->
  String.eqb (filename template_file) "" = false ->
  String.eqb (filename csv_file) "" = false ->
  mkdtemp L s = (Ok work_dir, s0) ->
  load_inputs L template_file csv_file work_dir s0 = (Ok (data, doc_template), s1) ->
  contains_char "/" (secure_filename L (filename template_file)) = false ->
  contains_char "/" (secure_filename L (filename csv_file)) = false ->
  (forall p, is_under (path_join work_dir "output_docs") p = true ->
             fs_files s !! p = None) ->
  let template_path := path_join work_dir (secure_filename L (filename template_file)) in
  let output_folder := path_join work_dir "output_docs" in
  let pdf_folder := path_join output_folder "pdf_files" in
  let rows := iterrows L data in
  let outcomes :=
    (run_rows L template_path output_folder pdf_folder doc_template
       (parse_mapping L request) rows s1).1 in
  lines_printable L rows outcomes = true ->
  count_ok outcomes <> 0 ->
  exists entries s',
    generate_documents L request s =
    (mkResponse 200 (ZipAttachment ("documents_" +:+ timestamp L +:+ ".zip") entries), s') /\
    forall arcname content, (arcname, content) ∈ entries ->
      exists i idx row,
        rows !! i = Some (idx, row) /\ outcomes !! i = Some (Ok tt) /\
        (arcname = docx_filename L idx row \/
         arcname = "pdf_files/" +:+ pdf_filename L idx row).
Proof.
  intros Ht Hc Hnt Hnc Hmk Hload Hst Hsc Hfresh
    template_path output_folder pdf_folder rows outcomes Hprint Hcount.
  pose proof (generate_documents_loaded L request template_file csv_file s s0 s1
                work_dir data doc_template Ht Hc Hnt Hnc Hmk Hload Hprint)
    as [_ Hgen].
  cbn zeta in Hgen.
  fold template_path output_folder pdf_folder rows in Hgen. fold outcomes in Hgen.
  apply Nat.eqb_neq in Hcount. rewrite Hcount in Hgen.
  eexists _, _. split; [exact Hgen|].
  intros arcname content Hentry.
  apply list_elem_of_omap in Hentry as ([p d] & Hin & He).
  apply elem_of_map_to_list in Hin.
  apply archive_entry_Some in He as [Hp _]. cbn in Hp.
  pose proof (loaded_output_empty L template_file csv_file work_dir s s0 s1 _
                Hmk Hload Hst Hsc Hfresh) as Hempty.
  destruct (output_file_origin L work_dir template_path doc_template
              (parse_mapping L request) rows s1 p Hempty) as [Hw | Hcv].
  { rewrite Hp. apply is_under_intro. }
  { eauto. }
  - apply written_paths_elem in Hw as (i & idx & row & Hr & Ho & Hpath).
    exists i, idx, row. split; [assumption|]. split; [assumption|]. left.
    unfold output_folder in Hpath. rewrite docx_path_shape in Hpath.
    rewrite Hp in Hpath. fold output_folder in Hpath.
    apply String.app_inj in Hpath. now apply (String.app_inj "/") in Hpath.
  - apply converted_paths_elem in Hcv as (i & idx & row & Hr & Ho & Hpath).
    exists i, idx, row. split; [assumption|]. split; [assumption|]. right.
    unfold pdf_folder, output_folder in Hpath. rewrite pdf_path_shape in Hpath.
    rewrite Hp in Hpath. fold output_folder in Hpath.
    apply String.app_inj in Hpath.
    change ("/pdf_files/" +:+ pdf_filename L idx row)
      with ("/" +:+ "pdf_files/" +:+ pdf_filename L idx row) in Hpath.
    now apply (String.app_inj "/") in Hpath.
Qed.

Lemma archive_holds_only_generated_witness :
  exists entries s',
    generate_documents Demo.libs (Demo.upload "letter.docx" "rows.csv" [Byte.x00; Byte.x01])
      Demo.empty_fs =
    (mkResponse 200 (ZipAttachment "documents_20240101_120000.zip" entries), s').
Proof.
  pose (s0 := (mkdtemp Demo.libs Demo.empty_fs).2).
  pose (template_file := mkFile "letter.docx" (Demo.b "T:")).
  pose (csv_file := mkFile "rows.csv" [Byte.x00; Byte.x01]).
  pose (loaded := load_inputs Demo.libs template_file csv_file "/tmp/tmpwork" s0).
  pose (data := Demo.frame [Byte.x00; Byte.x01]).
  assert (load_inputs Demo.libs template_file csv_file "/tmp/tmpwork" s0
          = (Ok (data, Demo.b "T:"), loaded.2)) as Hload
    by (vm_compute; reflexivity).
  destruct (archive_holds_only_generated Demo.libs
              (Demo.upload "letter.docx" "rows.csv" [Byte.x00; Byte.x01])
              template_file csv_file Demo.empty_fs s0 loaded.2 "/tmp/tmpwork" data
              (Demo.b "T:") eq_refl eq_refl eq_refl eq_refl eq_refl Hload eq_refl eq_refl)
    as (entries & s' & Hgen & _).
  - intros p _. apply lookup_empty.
  - vm_compute. reflexivity.
  - vm_compute. discriminate.
  - exists entries, s'. exact Hgen.
Defined.

Section DocxCount.

Context (L : Libs).

Lemma remove_dups_NoDup_length {A} `{EqDecision A} (l : list A) :
  NoDup l -> length (remove_dups l) = length l.
Proof.
  intros Hnd. apply Nat.le_antisymm; [apply remove_dups_length_le|].
  now apply NoDup_within_length.
Qed.

(** The DOCX entries of the archive are as many as the distinct DOCX paths
    written by the rows. *)
Lemma docx_count_exact (work_dir template_path : string)
  (doc_template : Template L) (field_mapping : json)
  (rows : list (Label * Series (Cell L))) (s1 : fs) :
  let output_folder := path_join work_dir "output_docs" in
  let pdf_folder := path_join output_folder "pdf_files" in
  let ran := run_rows L template_path output_folder pdf_folder doc_template
               field_mapping rows s1 in
  (forall q, is_under output_folder q = true -> fs_files s1 !! q = None) ->
  docx_count (omap (archive_entry output_folder) (map_to_list (fs_files ran.2))) =
  length (remove_dups (written_paths L output_folder rows ran.1)).
Proof.
  intros output_folder pdf_folder ran Hempty. apply Nat.le_antisymm.
  - apply archive_docx_bound. intros p Hp Hunder Hx.
    destruct (output_file_origin L work_dir template_path doc_template field_mapping
                rows s1 p Hempty Hunder Hp) as [Hw | Hc]; [exact Hw|].
    apply converted_paths_elem in Hc as (i & idx & row & _ & _ & ->).
    unfold pdf_folder, output_folder in Hx. rewrite pdf_path_last in Hx. discriminate.
  - rewrite docx_count_paths.
    etransitivity; [|apply remove_dups_length_le].
    apply NoDup_within_length; [apply NoDup_remove_dups|].
    intros p Hp. rewrite elem_of_remove_dups in Hp.
    destruct (written_file_present L work_dir template_path doc_template field_mapping
                rows s1 p Hp) as [content Hfile].
    apply written_paths_elem in Hp as (i & idx & row & _ & _ & Hpath).
    apply list_elem_of_omap. exists (p, content).
    split; [now apply elem_of_map_to_list|].
    unfold docx_entry_path.
    assert (archive_entry output_folder (p, content)
            = Some (docx_filename L idx row, content)) as ->.
    { apply archive_entry_Some. cbn. split; [|reflexivity].
      rewrite Hpath. unfold output_folder. apply docx_path_shape. }
    cbn [fst]. unfold docx_filename. now rewrite has_suffix_append.
Qed.

End DocxCount.

(** X22. The archive of a successful request has as many entries ending
    in [.docx] as there are distinct DOCX paths among the rows that were
    processed without an exception.  So when no two of those rows share a
    name, every success is in the archive: the number of DOCX entries is the
    success count.  (Same provisos as for X21.) *)
Theorem archive_docx_entries_counted (L : Libs) (request : Request)
  (template_file csv_file : FileStorage) (s s0 s1 : fs) (work_dir : string)
  (data : DataFrame (Cell L)) (doc_template : Template L) :
  req_files request !! "template" = Some template_file ->
  req_files request !! "csv" = Some csv_file ->
  String.eqb (filename template_file) "" = false ->
  String.eqb (filename csv_file) "" = false ->
  mkdtemp L s = (Ok work_dir, s0) ->
  load_inputs L template_file csv_file work_dir s0 = (Ok (data, doc_template), s1) ->
  contains_char "/" (secure_filename L (filename template_file)) = false ->
  contains_char "/" (secure_filename L (filename csv_file)) = false ->
  (forall p, is_under (path_join work_dir "output_docs") p = true ->
             fs_files s !! p = None) ->
  let template_path := path_join work_dir (secure_filename L (filename template_file)) in
  let output_folder := path_join work_dir "output_docs" in
  let pdf_folder := path_join output_folder "pdf_files" in
  let rows := iterrows L data in
  let outcomes :=
    (run_rows L template_path output_folder pdf_folder doc_template
       (parse_mapping L request) rows s1).1 in
  let paths := written_paths L output_folder rows outcomes in
  lines_printable L rows outcomes = true ->
  count_ok outcomes <> 0 ->
  exists entries s',
    generate_documents L request s =
    (mkResponse 200 (ZipAttachment ("documents_" +:+ timestamp L +:+ ".zip") entries), s') /\
    docx_count entries = length (remove_dups paths) /\
    (NoDup paths -> docx_count entries = count_ok outcomes).
Proof.
  intros Ht Hc Hnt Hnc Hmk Hload Hst Hsc Hfresh
    template_path output_folder pdf_folder rows outcomes paths Hprint Hcount.
  pose proof (generate_documents_loaded L request template_file csv_file s s0 s1
                work_dir data doc_template Ht Hc Hnt Hnc Hmk Hload Hprint)
    as [_ Hgen].
  cbn zeta in Hgen.
  fold template_path output_folder pdf_folder rows in Hgen. fold outcomes in Hgen.
  apply Nat.eqb_neq in Hcount. rewrite Hcount in Hgen.
  eexists _, _. split; [exact Hgen|].
  pose proof (loaded_output_empty L template_file csv_file work_dir s s0 s1 _
                Hmk Hload Hst Hsc Hfresh) as Hempty.
  pose proof (docx_count_exact L work_dir template_path doc_template
                (parse_mapping L request) rows s1 Hempty) as Hexact.
  cbn zeta in Hexact. fold output_folder pdf_folder in Hexact.
  fold outcomes in Hexact. fold paths in Hexact.
  split; [exact Hexact|].
  intros Hnd. rewrite Hexact, (remove_dups_NoDup_length paths Hnd).
  apply written_paths_length. unfold outcomes. now rewrite run_rows_length.
Qed.

Lemma archive_docx_entries_counted_witness :
  exists entries s',
    generate_documents Demo.libs
      (Demo.upload "letter.docx" "rows.csv" [Byte.x01; Byte.x00; Byte.x01])
      Demo.empty_fs =
    (mkResponse 200 (ZipAttachment "documents_20240101_120000.zip" entries), s') /\
    docx_count entries = 1.
Proof.
  pose (s0 := (mkdtemp Demo.libs Demo.empty_fs).2).
  pose (template_file := mkFile "letter.docx" (Demo.b "T:")).
  pose (csv_file := mkFile "rows.csv" [Byte.x01; Byte.x00; Byte.x01]).
  pose (loaded := load_inputs Demo.libs template_file csv_file "/tmp/tmpwork" s0).
  pose (data := Demo.frame [Byte.x01; Byte.x00; Byte.x01]).
  assert (load_inputs Demo.libs template_file csv_file "/tmp/tmpwork" s0
          = (Ok (data, Demo.b "T:"), loaded.2)) as Hload
    by (vm_compute; reflexivity).
  destruct (archive_docx_entries_counted Demo.libs
              (Demo.upload "letter.docx" "rows.csv" [Byte.x01; Byte.x00; Byte.x01])
              template_file csv_file Demo.empty_fs s0 loaded.2 "/tmp/tmpwork" data
              (Demo.b "T:") eq_refl eq_refl eq_refl eq_refl eq_refl Hload eq_refl eq_refl)
    as (entries & s' & Hgen & Hn & _).
  - intros p _. apply lookup_empty.
  - vm_compute. reflexivity.
  - vm_compute. discriminate.
  - exists entries, s'. split; [exact Hgen|]. rewrite Hn. vm_compute. reflexivity.
Defined.

Section Restoration.

Context (L : Libs).

(** Where [load_inputs] can have stopped: only the two uploads may have been
    stored, and only the two output folders made. *)
Lemma load_inputs_raise_state (template_file csv_file : FileStorage) (work_dir : string)
  (s0 s1 : fs) (msg : string) :
  load_inputs L template_file csv_file work_dir s0 = (Raise msg, s1) ->
  (forall p,
     p <> path_join work_dir (secure_filename L (filename template_file)) ->
     p <> path_join work_dir (secure_filename L (filename csv_file)) ->
     fs_files s1 !! p = fs_files s0 !! p) /\
  (fs_dirs s1 = fs_dirs s0 \/
   fs_dirs s1 =
     {[path_join work_dir "output_docs";
       path_join (path_join work_dir "output_docs") "pdf_files"]} ∪ fs_dirs s0).
Proof.
  unfold load_inputs, pd_read_csv, open_template, makedirs2, iobind, lift,
    read_file, write_file, ret.
  cbv beta.
  repeat match goal with
  | |- context [match ?x with _ => _ end] =>
      lazymatch x with
      | context [match _ with _ => _ end] => fail
      | _ => destruct x eqn:?; cbv beta iota; try discriminate
      end
  end;
  intros [= _ <-]; cbn [fs_files fs_dirs];
  (split; [intros p Hp1 Hp2; rewrite ?lookup_insert_ne by congruence; reflexivity
          | auto]).
Qed.

End Restoration.

(** X23. A request that ends with the archive leaves the file system
    exactly as it found it: every file and directory it made was below the
    work directory, and that is removed before the answer.  (The work
    directory is new: its name is an absolute path without a trailing slash,
    it did not exist before and nothing existed below it;
    [secure_filename] returns names without a slash; and the loop runs to
    its end, the label of every failing row having a successor.) *)
Theorem generate_success_restores (L : Libs) (request : Request)
  (template_file csv_file : FileStorage) (s s0 s1 : fs) (work_dir : string)
  (data : DataFrame (Cell L)) (doc_template : Template L) :
  req_files request !! "template" = Some template_file ->
  req_files request !! "csv" = Some csv_file ->
  String.eqb (filename template_file) "" = false ->
  String.eqb (filename csv_file) "" = false ->
  mkdtemp L s = (Ok work_dir, s0) ->
  load_inputs L template_file csv_file work_dir s0 = (Ok (data, doc_template), s1) ->
  String.eqb work_dir "" || endswith "/" work_dir = false ->
  contains_char "/" (secure_filename L (filename template_file)) = false ->
  contains_char "/" (secure_filename L (filename csv_file)) = false ->
  (work_dir ∉ fs_dirs s) ->
  (forall p, is_under work_dir p = true -> fs_files s !! p = None /\ p ∉ fs_dirs s) ->
  lines_printable L (iterrows L data)
    (run_rows L
       (path_join work_dir (secure_filename L (filename template_file)))
       (path_join work_dir "output_docs")
       (path_join (path_join work_dir "output_docs") "pdf_files")
       doc_template (parse_mapping L request) (iterrows L data) s1).1 = true ->
  count_ok (run_rows L
              (path_join work_dir (secure_filename L (filename template_file)))
              (path_join work_dir "output_docs")
              (path_join (path_join work_dir "output_docs") "pdf_files")
              doc_template (parse_mapping L request) (iterrows L data) s1).1 <> 0 ->
  status (generate_documents L request s).1 = 200 /\
  (generate_documents L request s).2 = s.
Proof.
  intros Ht Hc Hnt Hnc Hmk Hload Hshape Hst Hsc Hnew Hfresh Hprint Hcount.
  pose proof (generate_documents_loaded L request template_file csv_file s s0 s1
                work_dir data doc_template Ht Hc Hnt Hnc Hmk Hload Hprint)
    as [Hdir Hgen].
  cbn zeta in Hdir, Hgen. apply Nat.eqb_neq in Hcount.
  rewrite Hcount in Hgen. rewrite Hgen. cbn [fst snd status].
  split; [reflexivity|].
  pose proof (load_inputs_ok L template_file csv_file work_dir s0 s1 _ Hload)
    as [Hfiles Hdirs]. cbn zeta in Hfiles, Hdirs.
  pose proof (mkdtemp_ok L s s0 work_dir Hmk) as Hs0. subst s0.
  cbn [fs_files fs_dirs] in Hfiles, Hdirs.
  rewrite (rmtree_restores work_dir s _ Hnew Hfresh Hdir); [reflexivity|..].
  - intros p Hp. rewrite run_rows_untouched.
    + rewrite Hfiles. rewrite !lookup_insert_ne; [reflexivity|..].
      * intros <-. rewrite upload_under_work_dir in Hp by assumption. discriminate.
      * intros <-. rewrite upload_under_work_dir in Hp by assumption. discriminate.
    + intros Hw. apply written_paths_elem in Hw as (i & idx & row & _ & _ & ->).
      rewrite docx_path_under in Hp by assumption. discriminate.
    + intros Hcv. apply converted_paths_elem in Hcv as (i & idx & row & _ & _ & ->).
      rewrite pdf_path_under in Hp by assumption. discriminate.
  - intros d. rewrite run_rows_dirs, Hdirs.
    rewrite !elem_of_union, !elem_of_singleton.
    split.
    + intros [[-> | ->] | [-> | Hd]]; auto.
      * right; right. split; [auto|]. now apply output_folder_itself_under.
      * right; right. split; [auto|]. now apply pdf_folder_under.
    + intros [Hd | [-> | [Hd _]]]; auto.
Qed.

Lemma generate_success_restores_witness :
  (generate_documents Demo.libs (Demo.upload "letter.docx" "rows.csv" [Byte.x01; Byte.x00])
     Demo.empty_fs).2 = Demo.empty_fs.
Proof.
  pose (s0 := (mkdtemp Demo.libs Demo.empty_fs).2).
  pose (template_file := mkFile "letter.docx" (Demo.b "T:")).
  pose (csv_file := mkFile "rows.csv" [Byte.x01; Byte.x00]).
  pose (loaded := load_inputs Demo.libs template_file csv_file "/tmp/tmpwork" s0).
  pose (data := Demo.frame [Byte.x01; Byte.x00]).
  assert (load_inputs Demo.libs template_file csv_file "/tmp/tmpwork" s0
          = (Ok (data, Demo.b "T:"), loaded.2)) as Hload
    by (vm_compute; reflexivity).
  destruct (generate_success_restores Demo.libs
              (Demo.upload "letter.docx" "rows.csv" [Byte.x01; Byte.x00])
              template_file csv_file Demo.empty_fs s0 loaded.2 "/tmp/tmpwork" data
              (Demo.b "T:") eq_refl eq_refl eq_refl eq_refl eq_refl Hload
              eq_refl eq_refl eq_refl) as [_ H].
  - apply (bool_decide_unpack _). vm_compute. exact I.
  - intros p Hp. split; [apply lookup_empty|].
    apply is_under_inv in Hp as [r ->]. cbn [Demo.empty_fs fs_dirs].
    rewrite elem_of_singleton. discriminate.
  - vm_compute. reflexivity.
  - vm_compute. discriminate.
  - exact H.
Defined.

(** X24. A request that fails while its uploads are stored and loaded
    also leaves the file system exactly as it found it: the [except] clause
    removes the work directory with whatever had been stored in it.  (Same
    provisos on the work directory and on [secure_filename] as for X23.) *)
Theorem generate_load_failure_restores (L : Libs) (request : Request)
  (template_file csv_file : FileStorage) (s s0 s1 : fs) (work_dir msg : string) :
  req_files request !! "template" = Some template_file ->
  req_files request !! "csv" = Some csv_file ->
  String.eqb (filename template_file) "" = false ->
  String.eqb (filename csv_file) "" = false ->
  mkdtemp L s = (Ok work_dir, s0) ->
  load_inputs L template_file csv_file work_dir s0 = (Raise msg, s1) ->
  String.eqb work_dir "" || endswith "/" work_dir = false ->
  contains_char "/" (secure_filename L (filename template_file)) = false ->
  contains_char "/" (secure_filename L (filename csv_file)) = false ->
  (work_dir ∉ fs_dirs s) ->
  (forall p, is_under work_dir p = true -> fs_files s !! p = None /\ p ∉ fs_dirs s) ->
  generate_documents L request s =
  (json_error L 400 ("Ошибка обработки: " +:+ msg), s).
Proof.
  intros Ht Hc Hnt Hnc Hmk Hload Hshape Hst Hsc Hnew Hfresh.
  assert (work_dir ∈ fs_dirs s1) as Hdir.
  { pose proof (load_inputs_raise_dirs L _ _ _ _ _ _ Hload) as Hsub.
    pose proof (mkdtemp_ok L s s0 work_dir Hmk) as Hs0. subst s0.
    cbn [fs_dirs] in Hsub. apply Hsub, elem_of_union. left.
    now apply elem_of_singleton. }
  pose proof (load_inputs_raise_state L _ _ _ _ _ _ Hload) as [Hfiles Hdirs].
  pose proof (mkdtemp_ok L s s0 work_dir Hmk) as Hs0. subst s0.
  cbn [fs_files fs_dirs] in Hfiles, Hdirs.
  assert (rmtree work_dir s1 = (Ok tt, s)) as Hrm.
  { apply rmtree_restores; try assumption.
    - intros p Hp. apply Hfiles.
      + intros ->. rewrite upload_under_work_dir in Hp by assumption. discriminate.
      + intros ->. rewrite upload_under_work_dir in Hp by assumption. discriminate.
    - intros d. destruct Hdirs as [-> | ->].
      + rewrite !elem_of_union, elem_of_singleton. tauto.
      + rewrite !elem_of_union, !elem_of_singleton.
        split.
        * intros [[-> | ->] | [-> | Hd]]; auto.
          -- right; right. split; [auto|]. now apply output_folder_itself_under.
          -- right; right. split; [auto|]. now apply pdf_folder_under.
        * intros [Hd | [-> | [Hd _]]]; auto. }
  unfold generate_documents, outer_try. rewrite Ht, Hc, Hnt, Hnc. cbn [orb].
  unfold iobind at 1. rewrite Hmk.
  unfold try_except, generate_in_workdir. unfold iobind at 1. rewrite Hload.
  unfold iobind. now rewrite Hrm.
Qed.

Lemma generate_load_failure_restores_witness :
  generate_documents Demo.libs (Demo.upload "letter.docx" "rows.csv" []) Demo.empty_fs =
  (json_error Demo.libs 400 "Ошибка обработки: No columns to parse from file",
   Demo.empty_fs).
Proof.
  pose (s0 := (mkdtemp Demo.libs Demo.empty_fs).2).
  pose (template_file := mkFile "letter.docx" (Demo.b "T:")).
  pose (csv_file := mkFile "rows.csv" []).
  pose (loaded := load_inputs Demo.libs template_file csv_file "/tmp/tmpwork" s0).
  assert (load_inputs Demo.libs template_file csv_file "/tmp/tmpwork" s0
          = (Raise "No columns to parse from file", loaded.2)) as Hload
    by (vm_compute; reflexivity).
  apply (generate_load_failure_restores Demo.libs
           (Demo.upload "letter.docx" "rows.csv" [])
           template_file csv_file Demo.empty_fs s0 loaded.2 "/tmp/tmpwork"
           "No columns to parse from file"
           eq_refl eq_refl eq_refl eq_refl eq_refl Hload eq_refl eq_refl eq_refl).
  - apply (bool_decide_unpack _). vm_compute. exact I.
  - intros p Hp. split; [apply lookup_empty|].
    apply is_under_inv in Hp as [r ->]. cbn [Demo.empty_fs fs_dirs].
    rewrite elem_of_singleton. discriminate.
Defined.

Section Answers.

Context (L : Libs).

Lemma mkdtemp_run (s : fs) (work_dir : string) :
  mkdtemp_name L s = Ok work_dir ->
  mkdtemp L s = (Ok work_dir, mkFs (fs_files s) ({[work_dir]} ∪ fs_dirs s)).
Proof. intros H. unfold mkdtemp. now rewrite H. Qed.

(** With a field mapping that is not an object no row of a template with a
    variable succeeds. *)
Lemma run_rows_not_object (template_path output_folder pdf_folder : string)
  (doc_template : Template L) (v : string) (vars : list string)
  (rows : list (Label * Series (Cell L))) (s : fs) :
  get_undeclared_variables L doc_template = Ok (v :: vars) ->
  count_ok (run_rows L template_path output_folder pdf_folder doc_template
              JNotObject rows s).1 = 0.
Proof.
  intros Hv. revert s. induction rows as [|[idx row] rows IH]; intros s;
    cbn [run_rows fst snd count_ok]; [reflexivity|].
  assert (render_row L template_path output_folder pdf_folder doc_template
            JNotObject idx row s = (Raise "object has no attribute 'get'", s)) as ->.
  { unfold render_row, iobind, lift. now rewrite Hv. }
  cbn [fst snd]. apply IH.
Qed.

End Answers.

(** X25. [POST /api/generate] always answers, and in one of two shapes:
    status 200 with the archive as an attachment named
    [documents_<timestamp>.zip], or a JSON error with status 400 or 500.
    This holds for every request, every state of the file system and
    whatever the libraries do. *)
Theorem generate_answer_shapes (L : Libs) (request : Request) (s : fs) :
  (exists entries,
     (generate_documents L request s).1 =
     mkResponse 200 (ZipAttachment ("documents_" +:+ timestamp L +:+ ".zip") entries)) \/
  (exists code msg,
     (generate_documents L request s).1 = json_error L code msg /\
     (code = 400 \/ code = 500)).
Proof.
  destruct (incomplete_upload request) eqn:Hinc.
  { destruct (generate_documents_incomplete L request s Hinc) as [msg ->].
    right. exists 400, msg. auto. }
  destruct (generate_documents_complete request s Hinc)
    as (t & c & Ht & Hc & Hnt & Hnc).
  destruct (mkdtemp_name L s) as [work_dir|msg] eqn:Hname.
  2:{ rewrite (generate_documents_no_work_dir L request s msg Hinc Hname).
      right. eexists 500, _. split; [reflexivity | auto]. }
  pose proof (mkdtemp_run L s work_dir Hname) as Hmk.
  destruct (load_inputs L t c work_dir (mkFs (fs_files s) ({[work_dir]} ∪ fs_dirs s)))
    as [[[data doc_template]|msg] s1] eqn:Hload.
  - destruct (lines_printable L (iterrows L data)
                (run_rows L (path_join work_dir (secure_filename L (filename t)))
                   (path_join work_dir "output_docs")
                   (path_join (path_join work_dir "output_docs") "pdf_files")
                   doc_template (parse_mapping L request) (iterrows L data) s1).1)
      eqn:Hprint.
    + pose proof (generate_documents_loaded L request t c s _ s1 work_dir data
                    doc_template Ht Hc Hnt Hnc Hmk Hload Hprint) as [_ Hgen].
      cbn zeta in Hgen. rewrite Hgen.
      destruct (Nat.eqb _ 0); cbn [fst].
      * right. eexists 400, _. split; [reflexivity | auto].
      * left. eexists. reflexivity.
    + destruct (generate_documents_aborted L request t c s _ s1 work_dir data
                  doc_template Ht Hc Hnt Hnc Hmk Hload Hprint)
        as (e & s' & ? & ? & ? & ? & -> & _).
      right. eexists 400, _. split; [reflexivity | auto].
  - assert (generate_documents L request s =
            match rmtree work_dir s1 with
            | (Ok _, s') => (json_error L 400 ("Ошибка обработки: " +:+ msg), s')
            | (Raise e, s') => (json_error L 500 ("Критическая ошибка: " +:+ e), s')
            end) as ->.
    { unfold generate_documents, outer_try. rewrite Ht, Hc, Hnt, Hnc. cbn [orb].
      unfold iobind at 1. rewrite Hmk.
      unfold try_except, generate_in_workdir. unfold iobind at 1. rewrite Hload.
      unfold iobind. now destruct (rmtree work_dir s1) as [[u|e] s']. }
    right. destruct (rmtree work_dir s1) as [[u|e] s']; cbn [fst].
    + eexists 400, _. split; [reflexivity | auto].
    + eexists 500, _. split; [reflexivity | auto].
Qed.

(** X26. A [mapping] field that is valid JSON but not an object (a list,
    a string, a number, [null]) is not treated as empty: the lookup
    [field_mapping.get] raises in every row, so for a template with at least
    one variable no row succeeds and the request is answered with status
    400. *)
Theorem non_object_mapping_fails_request (L : Libs) (request : Request)
  (template_file csv_file : FileStorage) (s s0 s1 : fs) (work_dir : string)
  (data : DataFrame (Cell L)) (doc_template : Template L)
  (v : string) (vars : list string) :
  req_files request !! "template" = Some template_file ->
  req_files request !! "csv" = Some csv_file ->
  String.eqb (filename template_file) "" = false ->
  String.eqb (filename csv_file) "" = false ->
  mkdtemp L s = (Ok work_dir, s0) ->
  load_inputs L template_file csv_file work_dir s0 = (Ok (data, doc_template), s1) ->
  parse_mapping L request = JNotObject ->
  get_undeclared_variables L doc_template = Ok (v :: vars) ->
  status (generate_documents L request s).1 = 400 /\
  count_ok (run_rows L
              (path_join work_dir (secure_filename L (filename template_file)))
              (path_join work_dir "output_docs")
              (path_join (path_join work_dir "output_docs") "pdf_files")
              doc_template (parse_mapping L request) (iterrows L data) s1).1 = 0.
Proof.
  intros Ht Hc Hnt Hnc Hmk Hload Hmap Hv.
  split.
  2:{ rewrite Hmap. exact (run_rows_not_object L _ _ _ doc_template v vars _ s1 Hv). }
  destruct (lines_printable L (iterrows L data)
              (run_rows L
                 (path_join work_dir (secure_filename L (filename template_file)))
                 (path_join work_dir "output_docs")
                 (path_join (path_join work_dir "output_docs") "pdf_files")
                 doc_template (parse_mapping L request) (iterrows L data) s1).1)
    eqn:Hprint.
  - pose proof (generate_documents_loaded L request template_file csv_file s s0 s1
                  work_dir data doc_template Ht Hc Hnt Hnc Hmk Hload Hprint)
      as [_ Hgen].
    cbn zeta in Hgen. rewrite Hmap in Hgen.
    rewrite (run_rows_not_object L _ _ _ doc_template v vars _ s1 Hv) in Hgen.
    now rewrite Hgen.
  - destruct (generate_documents_aborted L request template_file csv_file s s0 s1
                work_dir data doc_template Ht Hc Hnt Hnc Hmk Hload Hprint)
      as (e & s' & ? & ? & ? & ? & -> & _).
    reflexivity.
Qed.

Lemma non_object_mapping_fails_request_witness :
  let L := Demo.world (fun _ => Ok "/tmp/tmpwork") (fun _ => None)
             (fun _ => Raise "no converter installed") (fun _ => Ok JNotObject) in
  let request := with_mapping (Demo.upload "letter.docx" "rows.csv" [Byte.x01]) "[]" in
  status (generate_documents L request Demo.empty_fs).1 = 400.
Proof.
  intros L request.
  pose (s0 := (mkdtemp L Demo.empty_fs).2).
  pose (template_file := mkFile "letter.docx" (Demo.b "T:")).
  pose (csv_file := mkFile "rows.csv" [Byte.x01]).
  pose (loaded := load_inputs L template_file csv_file "/tmp/tmpwork" s0).
  pose (data := Demo.frame [Byte.x01]).
  assert (load_inputs L template_file csv_file "/tmp/tmpwork" s0
          = (Ok (data, Demo.b "T:"), loaded.2)) as Hload
    by (vm_compute; reflexivity).
  destruct (non_object_mapping_fails_request L request template_file csv_file
              Demo.empty_fs s0 loaded.2 "/tmp/tmpwork" data (Demo.b "T:")
              "Name" ["Phone"]
              eq_refl eq_refl eq_refl eq_refl eq_refl Hload eq_refl eq_refl) as [H _].
  exact H.
Defined.

(** X29. When a row fails and the label it has in the index of the frame
    has no successor (a string label, as [read_csv] gives when the data lines
    have one field more than the header), the request as a whole fails,
    whatever the other rows do: the exception raised while the error line is
    written leaves the loop, the [except] clause of the inner [try] removes
    the work directory, and the answer is status 400 with the message of
    that exception.  No archive is returned for the rows that succeeded
    before. *)
Theorem unwritable_error_line_fails_request (L : Libs) (request : Request)
  (template_file csv_file : FileStorage) (s s0 s1 : fs) (work_dir : string)
  (data : DataFrame (Cell L)) (doc_template : Template L) :
  req_files request !! "template" = Some template_file ->
  req_files request !! "csv" = Some csv_file ->
  String.eqb (filename template_file) "" = false ->
  String.eqb (filename csv_file) "" = false ->
  mkdtemp L s = (Ok work_dir, s0) ->
  load_inputs L template_file csv_file work_dir s0 = (Ok (data, doc_template), s1) ->
  let template_path := path_join work_dir (secure_filename L (filename template_file)) in
  let output_folder := path_join work_dir "output_docs" in
  let pdf_folder := path_join output_folder "pdf_files" in
  let rows := iterrows L data in
  let outcomes :=
    (run_rows L template_path output_folder pdf_folder doc_template
       (parse_mapping L request) rows s1).1 in
  lines_printable L rows outcomes = false ->
  exists e s' i idx row msg,
    generate_documents L request s =
      (json_error L 400 ("Ошибка обработки: " +:+ e), s') /\
    (work_dir ∉ fs_dirs s') /\
    rows !! i = Some (idx, row) /\
    outcomes !! i = Some (Raise msg) /\
    label_next idx = Raise e.
Proof.
  intros Ht Hc Hnt Hnc Hmk Hload template_path output_folder pdf_folder rows
    outcomes Hprint.
  exact (generate_documents_aborted L request template_file csv_file s s0 s1
           work_dir data doc_template Ht Hc Hnt Hnc Hmk Hload Hprint).
Qed.

Lemma unwritable_error_line_fails_request_witness :
  let csv := Demo.csv_lines ["Name"; "k1;Alice"; "k2;FAIL"] in
  let request := Demo.upload "letter.docx" "rows.csv" csv in
  status (generate_documents Demo.csv_libs request Demo.empty_fs).1 = 400.
Proof.
  intros csv request.
  pose (s0 := (mkdtemp Demo.csv_libs Demo.empty_fs).2).
  pose (template_file := mkFile "letter.docx" (Demo.b "T:")).
  pose (csv_file := mkFile "rows.csv" csv).
  pose (loaded := load_inputs Demo.csv_libs template_file csv_file "/tmp/tmpwork" s0).
  pose (data := mkDataFrame (Cell := option string) ["Name"]
                  [(StrLabel "k1", [("Name", Some "Alice")]);
                   (StrLabel "k2", [("Name", Some "FAIL")])]).
  assert (load_inputs Demo.csv_libs template_file csv_file "/tmp/tmpwork" s0
          = (Ok (data, Demo.b "T:"), loaded.2)) as Hload
    by (vm_compute; reflexivity).
  destruct (unwritable_error_line_fails_request Demo.csv_libs request template_file
              csv_file Demo.empty_fs s0 loaded.2 "/tmp/tmpwork" data (Demo.b "T:")
              eq_refl eq_refl eq_refl eq_refl eq_refl Hload)
    as (e & s' & _ & _ & _ & _ & Hgen & _); [vm_compute; reflexivity|].
  rewrite Hgen. reflexivity.
Defined.
